(** * SA-Validation Prototype: the expiring content cache

    A shallow embedding of the disk-backed response cache shared by
    [src/utils/paper_collector.py] (class [PaperCollector]) and
    [src/utils/llm_analyzer.py] (class [LLMAnalyzer]), together with the
    callers that the cache contract mentions ([search_semantic_scholar],
    [analyze_paper], [extract_mirofish_integration_points],
    [batch_analyze]).

    Python values are modelled by the inductive type [pyvalue]; a Python
    [str] is modelled by the Rocq [string] holding its UTF-8 encoding, so
    that [str.encode()] is the identity and file contents are byte strings.
    Stateful code is written in a state-and-exception monad over [World]
    (files, clock, log of remote calls). *)

From Stdlib Require Import ZArith QArith Qround String Ascii List Lia.
From stdpp Require Import gmap strings pretty.
Import ListNotations.

Local Open Scope string_scope.
Local Open Scope Z_scope.
Set Warnings "-register-all".

(* ===================================================================== *)
(** ** Byte strings *)
(* ===================================================================== *)

Definition byte_of (c : ascii) : Z := Z.of_N (N_of_ascii c).
Definition ascii_of (b : Z) : ascii := ascii_of_N (Z.to_N b).

Fixpoint bytes_of_string (s : string) : list Z :=
  match s with
  | EmptyString => []
  | String c r => byte_of c :: bytes_of_string r
  end.

Fixpoint string_of_bytes (l : list Z) : string :=
  match l with
  | [] => EmptyString
  | b :: r => String (ascii_of b) (string_of_bytes r)
  end.

(** The one-character string holding byte [b]. *)
Definition chr (b : Z) : string := String (ascii_of b) EmptyString.

(** The double quote, which string literals of this file never contain. *)
Definition dq : string := chr 34.

(* ===================================================================== *)
(** ** hashlib.md5 (RFC 1321) *)
(* ===================================================================== *)

Module MD5.

Definition mask32 (x : Z) : Z := Z.land x 0xFFFFFFFF.
Definition add32 (x y : Z) : Z := mask32 (x + y).
Definition not32 (x : Z) : Z := Z.lxor x 0xFFFFFFFF.
Definition rotl32 (x c : Z) : Z :=
  mask32 (Z.lor (Z.shiftl x c) (Z.shiftr x (32 - c))).

Definition shifts : list Z :=
  [7; 12; 17; 22; 7; 12; 17; 22; 7; 12; 17; 22; 7; 12; 17; 22;
   5;  9; 14; 20; 5;  9; 14; 20; 5;  9; 14; 20; 5;  9; 14; 20;
   4; 11; 16; 23; 4; 11; 16; 23; 4; 11; 16; 23; 4; 11; 16; 23;
   6; 10; 15; 21; 6; 10; 15; 21; 6; 10; 15; 21; 6; 10; 15; 21].

(** [K i = floor (2^32 * |sin (i + 1)|)]. *)
Definition K : list Z :=
  [0xd76aa478; 0xe8c7b756; 0x242070db; 0xc1bdceee;
   0xf57c0faf; 0x4787c62a; 0xa8304613; 0xfd469501;
   0x698098d8; 0x8b44f7af; 0xffff5bb1; 0x895cd7be;
   0x6b901122; 0xfd987193; 0xa679438e; 0x49b40821;
   0xf61e2562; 0xc040b340; 0x265e5a51; 0xe9b6c7aa;
   0xd62f105d; 0x02441453; 0xd8a1e681; 0xe7d3fbc8;
   0x21e1cde6; 0xc33707d6; 0xf4d50d87; 0x455a14ed;
   0xa9e3e905; 0xfcefa3f8; 0x676f02d9; 0x8d2a4c8a;
   0xfffa3942; 0x8771f681; 0x6d9d6122; 0xfde5380c;
   0xa4beea44; 0x4bdecfa9; 0xf6bb4b60; 0xbebfbc70;
   0x289b7ec6; 0xeaa127fa; 0xd4ef3085; 0x04881d05;
   0xd9d4d039; 0xe6db99e5; 0x1fa27cf8; 0xc4ac5665;
   0xf4292244; 0x432aff97; 0xab9423a7; 0xfc93a039;
   0x655b59c3; 0x8f0ccc92; 0xffeff47d; 0x85845dd1;
   0x6fa87e4f; 0xfe2ce6e0; 0xa3014314; 0x4e0811a1;
   0xf7537e82; 0xbd3af235; 0x2ad7d2bb; 0xeb86d391].

(** Little-endian encoding of [x] on [n] bytes. *)
Fixpoint le_bytes (n : nat) (x : Z) : list Z :=
  match n with
  | O => []
  | S k => Z.land x 0xFF :: le_bytes k (Z.shiftr x 8)
  end.

Fixpoint le_word (bs : list Z) : Z :=
  match bs with
  | [] => 0
  | b :: r => Z.lor b (Z.shiftl (le_word r) 8)
  end.

(** Message, then 0x80, then zero bytes up to 56 modulo 64, then the bit
    length on 64 bits. *)
Definition pad (msg : list Z) : list Z :=
  let n := Z.of_nat (length msg) in
  msg ++ [0x80] ++ repeat 0 (Z.to_nat ((55 - n) mod 64))
      ++ le_bytes 8 (Z.land (8 * n) 0xFFFFFFFFFFFFFFFF).

Fixpoint chunks (fuel : nat) (k : nat) (l : list Z) : list (list Z) :=
  match fuel, l with
  | _, [] => []
  | O, _ => []
  | S f, _ => firstn k l :: chunks f k (skipn k l)
  end.

Definition words (block : list Z) : list Z :=
  map le_word (chunks 16 4 block).

Definition state : Type := Z * Z * Z * Z.

Definition round (M : list Z) (st : state) (i : Z) : state :=
  let '(a, b, c, d) := st in
  let '(f, g) :=
    if i <? 16 then (Z.lor (Z.land b c) (Z.land (not32 b) d), i)
    else if i <? 32 then
      (Z.lor (Z.land d b) (Z.land (not32 d) c), (5 * i + 1) mod 16)
    else if i <? 48 then (Z.lxor b (Z.lxor c d), (3 * i + 5) mod 16)
    else (Z.lxor c (Z.lor b (not32 d)), (7 * i) mod 16) in
  let f' := add32 (add32 (add32 f a) (nth (Z.to_nat i) K 0))
                  (nth (Z.to_nat g) M 0) in
  (d, add32 b (rotl32 f' (nth (Z.to_nat i) shifts 0)), b, c).

Definition process (st : state) (block : list Z) : state :=
  let '(a0, b0, c0, d0) := st in
  let '(a, b, c, d) :=
    fold_left (round (words block)) (map Z.of_nat (seq 0 64)) st in
  (add32 a0 a, add32 b0 b, add32 c0 c, add32 d0 d).

Definition init : state := (0x67452301, 0xefcdab89, 0x98badcfe, 0x10325476).

Definition digest (msg : list Z) : list Z :=
  let p := pad msg in
  let '(a, b, c, d) := fold_left process (chunks (length p) 64 p) init in
  le_bytes 4 a ++ le_bytes 4 b ++ le_bytes 4 c ++ le_bytes 4 d.

Definition hex_digit (n : Z) : string :=
  chr (if n <? 10 then 48 + n else 87 + n).

Definition hex_byte (b : Z) : string :=
  hex_digit (Z.shiftr b 4) +:+ hex_digit (Z.land b 0xF).

Fixpoint hex (bs : list Z) : string :=
  match bs with
  | [] => EmptyString
  | b :: r => hex_byte b +:+ hex r
  end.

(** [hashlib.md5(data).hexdigest()]. *)
Definition hexdigest (data : string) : string :=
  hex (digest (bytes_of_string data)).

End MD5.

(* ===================================================================== *)
(** ** Python values *)
(* ===================================================================== *)

(** The values that [json.dump] accepts: the payloads of the cache and
    the paper dictionaries. [json.load] produces all of them but the
    tuple, which [json.dump] writes as a list. A [dict] keeps its items in
    insertion order; its keys are strings. Floating-point numbers are not
    modelled. *)
Inductive pyvalue : Type :=
  | PNone
  | PBool (b : bool)
  | PInt (n : Z)
  | PStr (s : string)
  | PList (l : list pyvalue)
  | PDict (d : list (string * pyvalue))
  | PTuple (l : list pyvalue).

Definition pydict : Type := list (string * pyvalue).

(** [bool(v)]. *)
Definition py_truthy (v : pyvalue) : bool :=
  match v with
  | PNone => false
  | PBool b => b
  | PInt n => negb (n =? 0)
  | PStr s => negb (String.eqb s EmptyString)
  | PList l => match l with [] => false | _ => true end
  | PDict d => match d with [] => false | _ => true end
  | PTuple l => match l with [] => false | _ => true end
  end.

(** [type(v).__name__]. *)
Definition type_name (v : pyvalue) : string :=
  match v with
  | PNone => "NoneType"
  | PBool _ => "bool"
  | PInt _ => "int"
  | PStr _ => "str"
  | PList _ => "list"
  | PDict _ => "dict"
  | PTuple _ => "tuple"
  end.

(** [v is not None]. *)
Definition is_not_None (v : pyvalue) : bool :=
  match v with PNone => false | _ => true end.

(** [d.get(key, default)]. *)
Fixpoint dict_get (d : pydict) (key : string) (default : pyvalue) : pyvalue :=
  match d with
  | [] => default
  | (k, v) :: r => if String.eqb k key then v else dict_get r key default
  end.

(** [key in d]. *)
Fixpoint dict_has (d : pydict) (key : string) : bool :=
  match d with
  | [] => false
  | (k, _) :: r => if String.eqb k key then true else dict_has r key
  end.

(** [d[key] = v]: an existing key keeps its position, a new one goes last. *)
Fixpoint dict_set (d : pydict) (key : string) (v : pyvalue) : pydict :=
  match d with
  | [] => [(key, v)]
  | (k, x) :: r =>
      if String.eqb k key then (k, v) :: r else (k, x) :: dict_set r key v
  end.

(** The characters of a [str]: its UTF-8 encoding cut at the lead bytes. *)
Fixpoint utf8_chars (fuel : nat) (s : string) : list string :=
  match fuel, s with
  | _, EmptyString => []
  | O, _ => []
  | S f, String c r =>
      let b := byte_of c in
      let n := if b <? 0xC0 then 1%nat else if b <? 0xE0 then 2%nat
               else if b <? 0xF0 then 3%nat else 4%nat in
      substring 0 n s :: utf8_chars f (substring n (String.length s - n) s)
  end.

Definition str_chars (s : string) : list string :=
  utf8_chars (String.length s) s.

(** [str(v)], which is also what an f-string puts for [{v}]. The [repr] of
    a list, dict or tuple is left to the runtime. *)
Definition py_str (repr : pyvalue -> string) (v : pyvalue) : string :=
  match v with
  | PStr s => s
  | PNone => "None"
  | PBool true => "True"
  | PBool false => "False"
  | PInt n => pretty n
  | _ => repr v
  end.

(* ===================================================================== *)
(** ** Exceptions *)
(* ===================================================================== *)

(** The classes that the code tells apart or that its primitives raise.
    All of them derive from [Exception]; signals that do not
    ([KeyboardInterrupt], [SystemExit]) are not modelled. *)
Inductive exn_class : Type :=
  | JSONDecodeError
  | UnicodeDecodeError
  | OSError
  | OverflowError
  | ValueError
  | TypeError
  | AttributeError
  | UnboundLocalError
  | RequestException
  | OtherException.

(** An exception: its class and [str(e)]. *)
Record exn : Type := Exn { exn_class_of : exn_class; exn_str : string }.

Definition is_JSONDecodeError (e : exn) : bool :=
  match exn_class_of e with JSONDecodeError => true | _ => false end.

Definition is_RequestException (e : exn) : bool :=
  match exn_class_of e with RequestException => true | _ => false end.

(** [except Exception]. *)
Definition is_Exception (e : exn) : bool := true.

(* ===================================================================== *)
(** ** The world: files, clock, remote services *)
(* ===================================================================== *)

(** A file: its bytes and [st_mtime], in microseconds. *)
Record file : Type := File { f_data : string; f_mtime : Z }.

(** A request to a remote collaborator. *)
Inductive remote_call : Type :=
  | HttpGet (url : string) (params : pydict) (headers : list (string * string))
  | ChatCompletion (model : string) (messages : list (string * string))
                   (temperature : Q) (max_tokens : Z).

Record World : Type := mkWorld {
  files : gmap string file;      (* path -> file *)
  writable : string -> bool;     (* can the path be opened for writing *)
  open_error : string -> string; (* if not, [str(e)] of the [OSError] *)
  clock : Z;                     (* local time, microseconds *)
  calls : list remote_call       (* remote calls so far, latest first *)
}.

Definition set_files (fs : gmap string file) (w : World) : World :=
  mkWorld fs (writable w) (open_error w) (clock w) (calls w).
Definition set_clock (t : Z) (w : World) : World :=
  mkWorld (files w) (writable w) (open_error w) t (calls w).
Definition log_call (c : remote_call) (w : World) : World :=
  mkWorld (files w) (writable w) (open_error w) (clock w) (c :: calls w).

(** The text of [PermissionError] and of [FileNotFoundError] for a path
    without quote or backslash. *)
Definition permission_denied (path : string) : string :=
  "[Errno 13] Permission denied: '" +:+ path +:+ "'".

(** What the code calls and does not define: the [json] module, [repr],
    [time.strftime] and the remote services. A remote service answers
    from the calls it has seen so far and the call it receives. *)
Class Runtime : Type := {
  (** [json.dumps(v, indent=2)], which writes every [pyvalue] *)
  json_dumps : pyvalue -> string;
  (** [json.loads(s)] *)
  json_loads : string -> pyvalue + exn;
  (** [repr(v)] *)
  py_repr : pyvalue -> string;
  (** [time.strftime('%Y-%m-%d %H:%M:%S')] at a given clock *)
  strftime : Z -> string;
  (** [session.get(...)], [raise_for_status()] and [response.json()] *)
  http_respond : list remote_call -> remote_call -> pyvalue + exn;
  (** [client.chat.completions.create(...).choices[0].message.content] *)
  llm_respond : list remote_call -> remote_call -> option string + exn
}.

(* ===================================================================== *)
(** ** The monad of Python statements *)
(* ===================================================================== *)

(** A statement returns, raises, or (a loop whose bound ran out) diverges. *)
Inductive result (A : Type) : Type :=
  | Ok (a : A)
  | Raise (e : exn)
  | Diverge.
Arguments Ok {A} a.
Arguments Raise {A} e.
Arguments Diverge {A}.

Definition M (A : Type) : Type := World -> result A * World.

Definition ret {A} (a : A) : M A := fun w => (Ok a, w).
Definition raise {A} (c : exn_class) (msg : string) : M A :=
  fun w => (Raise (Exn c msg), w).
Definition diverge {A} : M A := fun w => (Diverge, w).

Definition bind {A B} (m : M A) (k : A -> M B) : M B :=
  fun w =>
    match m w with
    | (Ok a, w') => k a w'
    | (Raise e, w') => (Raise e, w')
    | (Diverge, w') => (Diverge, w')
    end.

Notation "'let*' x ':=' m 'in' k" := (bind m (fun x => k))
  (at level 10, x pattern, m at level 200, k at level 200).

(** [try: body / except C: handler]: the effects of [body] up to the
    exception stay. *)
Definition try_except {A} (body : M A) (catches : exn -> bool)
    (handler : exn -> M A) : M A :=
  fun w =>
    match body w with
    | (Raise e, w') => if catches e then handler e w' else (Raise e, w')
    | r => r
    end.

(** [try: x = body / except Exception as e: ...], the outcome made a value. *)
Definition attempt {A} (body : M A) : M (A + exn) :=
  try_except (let* a := body in ret (inl a)) is_Exception
             (fun e => ret (inr e)).

(* ===================================================================== *)
(** ** Library primitives *)
(* ===================================================================== *)

(** Is the byte string well-formed UTF-8, as the strict decoder of
    [open(..., encoding='utf-8')] requires. *)
Fixpoint utf8_valid_bytes (l : list Z) : bool :=
  let cont b := (0x80 <=? b) && (b <=? 0xBF) in
  match l with
  | [] => true
  | b0 :: r0 =>
      if b0 <? 0x80 then utf8_valid_bytes r0
      else match r0 with
      | [] => false
      | b1 :: r1 =>
          if (0xC2 <=? b0) && (b0 <=? 0xDF) then cont b1 && utf8_valid_bytes r1
          else match r1 with
          | [] => false
          | b2 :: r2 =>
              if (0xE0 <=? b0) && (b0 <=? 0xEF) then
                (if b0 =? 0xE0 then (0xA0 <=? b1) && (b1 <=? 0xBF)
                 else if b0 =? 0xED then (0x80 <=? b1) && (b1 <=? 0x9F)
                 else cont b1)
                && cont b2 && utf8_valid_bytes r2
              else match r2 with
              | [] => false
              | b3 :: r3 =>
                  if (0xF0 <=? b0) && (b0 <=? 0xF4) then
                    (if b0 =? 0xF0 then (0x90 <=? b1) && (b1 <=? 0xBF)
                     else if b0 =? 0xF4 then (0x80 <=? b1) && (b1 <=? 0x8F)
                     else cont b1)
                    && cont b2 && cont b3 && utf8_valid_bytes r3
                  else false
              end
          end
      end
  end.

Definition utf8_valid (s : string) : bool :=
  utf8_valid_bytes (bytes_of_string s).

(** [Path(dir) / name]: an absolute [name] replaces [dir]. *)
Definition path_join (dir name : string) : string :=
  if String.prefix "/" name then name else dir +:+ "/" +:+ name.

(** [path.exists()] *)
Definition path_exists (path : string) : M bool :=
  fun w => (Ok (bool_decide (is_Some (files w !! path))), w).

(** [path.stat().st_mtime] *)
Definition stat_mtime (path : string) : M Z :=
  fun w =>
    match files w !! path with
    | Some f => (Ok (f_mtime f), w)
    | None => (Raise (Exn OSError "No such file or directory"), w)
    end.

(** [datetime.now()] *)
Definition datetime_now : M Z := fun w => (Ok (clock w), w).

Definition usec_per_hour : Z := 3600000000.

(** The [OverflowError] of [timedelta(hours=h)] for a number of days
    that is too large: of the range check of [timedelta], or before it
    of the conversion to a C [int]. *)
Definition timedelta_error (h : Z) : exn :=
  if (-2147483648 <=? h / 24) && (h / 24 <=? 2147483647)
  then Exn OverflowError
         ("days=" +:+ pretty (h / 24) +:+ "; must have magnitude <= 999999999")
  else Exn OverflowError "Python int too large to convert to C int".

(** [timedelta(hours=h)], in microseconds; the days of a [timedelta] have
    magnitude at most 999999999. *)
Definition timedelta_hours (h : Z) : M Z :=
  if (-999999999 <=? h / 24) && (h / 24 <=? 999999999)
  then ret (h * usec_per_hour)
  else fun w => (Raise (timedelta_error h), w).

(** The number of seconds that [time.sleep] is given: a [float] is a
    rational, an infinity or not a number, and an [int] is a rational. *)
Inductive pyfloat : Type :=
  | Finite (q : Q)
  | Inf
  | NegInf
  | NaN.

(** The exception that [time.sleep(secs)] raises instead of sleeping. The
    seconds are converted to nanoseconds, rounded away from zero: not a
    number raises [ValueError], a number that does not fit 64 bits
    [OverflowError], a negative one [ValueError]. What the conversion
    does of exactly [2^63] nanoseconds and what the operating system
    does of a sleep of centuries are left out. *)
Definition sleep_error (secs : pyfloat) : option exn :=
  match secs with
  | NaN => Some (Exn ValueError "Invalid value NaN (not a number)")
  | Inf | NegInf =>
      Some (Exn OverflowError "timestamp too large to convert to C _PyTime_t")
  | Finite q =>
      let ns := if Qle_bool 0 q then Qceiling (q * 1000000000)
                else Qfloor (q * 1000000000) in
      if (ns >? 9223372036854775807) || (ns <? -9223372036854775808)
      then Some (Exn OverflowError
                   "timestamp too large to convert to C _PyTime_t")
      else if ns <? 0
      then Some (Exn ValueError "sleep length must be non-negative")
      else None
  end.

(** The microseconds that a sleep of [secs] takes at least. *)
Definition slept_usec (secs : pyfloat) : Z :=
  match secs with
  | Finite q => Qfloor (q * 1000000)
  | _ => 0
  end.

(** [time.sleep(secs)] *)
Definition time_sleep (secs : pyfloat) : M unit :=
  fun w =>
    match sleep_error secs with
    | Some e => (Raise e, w)
    | None => (Ok tt, set_clock (clock w + slept_usec secs) w)
    end.

(** [with open(path, 'r', encoding='utf-8') as f: f.read()] *)
Definition read_text (path : string) : M string :=
  fun w =>
    match files w !! path with
    | None => (Raise (Exn OSError "No such file or directory"), w)
    | Some f =>
        if utf8_valid (f_data f) then (Ok (f_data f), w)
        else (Raise (Exn UnicodeDecodeError
                         "'utf-8' codec can't decode byte"), w)
    end.

(** [with open(path, 'w', encoding='utf-8') as f: f.write(text)]: the file
    is created or truncated and holds [text] alone; when the path cannot
    be opened, [open] raises the [OSError] of the world and nothing is
    written. A write that fails after the file was opened (a full disk) is
    not modelled. *)
Definition write_text (path text : string) : M unit :=
  fun w =>
    if writable w path
    then (Ok tt, set_files (<[path := File text (clock w)]> (files w)) w)
    else (Raise (Exn OSError (open_error w path)), w).

Section Library.
Context {rt : Runtime}.

(** [with open(path, 'r', encoding='utf-8') as f: json.load(f)] *)
Definition json_load (path : string) : M pyvalue :=
  let* text := read_text path in
  fun w =>
    match json_loads text with
    | inl v => (Ok v, w)
    | inr e => (Raise e, w)
    end.

(** [with open(path, 'w', encoding='utf-8') as f:
      json.dump(data, f, indent=2)] *)
Definition json_dump (data : pyvalue) (path : string) : M unit :=
  write_text path (json_dumps data).

(** [json.loads(s)] on a string of the program. *)
Definition json_loads_str (s : string) : M pyvalue :=
  fun w =>
    match json_loads s with
    | inl v => (Ok v, w)
    | inr e => (Raise e, w)
    end.

End Library.

(* ===================================================================== *)
(** ** src/utils/paper_collector.py *)
(* ===================================================================== *)

Module PaperCollector.

(** The instance: [self.cache_dir] and [self.api_key]. *)
Record t : Type := mk { cache_dir : string; api_key : option string }.

Definition SEMANTIC_SCHOLAR_API : string :=
  "https://api.semanticscholar.org/graph/v1".

Definition default_fields : list string :=
  ["paperId"; "title"; "abstract"; "year"; "authors";
   "citationCount"; "referenceCount"; "publicationDate";
   "venue"; "url"; "citations"; "references"].

(** [f"{source}:{query}"] *)
Definition key_string (query source : string) : string :=
  source +:+ ":" +:+ query.

Definition _get_cache_key (self : t) (query source : string) : string :=
  MD5.hexdigest (key_string query source).

Definition cache_file (self : t) (cache_key : string) : string :=
  path_join (cache_dir self) (cache_key +:+ ".json").

Section WithRuntime.
Context {rt : Runtime}.

Definition _load_from_cache (self : t) (cache_key : string)
    (max_age_hours : Z) : M pyvalue :=
  let cache_file := cache_file self cache_key in
  let* found := path_exists cache_file in
  if negb found then ret PNone
  else
    let* file_time := stat_mtime cache_file in
    let* now := datetime_now in
    let* max_age := timedelta_hours max_age_hours in
    if now - file_time >? max_age then ret PNone
    else
      try_except (json_load cache_file)
        is_JSONDecodeError (fun _ => ret PNone).

Definition _save_to_cache (self : t) (cache_key : string) (data : pyvalue)
    : M unit :=
  json_dump data (cache_file self cache_key).

(** One turn of the [while] loop of [search_semantic_scholar]: [None] is
    [break], [Some] the new [all_papers] and [offset]. *)
Definition page (self : t) (query : string) (limit : Z)
    (fields : list string) (all_papers : list pyvalue) (offset : Z)
    : M (option (list pyvalue * Z)) :=
  let url := SEMANTIC_SCHOLAR_API +:+ "/paper/search" in
  let headers :=
    match api_key self with
    | Some k => if String.eqb k EmptyString then [] else [("x-api-key", k)]
    | None => []
    end in
  let params :=
    [("query", PStr query);
     ("limit", PInt (Z.min 100 (limit - Z.of_nat (length all_papers))));
     ("offset", PInt offset);
     ("fields", PStr (String.concat "," fields))] in
  try_except
    (let* data := (fun w =>
         let c := HttpGet url params headers in
         match http_respond (calls w) c with
         | inl v => (Ok v, log_call c w)
         | inr e => (Raise e, log_call c w)
         end) in
     let* papers :=
       match data with
       | PDict d => ret (dict_get d "data" (PList []))
       | _ => raise AttributeError
                ("'" +:+ type_name data +:+ "' object has no attribute 'get'")
       end in
     if negb (py_truthy papers) then ret None
     else
       let* items :=
         match papers with
         | PList l | PTuple l => ret l
         | PDict d => ret (map (fun kv => PStr (fst kv)) d)
         | PStr s => ret (map PStr (str_chars s))
         | _ => raise TypeError
                  ("'" +:+ type_name papers +:+ "' object is not iterable")
         end in
       let* _ := time_sleep (Finite 1) in
       ret (Some ((all_papers ++ items)%list,
                  offset + Z.of_nat (length items))))
    is_RequestException (fun _ => ret None).

(** [while len(all_papers) < limit: ...] *)
Fixpoint paginate (fuel : nat) (self : t) (query : string) (limit : Z)
    (fields : list string) (all_papers : list pyvalue) (offset : Z)
    : M (list pyvalue) :=
  if Z.of_nat (length all_papers) <? limit then
    match fuel with
    | O => diverge
    | S fuel' =>
        let* step := page self query limit fields all_papers offset in
        match step with
        | None => ret all_papers
        | Some (all_papers', offset') =>
            paginate fuel' self query limit fields all_papers' offset'
        end
    end
  else ret all_papers.

Definition search_key (self : t) (query : string) (limit : Z)
    (fields : list string) : string :=
  _get_cache_key self
    (query +:+ ":" +:+ pretty limit +:+ ":" +:+ String.concat "," fields)
    "semantic_scholar".

Definition search_semantic_scholar (self : t) (query : string) (limit : Z)
    (fields : option (list string)) : M pyvalue :=
  let fields := match fields with Some l => l | None => default_fields end in
  let cache_key := search_key self query limit fields in
  let* cached_data := _load_from_cache self cache_key 24 in
  if is_not_None cached_data then ret cached_data
  else
    let* all_papers :=
      paginate (Z.to_nat limit) self query limit fields [] 0 in
    let* _ := _save_to_cache self cache_key (PList all_papers) in
    ret (PList all_papers).

End WithRuntime.

End PaperCollector.

(* ===================================================================== *)
(** ** Strings of the analyzer *)
(* ===================================================================== *)

Definition nl : string := chr 10.

(** A JSON key or string of a prompt, in double quotes. *)
Definition q (s : string) : string := dq +:+ s +:+ dq.

(** Lines joined by newlines. *)
Definition lines (l : list string) : string := String.concat nl l.

(** The UTF-8 encodings of the characters [c] with [c.isspace()]. *)
Definition whitespace : list string :=
  map string_of_bytes
    [[9]; [10]; [11]; [12]; [13]; [28]; [29]; [30]; [31]; [32];
     [194; 133]; [194; 160]; [225; 154; 128];
     [226; 128; 128]; [226; 128; 129]; [226; 128; 130]; [226; 128; 131];
     [226; 128; 132]; [226; 128; 133]; [226; 128; 134]; [226; 128; 135];
     [226; 128; 136]; [226; 128; 137]; [226; 128; 138];
     [226; 128; 168]; [226; 128; 169]; [226; 128; 175];
     [226; 129; 159]; [227; 128; 128]].

(** [s[n:]] for a prefix of [n] one-byte characters. *)
Definition drop_prefix (n : nat) (s : string) : string :=
  substring n (String.length s - n) s.

(** [s[:-n]] for a suffix of [n] one-byte characters. *)
Definition drop_suffix (n : nat) (s : string) : string :=
  substring 0 (String.length s - n) s.

(** [s.startswith(p)] and [s.endswith(p)] *)
Definition startswith (s p : string) : bool := String.prefix p s.
Definition endswith (s p : string) : bool :=
  String.eqb (substring (String.length s - String.length p)
                        (String.length p) s) p
  && (String.length p <=? String.length s)%nat.

Fixpoint lstrip (fuel : nat) (s : string) : string :=
  match fuel with
  | O => s
  | S f =>
      match find (startswith s) whitespace with
      | Some ws => lstrip f (drop_prefix (String.length ws) s)
      | None => s
      end
  end.

Fixpoint rstrip (fuel : nat) (s : string) : string :=
  match fuel with
  | O => s
  | S f =>
      match find (endswith s) whitespace with
      | Some ws => rstrip f (drop_suffix (String.length ws) s)
      | None => s
      end
  end.

(** [s.strip()] *)
Definition strip (s : string) : string :=
  let s' := lstrip (String.length s) s in
  rstrip (String.length s') s'.

(** The code-fence removal that precedes [json.loads] in the analyzer. *)
Definition strip_code_fence (response : string) : string :=
  let response := strip response in
  let response :=
    if startswith response "```json" then drop_prefix 7 response
    else response in
  let response :=
    if startswith response "```" then drop_prefix 3 response
    else response in
  let response :=
    if endswith response "```" then drop_suffix 3 response
    else response in
  strip response.

(* ===================================================================== *)
(** ** src/utils/llm_analyzer.py *)
(* ===================================================================== *)

Module LLMAnalyzer.

(** The instance: [self.api_key], [self.model] and [self.cache_dir]. *)
Record t : Type := mk { api_key : string; model : string; cache_dir : string }.

Section WithRuntime.
Context {rt : Runtime}.

(** [f"{paper_id}_{analysis_type}.json"] under the cache directory. The
    identifier is whatever [paper.get] returned. *)
Definition _get_cache_path (self : t) (paper_id : pyvalue)
    (analysis_type : string) : string :=
  path_join (cache_dir self)
    (py_str py_repr paper_id +:+ "_" +:+ analysis_type +:+ ".json").

Definition _load_from_cache (self : t) (paper_id : pyvalue)
    (analysis_type : string) : M pyvalue :=
  let cache_path := _get_cache_path self paper_id analysis_type in
  let* found := path_exists cache_path in
  if found then
    try_except (json_load cache_path)
      is_JSONDecodeError (fun _ => ret PNone)
  else ret PNone.

Definition _save_to_cache (self : t) (paper_id : pyvalue)
    (analysis_type : string) (data : pyvalue) : M unit :=
  json_dump data (_get_cache_path self paper_id analysis_type).

(** The [except Exception] of [_call_openai] logs and raises again. *)
Definition _call_openai (self : t) (messages : list (string * string))
    (temperature : Q) (max_tokens : Z) : M (option string) :=
  fun w =>
    let c := ChatCompletion (model self) messages temperature max_tokens in
    match llm_respond (calls w) c with
    | inl content => (Ok content, log_call c w)
    | inr e => (Raise e, log_call c w)
    end.

(** [paper.get('paperId', paper.get('id', 'unknown'))] *)
Definition paper_id_of (paper : pydict) : pyvalue :=
  dict_get paper "paperId" (dict_get paper "id" (PStr "unknown")).

Definition title_of (paper : pydict) : pyvalue :=
  dict_get paper "title" (PStr "No title").

Definition abstract_of (paper : pydict) : pyvalue :=
  dict_get paper "abstract"
    (dict_get paper "summary" (PStr "No abstract available")).

Definition comprehensive_prompt (title abstract : string) : string :=
  lines
    ["Analyze the following academic paper and provide a comprehensive analysis:";
     EmptyString;
     "Title: " +:+ title;
     EmptyString;
     "Abstract: " +:+ abstract;
     EmptyString;
     "Please provide:";
     "1. **Key Contributions**: Main contributions and innovations";
     "2. **Technical Approach**: Methods, algorithms, or techniques used";
     "3. **Strengths**: What makes this work valuable";
     "4. **Limitations**: Potential weaknesses or gaps";
     "5. **Relevance Score** (1-10): How relevant is this to software architecture validation";
     "6. **Integration Opportunities**: Specific ways this could integrate with MiroFish (a software architecture validation framework)";
     EmptyString;
     "Format your response as JSON with the following structure:";
     "{";
     "  " +:+ q "key_contributions" +:+ ": [" +:+ q "contribution1" +:+ ", "
       +:+ q "contribution2" +:+ ", ...],";
     "  " +:+ q "technical_approach" +:+ ": " +:+ q "description" +:+ ",";
     "  " +:+ q "strengths" +:+ ": [" +:+ q "strength1" +:+ ", "
       +:+ q "strength2" +:+ ", ...],";
     "  " +:+ q "limitations" +:+ ": [" +:+ q "limitation1" +:+ ", "
       +:+ q "limitation2" +:+ ", ...],";
     "  " +:+ q "relevance_score" +:+ ": <number>,";
     "  " +:+ q "integration_opportunities" +:+ ": [" +:+ q "opportunity1"
       +:+ ", " +:+ q "opportunity2" +:+ ", ...],";
     "  " +:+ q "summary" +:+ ": " +:+ q "brief summary";
     "}"].

Definition mirofish_prompt (title abstract : string) : string :=
  let pair k a b := "  " +:+ q k +:+ ": [" +:+ q a +:+ ", " +:+ q b +:+ "]," in
  lines
    ["Given the following academic paper, identify specific integration points with MiroFish, a software architecture validation framework.";
     EmptyString;
     "MiroFish Context:";
     "- Validates software architectures against quality attributes";
     "- Uses AI/ML for pattern recognition and anomaly detection";
     "- Provides automated architecture analysis and recommendations";
     "- Supports multiple architecture styles and views";
     EmptyString;
     "Paper:";
     "Title: " +:+ title;
     "Abstract: " +:+ abstract;
     EmptyString;
     "Provide specific integration recommendations in JSON format:";
     "{";
     pair "validation_techniques" "technique1" "technique2";
     pair "ai_ml_applications" "application1" "application2";
     pair "architecture_patterns" "pattern1" "pattern2";
     pair "quality_attributes" "attribute1" "attribute2";
     pair "implementation_steps" "step1" "step2";
     pair "expected_benefits" "benefit1" "benefit2";
     pair "challenges" "challenge1" "challenge2";
     "  " +:+ q "priority" +:+ ": " +:+ q "high|medium|low";
     "}"].

(** [analysis[key] = v] on whatever [json.loads] returned. *)
Definition setitem (target : pyvalue) (key : string) (v : pyvalue)
    : M pyvalue :=
  match target with
  | PDict d => ret (PDict (dict_set d key v))
  | PList _ => raise TypeError "list indices must be integers or slices, not str"
  | _ => raise TypeError
           ("'" +:+ type_name target
            +:+ "' object does not support item assignment")
  end.

(** The part shared by [analyze_paper] and
    [extract_mirofish_integration_points], which differ in the cache slot,
    the messages, the temperature and the text of the parse error. *)
Definition analyze_with (self : t) (analysis_type : string)
    (system prompt : string) (temperature : Q) (parse_error : string)
    (paper : pydict) (use_cache : bool) : M pyvalue :=
  let paper_id := paper_id_of paper in
  let* cached :=
    if use_cache then _load_from_cache self paper_id analysis_type
    else ret PNone in
  if use_cache && py_truthy cached then ret cached
  else
    let messages := [("system", system); ("user", prompt)] in
    try_except
      (let* response := _call_openai self messages temperature 2000 in
       let* response :=
         match response with
         | Some text => ret (strip_code_fence text)
         | None => raise AttributeError
                     "'NoneType' object has no attribute 'strip'"
         end in
       try_except
         (let* analysis := json_loads_str response in
          let* analysis := setitem analysis "paper_id" paper_id in
          let* now := datetime_now in
          let* analysis :=
            setitem analysis "analyzed_at" (PStr (strftime now)) in
          let* _ :=
            if use_cache
            then _save_to_cache self paper_id analysis_type analysis
            else ret tt in
          ret analysis)
         is_JSONDecodeError
         (fun _ => ret (PDict [("error", PStr parse_error);
                               ("raw_response", PStr response)])))
      is_Exception
      (fun e =>
         if is_JSONDecodeError e
         then raise UnboundLocalError
                "cannot access local variable 'response'"
         else ret (PDict [("error", PStr (exn_str e))])).

Definition analyze_paper (self : t) (paper : pydict) (use_cache : bool)
    : M pyvalue :=
  analyze_with self "comprehensive"
    "You are an expert in software architecture and research analysis. Provide detailed, technical insights."
    (comprehensive_prompt (py_str py_repr (title_of paper))
                          (py_str py_repr (abstract_of paper)))
    (3 # 10) "Failed to parse analysis" paper use_cache.

Definition extract_mirofish_integration_points (self : t) (paper : pydict)
    (use_cache : bool) : M pyvalue :=
  analyze_with self "mirofish"
    "You are an expert in software architecture validation and framework integration."
    (mirofish_prompt (py_str py_repr (title_of paper))
                     (py_str py_repr (abstract_of paper)))
    (2 # 10) "Failed to parse integration points" paper use_cache.

(** The entry that [batch_analyze] appends when an item raises. *)
Definition error_entry (paper : pydict) (e : exn) : pyvalue :=
  PDict [("paper_id", paper_id_of paper); ("error", PStr (exn_str e))].

(** [for i, paper in enumerate(papers, 1): ...] with [results] so far. *)
Fixpoint batch_loop (self : t) (analysis_type : string) (delay : pyfloat)
    (total : Z) (i : Z) (papers : list pydict) (results : list pyvalue)
    : M (list pyvalue) :=
  match papers with
  | [] => ret results
  | paper :: rest =>
      let* outcome :=
        attempt
          (if String.eqb analysis_type "mirofish"
           then extract_mirofish_integration_points self paper true
           else analyze_paper self paper true) in
      match outcome with
      | inl result =>
          let results := (results ++ [result])%list in
          let* slept :=
            attempt (if i <? total then time_sleep delay else ret tt) in
          match slept with
          | inl _ =>
              batch_loop self analysis_type delay total (i + 1) rest results
          | inr e =>
              batch_loop self analysis_type delay total (i + 1) rest
                (results ++ [error_entry paper e])%list
          end
      | inr e =>
          batch_loop self analysis_type delay total (i + 1) rest
            (results ++ [error_entry paper e])%list
      end
  end.

Definition batch_analyze (self : t) (papers : list pydict)
    (analysis_type : string) (delay : pyfloat) : M pyvalue :=
  let* results :=
    batch_loop self analysis_type delay (Z.of_nat (length papers)) 1
               papers [] in
  ret (PList results).

End WithRuntime.

End LLMAnalyzer.

(* ===================================================================== *)
(** ** More of the library: XML elements, hashing, the environment *)
(* ===================================================================== *)

(** An element as [xml.etree.ElementTree] gives it: its tag, written with
    the prefix that the namespace map of the code gives it, its text and
    its children. *)
Inductive xml : Type :=
  | Element (tag : string) (text : option string) (children : list xml).

Definition xml_tag (e : xml) : string := let 'Element t _ _ := e in t.
Definition xml_text (e : xml) : option string := let 'Element _ t _ := e in t.
Definition xml_children (e : xml) : list xml := let 'Element _ _ c := e in c.

(** [e.findall(tag, ns)]: the children of [e] with that tag. *)
Definition findall (e : xml) (tag : string) : list xml :=
  List.filter (fun c => String.eqb (xml_tag c) tag) (xml_children e).

(** [e.find(tag, ns)]: the first of them, or [None]. *)
Definition find (e : xml) (tag : string) : option xml :=
  match findall e tag with
  | c :: _ => Some c
  | [] => None
  end.

(** What the rest of the code calls and does not define: the arXiv
    service, whose answer [ET.fromstring] has parsed, and
    [datetime.isoformat]. *)
Class Feeds : Type := {
  (** [session.get(ARXIV_API, ...)], [raise_for_status()] and
      [ET.fromstring(response.content)] *)
  arxiv_respond : list remote_call -> remote_call -> xml + exn;
  (** [datetime.isoformat()] of a clock *)
  isoformat : Z -> string
}.

(** The key under which a [set] or a [dict] files a value: [True] and
    [1] are one key, a tuple is filed by the keys of its items, a list or
    a dict is no key. *)
Inductive hkey : Type :=
  | HNone
  | HInt (n : Z)
  | HStr (s : string)
  | HTuple (items : list hkey).

#[global] Instance hkey_eq_dec : EqDecision hkey.
Proof.
  refine (fix go (a b : hkey) {struct a} : Decision (a = b) :=
            match a, b with
            | HNone, HNone => left eq_refl
            | HInt n, HInt m => cast_if (decide (n = m))
            | HStr s, HStr t => cast_if (decide (s = t))
            | HTuple k, HTuple l =>
                cast_if (@list_eq_dec _ go k l)
            | _, _ => right _
            end); clear go; abstract congruence.
Defined.

(** The key of a value, or the [TypeError] of [hash(v)]: that of the first
    item of a tuple that has none. *)
Fixpoint hash_key (v : pyvalue) : hkey + exn :=
  match v with
  | PNone => inl HNone
  | PBool b => inl (HInt (if b then 1 else 0))
  | PInt n => inl (HInt n)
  | PStr s => inl (HStr s)
  | PList _ => inr (Exn TypeError "unhashable type: 'list'")
  | PDict _ => inr (Exn TypeError "unhashable type: 'dict'")
  | PTuple l =>
      let fix keys (l : list pyvalue) : list hkey + exn :=
        match l with
        | [] => inl []
        | x :: r =>
            match hash_key x with
            | inl k =>
                match keys r with
                | inl ks => inl (k :: ks)
                | inr e => inr e
                end
            | inr e => inr e
            end
        end in
      match keys l with
      | inl ks => inl (HTuple ks)
      | inr e => inr e
      end
  end.

(** [hash(v)], as far as it tells keys apart. *)
Definition py_hash (v : pyvalue) : M hkey :=
  fun w =>
    match hash_key v with
    | inl key => (Ok key, w)
    | inr e => (Raise e, w)
    end.

(** [item in container] for a string [item]. *)
Definition py_contains (container : pyvalue) (item : string) : M bool :=
  match container with
  | PDict d => ret (dict_has d item)
  | PList l | PTuple l =>
      ret (existsb (fun x => match x with
                             | PStr s => String.eqb s item
                             | _ => false
                             end) l)
  | PStr s =>
      ret (match String.index 0 item s with Some _ => true | None => false end)
  | _ => raise TypeError
           ("argument of type '" +:+ type_name container
            +:+ "' is not iterable")
  end.

(** [v[:10]], as a list of the items. *)
Definition first_ten (v : pyvalue) : M (list pyvalue) :=
  match v with
  | PList l | PTuple l => ret (firstn 10 l)
  | PStr s => ret (map PStr (firstn 10 (str_chars s)))
  | PDict _ => raise TypeError "unhashable type: 'slice'"
  | _ => raise TypeError
           ("'" +:+ type_name v +:+ "' object is not subscriptable")
  end.

(** [[f(x) for x in l]] and loops that only collect. *)
Fixpoint mapM {A B : Type} (f : A -> M B) (items : list A) : M (list B) :=
  match items with
  | [] => ret []
  | item :: rest =>
      let* y := f item in
      let* ys := mapM f rest in
      ret (y :: ys)
  end.

(* ===================================================================== *)
(** ** src/utils/paper_collector.py, the other methods *)
(* ===================================================================== *)

Module PaperCollectorMore.

Definition ARXIV_API : string := "http://export.arxiv.org/api/query".

(** A dictionary as a [dict] with keys of any hashable kind: each entry
    keeps the key object it was first set with. *)
Definition keyed : Type := list (hkey * pyvalue * pyvalue).

(** [d[k] = v] *)
Fixpoint keyed_set (d : keyed) (key : hkey) (k v : pyvalue) : keyed :=
  match d with
  | [] => [(key, k, v)]
  | (key', k', v') :: r =>
      if bool_decide (key' = key) then (key', k', v) :: r
      else (key', k', v') :: keyed_set r key k v
  end.

(** The dictionary that [collect_citation_network] returns. *)
Record network : Type := Network {
  papers : keyed;
  citations : list pyvalue;
  seed_papers : list pyvalue;
  depth_of : Z;
  total_papers : Z;
  total_citations : Z;
  collected_at : string
}.

Section WithRuntime.
Context {rt : Runtime} {fd : Feeds}.

(** [self.session.get(url, ...)], [raise_for_status()], [response.json()].
    One call of the log is one [session.get]: the attempts that the retry
    adapter of the session makes behind it are not told apart, and the
    time that a request takes is not modelled, the clock moves in
    [time.sleep] alone. *)
Definition session_get (url : string) (params : pydict)
    (headers : list (string * string)) : M pyvalue :=
  fun w =>
    let c := HttpGet url params headers in
    match http_respond (calls w) c with
    | inl v => (Ok v, log_call c w)
    | inr e => (Raise e, log_call c w)
    end.

(** The same for the arXiv feed, up to [ET.fromstring]. *)
Definition session_get_xml (url : string) (params : pydict) : M xml :=
  fun w =>
    let c := HttpGet url params [] in
    match arxiv_respond (calls w) c with
    | inl root => (Ok root, log_call c w)
    | inr e => (Raise e, log_call c w)
    end.

(** [e.text] for [e = entry.find(...)] *)
Definition element_text (e : option xml) : M pyvalue :=
  match e with
  | Some x => ret (match xml_text x with Some s => PStr s | None => PNone end)
  | None => raise AttributeError "'NoneType' object has no attribute 'text'"
  end.

(** [text.strip()] *)
Definition text_strip (text : pyvalue) : M pyvalue :=
  match text with
  | PStr s => ret (PStr (strip s))
  | _ => raise AttributeError "'NoneType' object has no attribute 'strip'"
  end.

(** The dictionary built from one [atom:entry]. *)
Definition paper_of_entry (entry : xml) : M pyvalue :=
  let* id := element_text (find entry "atom:id") in
  let* title := element_text (find entry "atom:title") in
  let* title := text_strip title in
  let* summary := element_text (find entry "atom:summary") in
  let* summary := text_strip summary in
  let* published := element_text (find entry "atom:published") in
  let* updated := element_text (find entry "atom:updated") in
  let* authors :=
    mapM (fun author => element_text (find author "atom:name"))
         (findall entry "atom:author") in
  let* url := element_text (find entry "atom:id") in
  ret (PDict [("id", id); ("title", title); ("summary", summary);
              ("published", published); ("updated", updated);
              ("authors", PList authors); ("url", url)]).

Definition arxiv_key (self : PaperCollector.t) (query : string)
    (max_results : Z) : string :=
  PaperCollector._get_cache_key self (query +:+ ":" +:+ pretty max_results)
    "arxiv".

Definition search_arxiv (self : PaperCollector.t) (query : string)
    (max_results : Z) : M pyvalue :=
  let cache_key := arxiv_key self query max_results in
  let* cached_data := PaperCollector._load_from_cache self cache_key 24 in
  if is_not_None cached_data then ret cached_data
  else
    let params :=
      [("search_query", PStr query); ("start", PInt 0);
       ("max_results", PInt max_results); ("sortBy", PStr "relevance");
       ("sortOrder", PStr "descending")] in
    try_except
      (let* root := session_get_xml ARXIV_API params in
       let* papers := mapM paper_of_entry (findall root "atom:entry") in
       let* _ := PaperCollector._save_to_cache self cache_key (PList papers) in
       ret (PList papers))
      is_Exception (fun _ => ret (PList [])).

Definition details_key (self : PaperCollector.t) (paper_id : pyvalue)
    (source : string) : string :=
  PaperCollector._get_cache_key self
    ("details:" +:+ py_str py_repr paper_id) source.

Definition details_headers (self : PaperCollector.t)
    : list (string * string) :=
  match PaperCollector.api_key self with
  | Some k => if String.eqb k EmptyString then [] else [("x-api-key", k)]
  | None => []
  end.

Definition details_url (paper_id : pyvalue) : string :=
  PaperCollector.SEMANTIC_SCHOLAR_API +:+ "/paper/"
  +:+ py_str py_repr paper_id.

Definition get_paper_details (self : PaperCollector.t) (paper_id : pyvalue)
    (source : string) : M pyvalue :=
  let cache_key := details_key self paper_id source in
  let* cached_data := PaperCollector._load_from_cache self cache_key 24 in
  if is_not_None cached_data then ret cached_data
  else if String.eqb source "semantic_scholar" then
    try_except
      (let* paper := session_get (details_url paper_id) []
                       (details_headers self) in
       let* _ := PaperCollector._save_to_cache self cache_key paper in
       ret paper)
      is_RequestException (fun _ => ret PNone)
  else ret PNone.

(** [for cited_paper in ...: ...], with [citations] and [to_visit] so far. *)
Fixpoint cite (paper_id : pyvalue) (current_depth : Z) (cited : list pyvalue)
    (citations : list pyvalue) (to_visit : list (pyvalue * Z))
    : M (list pyvalue * list (pyvalue * Z)) :=
  match cited with
  | [] => ret (citations, to_visit)
  | cited_paper :: rest =>
      let* cited_id :=
        match cited_paper with
        | PDict d => ret (dict_get d "paperId" PNone)
        | _ => raise AttributeError
                 ("'" +:+ type_name cited_paper
                  +:+ "' object has no attribute 'get'")
        end in
      if py_truthy cited_id then
        cite paper_id current_depth rest
          (citations ++ [PDict [("from", paper_id); ("to", cited_id)]])%list
          (to_visit ++ [(cited_id, current_depth + 1)])%list
      else cite paper_id current_depth rest citations to_visit
  end.

(** [if 'citations' in paper and current_depth < depth - 1: for ...] *)
Definition add_citations (paper paper_id : pyvalue) (current_depth depth : Z)
    (citations : list pyvalue) (to_visit : list (pyvalue * Z))
    : M (list pyvalue * list (pyvalue * Z)) :=
  let* has := py_contains paper "citations" in
  if has && (current_depth <? depth - 1) then
    let* listed :=
      match paper with
      | PDict d => ret (dict_get d "citations" (PList []))
      | _ => raise AttributeError
               ("'" +:+ type_name paper +:+ "' object has no attribute 'get'")
      end in
    let* cited := first_ten listed in
    cite paper_id current_depth cited citations to_visit
  else ret (citations, to_visit).

(** [while to_visit: ...] *)
Fixpoint crawl (fuel : nat) (self : PaperCollector.t) (depth : Z)
    (papers : keyed) (citations : list pyvalue) (visited : list hkey)
    (to_visit : list (pyvalue * Z)) : M (keyed * list pyvalue) :=
  match to_visit with
  | [] => ret (papers, citations)
  | (paper_id, current_depth) :: to_visit =>
      match fuel with
      | O => diverge
      | S fuel' =>
          let* key := py_hash paper_id in
          if bool_decide (key ∈ visited) || (current_depth >=? depth) then
            crawl fuel' self depth papers citations visited to_visit
          else
            let visited := key :: visited in
            let* paper := get_paper_details self paper_id "semantic_scholar" in
            if negb (py_truthy paper) then
              crawl fuel' self depth papers citations visited to_visit
            else
              let papers := keyed_set papers key paper_id paper in
              let* grown :=
                add_citations paper paper_id current_depth depth citations
                  to_visit in
              let* _ := time_sleep (Finite 1) in
              crawl fuel' self depth papers (fst grown) visited (snd grown)
      end
  end.

(** The number of turns that the loop can take for one seed: a paper at
    less than [depth - 1] brings at most ten more. *)
Fixpoint turns (levels : nat) : nat :=
  match levels with
  | O => 1
  | S k => 1 + 10 * turns k
  end.

Definition collect_citation_network (self : PaperCollector.t)
    (seed_paper_ids : list pyvalue) (depth : Z) : M network :=
  let to_visit := map (fun pid => (pid, 0)) seed_paper_ids in
  let* found :=
    crawl (length seed_paper_ids * turns (Z.to_nat (depth - 1)))
          self depth [] [] [] to_visit in
  let* now := datetime_now in
  ret (Network (fst found) (snd found) seed_paper_ids depth
               (Z.of_nat (length (fst found)))
               (Z.of_nat (length (snd found)))
               (isoformat now)).

End WithRuntime.

End PaperCollectorMore.

(* ===================================================================== *)
(** ** src/utils/llm_analyzer.py, the other methods *)
(* ===================================================================== *)

Module LLMAnalyzerMore.

(** The argument of [summarize_findings] as [json.dumps] meets it: a list
    of values that it writes, or an object on which it raises (a set, a
    [datetime], an instance of a class). *)
Inductive findings : Type :=
  | Values (analyses : list pyvalue)
  | NotJson (e : exn).

Section WithRuntime.
Context {rt : Runtime}.

Definition summary_prompt (analyses : string) : string :=
  lines
    ["Summarize the following research paper analyses into a cohesive overview:";
     EmptyString;
     analyses;
     EmptyString;
     "Provide:";
     "1. **Overall Themes**: Common themes across papers";
     "2. **Key Insights**: Most important technical insights";
     "3. **Research Gaps**: Areas that need more investigation";
     "4. **Recommendations**: Prioritized recommendations for MiroFish integration";
     EmptyString;
     "Format as JSON:";
     "{";
     "  " +:+ q "overall_themes" +:+ ": [" +:+ q "theme1" +:+ ", "
       +:+ q "theme2" +:+ "],";
     "  " +:+ q "key_insights" +:+ ": [" +:+ q "insight1" +:+ ", "
       +:+ q "insight2" +:+ "],";
     "  " +:+ q "research_gaps" +:+ ": [" +:+ q "gap1" +:+ ", "
       +:+ q "gap2" +:+ "],";
     "  " +:+ q "recommendations" +:+ ": [{";
     "    " +:+ q "priority" +:+ ": " +:+ q "high|medium|low" +:+ ",";
     "    " +:+ q "title" +:+ ": " +:+ q "recommendation title" +:+ ",";
     "    " +:+ q "description" +:+ ": " +:+ q "detailed description";
     "  }]";
     "}"].

Definition summarize_findings (self : LLMAnalyzer.t)
    (analyses : findings) : M pyvalue :=
  let* text :=
    match analyses with
    | Values l => ret (json_dumps (PList l))
    | NotJson e => fun w => (Raise e, w)
    end in
  let prompt := summary_prompt text in
  let messages :=
    [("system", "You are a research synthesis expert."); ("user", prompt)] in
  try_except
    (let* response := LLMAnalyzer._call_openai self messages (4 # 10) 3000 in
     let* response :=
       match response with
       | Some text => ret (strip_code_fence text)
       | None => raise AttributeError
                   "'NoneType' object has no attribute 'strip'"
       end in
     let* summary := json_loads_str response in
     ret summary)
    is_Exception (fun e => ret (PDict [("error", PStr (exn_str e))])).

End WithRuntime.

End LLMAnalyzerMore.

(* ===================================================================== *)
(** ** A runtime to run the program on *)
(* ===================================================================== *)

(** The [json] module on [pyvalue]: [dumps] with [indent=2] and the
    default [ensure_ascii], [loads] with the default strict decoder.
    Numbers with a fraction or an exponent, [NaN] and [Infinity], which
    Python reads as floats, are outside [pyvalue] and are reported as
    [ValueError]. *)
Module Json.

(** The code points of a UTF-8 byte string. *)
Fixpoint code_points (l : list Z) : list Z :=
  let low b := Z.land b 0x3F in
  match l with
  | [] => []
  | b0 :: r0 =>
      if b0 <? 0xC0 then b0 :: code_points r0
      else match r0 with
      | [] => [b0]
      | b1 :: r1 =>
          if b0 <? 0xE0 then
            Z.lor (Z.shiftl (Z.land b0 0x1F) 6) (low b1) :: code_points r1
          else match r1 with
          | [] => [b0; b1]
          | b2 :: r2 =>
              if b0 <? 0xF0 then
                Z.lor (Z.shiftl (Z.land b0 0x0F) 12)
                      (Z.lor (Z.shiftl (low b1) 6) (low b2))
                :: code_points r2
              else match r2 with
              | [] => [b0; b1; b2]
              | b3 :: r3 =>
                  Z.lor (Z.shiftl (Z.land b0 0x07) 18)
                        (Z.lor (Z.shiftl (low b1) 12)
                               (Z.lor (Z.shiftl (low b2) 6) (low b3)))
                  :: code_points r3
              end
          end
      end
  end.

(** The UTF-8 encoding of a code point. *)
Definition utf8_encode (c : Z) : list Z :=
  let tail k := Z.lor 0x80 (Z.land (Z.shiftr c k) 0x3F) in
  if c <? 0x80 then [c]
  else if c <? 0x800 then [Z.lor 0xC0 (Z.shiftr c 6); tail 0]
  else if c <? 0x10000 then [Z.lor 0xE0 (Z.shiftr c 12); tail 6; tail 0]
  else [Z.lor 0xF0 (Z.shiftr c 18); tail 12; tail 6; tail 0].

Definition hex4 (n : Z) : string :=
  MD5.hex_digit (Z.land (Z.shiftr n 12) 0xF)
  +:+ MD5.hex_digit (Z.land (Z.shiftr n 8) 0xF)
  +:+ MD5.hex_digit (Z.land (Z.shiftr n 4) 0xF)
  +:+ MD5.hex_digit (Z.land n 0xF).

Definition backslash : string := chr 92.

Definition escape (c : Z) : string :=
  if c =? 34 then backslash +:+ dq
  else if c =? 92 then backslash +:+ backslash
  else if c =? 10 then backslash +:+ "n"
  else if c =? 13 then backslash +:+ "r"
  else if c =? 9 then backslash +:+ "t"
  else if c =? 8 then backslash +:+ "b"
  else if c =? 12 then backslash +:+ "f"
  else if (0x20 <=? c) && (c <=? 0x7E) then chr c
  else if c <? 0x10000 then backslash +:+ "u" +:+ hex4 c
  else
    let v := c - 0x10000 in
    backslash +:+ "u" +:+ hex4 (Z.lor 0xD800 (Z.shiftr v 10))
    +:+ backslash +:+ "u" +:+ hex4 (Z.lor 0xDC00 (Z.land v 0x3FF)).

Definition encode_string (s : string) : string :=
  dq +:+ String.concat EmptyString (map escape (code_points (bytes_of_string s)))
     +:+ dq.

Definition indent (level : nat) : string :=
  String.concat EmptyString (repeat "  " level).

Fixpoint dumps_at (level : nat) (v : pyvalue) : string :=
  match v with
  | PNone => "null"
  | PBool true => "true"
  | PBool false => "false"
  | PInt n => pretty n
  | PStr s => encode_string s
  | PList [] | PTuple [] => "[]"
  | PList l | PTuple l =>
      let sep := "," +:+ nl +:+ indent (S level) in
      "[" +:+ nl +:+ indent (S level)
      +:+ String.concat sep (map (dumps_at (S level)) l)
      +:+ nl +:+ indent level +:+ "]"
  | PDict [] => "{}"
  | PDict d =>
      let sep := "," +:+ nl +:+ indent (S level) in
      "{" +:+ nl +:+ indent (S level)
      +:+ String.concat sep
            (map (fun kv => encode_string (fst kv) +:+ ": "
                            +:+ dumps_at (S level) (snd kv)) d)
      +:+ nl +:+ indent level +:+ "}"
  end.

Definition dumps (v : pyvalue) : string := dumps_at 0 v.

Definition is_ws (b : Z) : bool :=
  (b =? 32) || (b =? 9) || (b =? 10) || (b =? 13).

Fixpoint skip_ws (l : list Z) : list Z :=
  match l with
  | b :: r => if is_ws b then skip_ws r else l
  | [] => []
  end.

Definition hex_value (b : Z) : option Z :=
  if (48 <=? b) && (b <=? 57) then Some (b - 48)
  else if (97 <=? b) && (b <=? 102) then Some (b - 87)
  else if (65 <=? b) && (b <=? 70) then Some (b - 55)
  else None.

(** The four hexadecimal digits after a backslash and [u]. *)
Definition scan_hex4 (l : list Z) : option (Z * list Z) :=
  match l with
  | a :: b :: c :: d :: r =>
      match hex_value a, hex_value b, hex_value c, hex_value d with
      | Some x, Some y, Some z, Some t =>
          Some (((x * 16 + y) * 16 + z) * 16 + t, r)
      | _, _, _, _ => None
      end
  | _ => None
  end.

(** The rest of a string after its opening quote: the bytes of the
    string, in reverse, and what follows its closing quote. *)
Fixpoint scan_string (fuel : nat) (l : list Z) (acc : list Z)
    : option (list Z * list Z) :=
  match fuel, l with
  | O, _ => None
  | _, [] => None
  | S f, b :: r =>
      if b =? 34 then Some (acc, r)
      else if b <? 0x20 then None
      else if b =? 92 then
        match r with
        | [] => None
        | e :: r' =>
            let simple c := scan_string f r' (c :: acc) in
            if e =? 34 then simple 34
            else if e =? 92 then simple 92
            else if e =? 47 then simple 47
            else if e =? 98 then simple 8
            else if e =? 102 then simple 12
            else if e =? 110 then simple 10
            else if e =? 114 then simple 13
            else if e =? 116 then simple 9
            else if e =? 117 then
              match scan_hex4 r' with
              | None => None
              | Some (c, r'') =>
                  let pair :=
                    if (0xD800 <=? c) && (c <=? 0xDBFF) then
                      match r'' with
                      | 92 :: 117 :: r3 =>
                          match scan_hex4 r3 with
                          | Some (c2, r4) =>
                              if (0xDC00 <=? c2) && (c2 <=? 0xDFFF)
                              then Some (0x10000
                                         + Z.lor (Z.shiftl (c - 0xD800) 10)
                                                 (c2 - 0xDC00), r4)
                              else None
                          | None => None
                          end
                      | _ => None
                      end
                    else None in
                  match pair with
                  | Some (c', r4) =>
                      scan_string f r4 (rev (utf8_encode c') ++ acc)
                  | None => scan_string f r'' (rev (utf8_encode c) ++ acc)
                  end
              end
            else None
        end
      else scan_string f r (b :: acc)
  end.

Fixpoint scan_digits (l : list Z) (acc : Z) : Z * list Z :=
  match l with
  | b :: r =>
      if (48 <=? b) && (b <=? 57) then scan_digits r (acc * 10 + (b - 48))
      else (acc, l)
  | [] => (acc, [])
  end.

(** What [loads] found: a value and the rest, a syntax error, or a number
    that is a float. *)
Inductive parsed (A : Type) : Type :=
  | Found (a : A) (rest : list Z)
  | Syntax
  | Float.
Arguments Found {A} a rest.
Arguments Syntax {A}.
Arguments Float {A}.

Definition starts (lit : string) (l : list Z) : option (list Z) :=
  let b := bytes_of_string lit in
  if bool_decide (firstn (length b) l = b) then Some (skipn (length b) l)
  else None.

Definition scan_number (l : list Z) : parsed pyvalue :=
  let '(neg, l1) := match l with 45 :: r => (true, r) | _ => (false, l) end in
  match l1 with
  | d :: r =>
      if (48 <=? d) && (d <=? 57) then
        let '(n, rest) :=
          if d =? 48 then (0, r) else scan_digits l1 0 in
        match rest with
        | 46 :: _ | 101 :: _ | 69 :: _ => Float
        | _ => Found (PInt (if neg then - n else n)) rest
        end
      else Syntax
  | [] => Syntax
  end.

Fixpoint scan_value (fuel : nat) (l : list Z) : parsed pyvalue :=
  match fuel with
  | O => Syntax
  | S f =>
      match l with
      | [] => Syntax
      | b :: r =>
          if b =? 34 then
            match scan_string (length r) r [] with
            | Some (s, rest) => Found (PStr (string_of_bytes (rev s))) rest
            | None => Syntax
            end
          else if b =? 91 then
            match skip_ws r with
            | 93 :: rest => Found (PList []) rest
            | r' => scan_elements f r' []
            end
          else if b =? 123 then
            match skip_ws r with
            | 125 :: rest => Found (PDict []) rest
            | r' => scan_members f r' []
            end
          else
            match starts "null" l, starts "true" l, starts "false" l with
            | Some rest, _, _ => Found PNone rest
            | _, Some rest, _ => Found (PBool true) rest
            | _, _, Some rest => Found (PBool false) rest
            | None, None, None =>
                match starts "NaN" l, starts "Infinity" l,
                      starts "-Infinity" l with
                | None, None, None => scan_number l
                | _, _, _ => Float
                end
            end
      end
  end
with scan_elements (fuel : nat) (l : list Z) (acc : list pyvalue)
    : parsed pyvalue :=
  match fuel with
  | O => Syntax
  | S f =>
      match scan_value f l with
      | Found v rest =>
          match skip_ws rest with
          | 44 :: rest' => scan_elements f (skip_ws rest') (v :: acc)
          | 93 :: rest' => Found (PList (rev (v :: acc))) rest'
          | _ => Syntax
          end
      | Syntax => Syntax
      | Float => Float
      end
  end
with scan_members (fuel : nat) (l : list Z) (acc : pydict)
    : parsed pyvalue :=
  match fuel with
  | O => Syntax
  | S f =>
      match l with
      | 34 :: r =>
          match scan_string (length r) r [] with
          | Some (k, rest) =>
              match skip_ws rest with
              | 58 :: rest' =>
                  match scan_value f (skip_ws rest') with
                  | Found v rest2 =>
                      let acc' := dict_set acc (string_of_bytes (rev k)) v in
                      match skip_ws rest2 with
                      | 44 :: rest3 => scan_members f (skip_ws rest3) acc'
                      | 125 :: rest3 => Found (PDict acc') rest3
                      | _ => Syntax
                      end
                  | Syntax => Syntax
                  | Float => Float
                  end
              | _ => Syntax
              end
          | None => Syntax
          end
      | _ => Syntax
      end
  end.

Definition loads (s : string) : pyvalue + exn :=
  let l := bytes_of_string s in
  match scan_value (2 * length l + 2) (skip_ws l) with
  | Found v rest =>
      match skip_ws rest with
      | [] => inl v
      | _ => inr (Exn JSONDecodeError "Extra data")
      end
  | Syntax => inr (Exn JSONDecodeError "Expecting value")
  | Float => inr (Exn ValueError "float")
  end.

End Json.

Module Reference.

Definition pad2 (n : Z) : string :=
  if n <? 10 then "0" +:+ pretty n else pretty n.

Definition pad4 (n : Z) : string :=
  (if n <? 10 then "000" else if n <? 100 then "00"
   else if n <? 1000 then "0" else EmptyString) +:+ pretty n.

(** [time.strftime('%Y-%m-%d %H:%M:%S')] for a clock in microseconds since
    1970, in a time zone without offset. *)
Definition format_time (t : Z) : string :=
  let secs := t / 1000000 in
  let z := secs / 86400 + 719468 in
  let era := z / 146097 in
  let doe := z - era * 146097 in
  let yoe := (doe - doe / 1460 + doe / 36524 - doe / 146096) / 365 in
  let doy := doe - (365 * yoe + yoe / 4 - yoe / 100) in
  let mp := (5 * doy + 2) / 153 in
  let d := doy - (153 * mp + 2) / 5 + 1 in
  let m := if mp <? 10 then mp + 3 else mp - 9 in
  let y := yoe + era * 400 + (if m <=? 2 then 1 else 0) in
  let sod := secs mod 86400 in
  pad4 y +:+ "-" +:+ pad2 m +:+ "-" +:+ pad2 d +:+ " "
  +:+ pad2 (sod / 3600) +:+ ":" +:+ pad2 (sod mod 3600 / 60) +:+ ":"
  +:+ pad2 (sod mod 60).

(** [repr(v)], for strings without quote, backslash or control character. *)
Fixpoint repr (v : pyvalue) : string :=
  match v with
  | PNone => "None"
  | PBool true => "True"
  | PBool false => "False"
  | PInt n => pretty n
  | PStr s => "'" +:+ s +:+ "'"
  | PList l => "[" +:+ String.concat ", " (map repr l) +:+ "]"
  | PTuple [x] => "(" +:+ repr x +:+ ",)"
  | PTuple l => "(" +:+ String.concat ", " (map repr l) +:+ ")"
  | PDict d =>
      "{" +:+ String.concat ", "
                (map (fun kv => "'" +:+ fst kv +:+ "': " +:+ repr (snd kv)) d)
      +:+ "}"
  end.

(** The runtime with given remote services. *)
Definition runtime
    (http : list remote_call -> remote_call -> pyvalue + exn)
    (llm : list remote_call -> remote_call -> option string + exn)
    : Runtime :=
  {| json_dumps := Json.dumps;
     json_loads := Json.loads;
     py_repr := repr;
     strftime := format_time;
     http_respond := http;
     llm_respond := llm |}.

Definition paper (id title : string) : pydict :=
  [("paperId", PStr id); ("title", PStr title);
   ("abstract", PStr "An abstract."); ("year", PInt 2023)].

(** A search service that answers the first request with two papers and
    fails from then on. *)
Definition flaky_search (seen : list remote_call) (c : remote_call)
    : pyvalue + exn :=
  match seen with
  | [] => inl (PDict [("total", PInt 120); ("offset", PInt 0);
                      ("data", PList [PDict (paper "p1" "Microservices");
                                      PDict (paper "p2" "Monoliths")])])
  | _ => inr (Exn RequestException "Read timed out.")
  end.

(** A search service that is down. *)
Definition no_search (seen : list remote_call) (c : remote_call)
    : pyvalue + exn :=
  inr (Exn RequestException "Connection refused.").

(** A language model that answers in a code fence, except for its third
    request, which fails in transport. *)
Definition third_call_fails (seen : list remote_call) (c : remote_call)
    : option string + exn :=
  match seen with
  | [_; _] => inr (Exn OtherException "Connection error.")
  | _ =>
      inl (Some ("```json" +:+ nl +:+ "{" +:+ q "summary" +:+ ": "
                 +:+ q "A summary." +:+ ", " +:+ q "relevance_score"
                 +:+ ": 7}" +:+ nl +:+ "```"))
  end.

Definition rt : Runtime := runtime flaky_search third_call_fails.

Definition collector : PaperCollector.t := PaperCollector.mk "cache" None.
Definition analyzer : LLMAnalyzer.t :=
  LLMAnalyzer.mk "sk-test" "gpt-4-turbo-preview" "cache/llm".

(** An empty cache directory, on 14 November 2023. *)
Definition world0 : World :=
  mkWorld ∅ (fun _ => true) permission_denied 1700000000000000 [].

(** The same files, a given number of microseconds later. *)
Definition later (usec : Z) (w : World) : World :=
  set_clock (clock w + usec) w.

Definition payload : pyvalue :=
  PList [PDict (paper "p1" "Microservices"); PDict (paper "p2" "Monoliths")].

Definition five_papers : list pydict :=
  [paper "p1" "One"; paper "p2" "Two"; paper "p3" "Three";
   paper "p4" "Four"; paper "p5" "Five"].

(** Papers as [search_arxiv] would leave them if it set no ['id']. *)
Definition anonymous (title : string) : pydict :=
  [("title", PStr title); ("summary", PStr "A summary.")].

(** The search of the end-to-end scenario and the world it leaves. *)
Definition search : M pyvalue :=
  PaperCollector.search_semantic_scholar (rt := rt) collector
    "microservice architecture" 50 None.

Definition searched : World := snd (search world0).

Definition search_slot : string :=
  PaperCollector.search_key collector "microservice architecture" 50
    PaperCollector.default_fields.

(** The analysis of a first anonymous paper and the world it leaves. *)
Definition first_analysis : pyvalue :=
  PDict [("summary", PStr "A summary."); ("relevance_score", PInt 7);
         ("paper_id", PStr "unknown");
         ("analyzed_at", PStr "2023-11-14 22:13:20")].

Definition analyzed : World :=
  snd (LLMAnalyzer.analyze_paper (rt := rt) analyzer (anonymous "First")
         true world0).

(** A world in which both caches hold [payload], written at the clock of
    [world0]. *)
Definition both_written : World :=
  snd (PaperCollector._save_to_cache (rt := rt) collector search_slot payload
         (snd (LLMAnalyzer._save_to_cache (rt := rt) analyzer (PStr "p1")
                 "comprehensive" payload world0))).

(** An empty list in the collector's slot, five seconds pass, then the
    payload in the same slot. *)
Definition first_written : World :=
  later 5000000
    (snd (PaperCollector._save_to_cache (rt := rt) collector search_slot
            (PList []) world0)).

Definition overwritten : World :=
  snd (PaperCollector._save_to_cache (rt := rt) collector search_slot
         payload first_written).

Definition day : Z := 24 * usec_per_hour.

End Reference.

(* ===================================================================== *)
(** ** Notions used by the statements *)
(* ===================================================================== *)

(** What a read of the bytes [data] as JSON text gives: the decoded value,
    nothing when [json.loads] raises [JSONDecodeError], and the exception
    itself when the bytes are not UTF-8 or [json.loads] raises something
    else. *)
Definition decode_entry {rt : Runtime} (data : string) : result pyvalue :=
  if utf8_valid data then
    match json_loads data with
    | inl v => Ok v
    | inr e => if is_JSONDecodeError e then Ok PNone else Raise e
    end
  else Raise (Exn UnicodeDecodeError "'utf-8' codec can't decode byte").

(** Is [h] a number of hours that [timedelta] accepts. *)
Definition hours_ok (h : Z) : bool :=
  (-999999999 <=? h / 24) && (h / 24 <=? 999999999).

(** A payload that survives [json.dump] followed by [json.load]. *)
Definition json_roundtrips {rt : Runtime} (p : pyvalue) : Prop :=
  utf8_valid (json_dumps p) = true /\ json_loads (json_dumps p) = inl p.

(** A world whose only file is a cache slot written directly with the
    byte 0xFF, which no UTF-8 text contains. *)
Definition corrupt_world (path : string) : World :=
  mkWorld {[ path := File (chr 255) 0 ]} (fun _ => true) permission_denied 0
          [].

(** Does the string contain the separator of the key string. *)
Fixpoint has_colon (s : string) : bool :=
  match s with
  | EmptyString => false
  | String c r => Ascii.eqb c ":" || has_colon r
  end.

(** Is the string made of the digits [0-9a-f] alone. *)
Fixpoint lower_hex (s : string) : bool :=
  match s with
  | EmptyString => true
  | String c r =>
      let n := Z.of_N (N_of_ascii c) in
      (((48 <=? n) && (n <=? 57)) || ((97 <=? n) && (n <=? 102)))
      && lower_hex r
  end.

(** A path cut at its last slash: the directory, if the path names one,
    and the name of the file. *)
Fixpoint split_path (path : string) : option string * string :=
  match path with
  | EmptyString => (None, EmptyString)
  | String c r =>
      match split_path r with
      | (Some dir, name) => (Some (String c dir), name)
      | (None, name) =>
          if Ascii.eqb c "/" then (Some EmptyString, name)
          else (None, String c name)
      end
  end.

(** What a read of the slot [path] gives on the files [fs], when no age
    limit applies. *)
Definition stored_entry {rt : Runtime} (fs : gmap string file)
    (path : string) : result pyvalue :=
  match fs !! path with
  | None => Ok PNone
  | Some f => decode_entry (f_data f)
  end.

(** A payload with an ['error'] key. *)
Definition error_shaped (v : pyvalue) : bool :=
  match v with
  | PDict d => dict_has d "error"
  | _ => false
  end.

(** A payload that an [except] clause of an analysis builds: a message
    under ['error'], alone or with the response under ['raw_response']. *)
Definition handler_payload (v : pyvalue) : bool :=
  match v with
  | PDict [(k, PStr _)] => String.eqb k "error"
  | PDict [(k, PStr _); (k', PStr _)] =>
      String.eqb k "error" && String.eqb k' "raw_response"
  | _ => false
  end.

(** A paper dictionary with neither ['paperId'] nor ['id']. *)
Definition lacks_id (paper : pydict) : bool :=
  negb (dict_has paper "paperId") && negb (dict_has paper "id").

(** The analysis that [batch_analyze] runs on one paper. *)
Definition analyze_one {rt : Runtime} (an : LLMAnalyzer.t)
    (analysis_type : string) (paper : pydict) : M pyvalue :=
  if String.eqb analysis_type "mirofish"
  then LLMAnalyzer.extract_mirofish_integration_points an paper true
  else LLMAnalyzer.analyze_paper an paper true.

(** The world after the pause that follows an analysed item, unless the
    item is the last. *)
Definition pause (delay : pyfloat) (rest : list pydict) (w : World) : World :=
  match rest with
  | [] => w
  | _ => set_clock (clock w + slept_usec delay) w
  end.

(** The batch result as the specification words it: one entry per paper,
    in order; the result of the analysis when it returns, an error-shaped
    entry when it raises, and the next paper is analysed in either case. *)
Inductive batch_entries {rt : Runtime} (an : LLMAnalyzer.t)
    (analysis_type : string) (delay : pyfloat)
    : World -> list pydict -> list pyvalue -> World -> Prop :=
  | batch_done w :
      batch_entries an analysis_type delay w [] [] w
  | batch_result w paper rest result w1 results w2 :
      analyze_one an analysis_type paper w = (Ok result, w1) ->
      batch_entries an analysis_type delay (pause delay rest w1) rest results w2 ->
      batch_entries an analysis_type delay w (paper :: rest)
                    (result :: results) w2
  | batch_error w paper rest e w1 results w2 :
      analyze_one an analysis_type paper w = (Raise e, w1) ->
      batch_entries an analysis_type delay w1 rest results w2 ->
      batch_entries an analysis_type delay w (paper :: rest)
                    (LLMAnalyzer.error_entry paper e :: results) w2.

(** The request that the search sends when it has collected [collected]
    papers: the next page, of at most 100 papers and at most what is
    missing up to [limit]. *)
Definition page_request (cs : PaperCollector.t) (query : string) (limit : Z)
    (fields : list string) (collected : Z) : remote_call :=
  HttpGet (PaperCollector.SEMANTIC_SCHOLAR_API +:+ "/paper/search")
    [("query", PStr query);
     ("limit", PInt (Z.min 100 (limit - collected)));
     ("offset", PInt collected);
     ("fields", PStr (String.concat "," fields))]
    match PaperCollector.api_key cs with
    | Some k => if String.eqb k EmptyString then [] else [("x-api-key", k)]
    | None => []
    end.

(** The fields of a search: those given, or the default ones. *)
Definition fields_of (fields : option (list string)) : list string :=
  match fields with
  | Some l => l
  | None => PaperCollector.default_fields
  end.

(** The request that an analysis sends to the language model. *)
Definition chat_request (an : LLMAnalyzer.t) (system prompt : string)
    (temperature : Q) (max_tokens : Z) : remote_call :=
  ChatCompletion (LLMAnalyzer.model an) [("system", system); ("user", prompt)]
                 temperature max_tokens.

Definition comprehensive_system : string :=
  "You are an expert in software architecture and research analysis. Provide detailed, technical insights.".

Definition mirofish_system : string :=
  "You are an expert in software architecture validation and framework integration.".

(** The requests of [analyze_paper] and of
    [extract_mirofish_integration_points] for a paper. *)
Definition comprehensive_request {rt : Runtime} (an : LLMAnalyzer.t)
    (paper : pydict) : remote_call :=
  chat_request an comprehensive_system
    (LLMAnalyzer.comprehensive_prompt
       (py_str py_repr (LLMAnalyzer.title_of paper))
       (py_str py_repr (LLMAnalyzer.abstract_of paper)))
    (3 # 10) 2000.

Definition mirofish_request {rt : Runtime} (an : LLMAnalyzer.t)
    (paper : pydict) : remote_call :=
  chat_request an mirofish_system
    (LLMAnalyzer.mirofish_prompt
       (py_str py_repr (LLMAnalyzer.title_of paper))
       (py_str py_repr (LLMAnalyzer.abstract_of paper)))
    (2 # 10) 2000.

(** The answer of the model with the two keys that an analysis adds. *)
Definition stamped {rt : Runtime} (d : pydict) (paper : pydict) (now : Z)
    : pyvalue :=
  PDict (dict_set (dict_set d "paper_id" (LLMAnalyzer.paper_id_of paper))
                  "analyzed_at" (PStr (strftime now))).

(** The language model answers the request [c], sent in the world [w],
    with a text that decodes, once out of its code fence, to the JSON
    object [d]. *)
Definition model_answered {rt : Runtime} (w : World) (c : remote_call)
    (d : pydict) : Prop :=
  exists text,
    llm_respond (calls w) c = inl (Some text)
    /\ json_loads (strip_code_fence text) = inl (PDict d).

(** The cache slots of a paper. *)
Definition comprehensive_slot {rt : Runtime} (an : LLMAnalyzer.t)
    (paper : pydict) : string :=
  LLMAnalyzer._get_cache_path an (LLMAnalyzer.paper_id_of paper)
    "comprehensive".

Definition mirofish_slot {rt : Runtime} (an : LLMAnalyzer.t)
    (paper : pydict) : string :=
  LLMAnalyzer._get_cache_path an (LLMAnalyzer.paper_id_of paper) "mirofish".

(** The request and the cache slot of [get_paper_details]. *)
Definition details_request {rt : Runtime} (cs : PaperCollector.t)
    (paper_id : pyvalue) : remote_call :=
  HttpGet (PaperCollectorMore.details_url paper_id) []
          (PaperCollectorMore.details_headers cs).

Definition details_slot {rt : Runtime} (cs : PaperCollector.t)
    (paper_id : pyvalue) (source : string) : string :=
  PaperCollector.cache_file cs
    (PaperCollectorMore.details_key cs paper_id source).

(** The request and the cache slot of [search_arxiv]. *)
Definition arxiv_request (query : string) (max_results : Z) : remote_call :=
  HttpGet PaperCollectorMore.ARXIV_API
    [("search_query", PStr query); ("start", PInt 0);
     ("max_results", PInt max_results); ("sortBy", PStr "relevance");
     ("sortOrder", PStr "descending")] [].

Definition arxiv_slot (cs : PaperCollector.t) (query : string)
    (max_results : Z) : string :=
  PaperCollector.cache_file cs
    (PaperCollectorMore.arxiv_key cs query max_results).

(** An entry of the feed that has the five elements that [search_arxiv]
    reads, the title and the summary with a text, and a name in each
    author. *)
Definition has_child (e : xml) (tag : string) : bool :=
  match find e tag with Some _ => true | None => false end.

Definition has_text (e : xml) (tag : string) : bool :=
  match find e tag with
  | Some c => match xml_text c with Some _ => true | None => false end
  | None => false
  end.

Definition well_formed_entry (entry : xml) : bool :=
  has_child entry "atom:id" && has_text entry "atom:title"
  && has_text entry "atom:summary" && has_child entry "atom:published"
  && has_child entry "atom:updated"
  && forallb (fun author => has_child author "atom:name")
             (findall entry "atom:author").

(** The request of [summarize_findings]. *)
Definition summary_request {rt : Runtime} (an : LLMAnalyzer.t)
    (analyses : list pyvalue) : remote_call :=
  chat_request an "You are a research synthesis expert."
    (LLMAnalyzerMore.summary_prompt (json_dumps (PList analyses)))
    (4 # 10) 3000.

(** Can the value be a key of a [dict] or a member of a [set]. *)
Definition hashable (v : pyvalue) : bool :=
  match hash_key v with
  | inl _ => true
  | inr _ => false
  end.

(** A citation from the paper [paper_id]. *)
Definition cites_from (paper_id : pyvalue) (c : pyvalue) : Prop :=
  exists cited_id,
    c = PDict [("from", paper_id); ("to", cited_id)]
    /\ py_truthy cited_id = true.

(** The key objects of the collected papers. *)
Definition collected_ids (papers : PaperCollectorMore.keyed)
    : list pyvalue :=
  map (fun entry => snd (fst entry)) papers.

Definition collected_keys (papers : PaperCollectorMore.keyed) : list hkey :=
  map (fun entry => fst (fst entry)) papers.

(** The turns that an item of [to_visit] can still cost, itself and what
    it brings, and those of the whole list. *)
Definition weight (depth : Z) (item : pyvalue * Z) : nat :=
  PaperCollectorMore.turns (Z.to_nat (depth - 1 - snd item)).

Fixpoint potential (depth : Z) (to_visit : list (pyvalue * Z)) : nat :=
  match to_visit with
  | [] => 0
  | item :: rest => weight depth item + potential depth rest
  end.

(** What the loop of [collect_citation_network] keeps true of the papers
    and the citations it has collected: no paper twice, no paper that
    counts as false, each citation from a collected paper and at most ten
    for each. *)
Definition consistent (papers : PaperCollectorMore.keyed)
    (citations : list pyvalue) : Prop :=
  NoDup (collected_keys papers)
  /\ Forall (fun entry => py_truthy (snd entry) = true) papers
  /\ Forall (fun c => exists id, id ∈ collected_ids papers /\ cites_from id c)
            citations
  /\ (length citations <= 10 * length papers)%nat.

(** The text of an element of an entry, [None] for an element without
    text, and the paper that [search_arxiv] makes of a well-formed
    entry. *)
Definition text_of (e : xml) (tag : string) : pyvalue :=
  match find e tag with
  | Some c => match xml_text c with Some s => PStr s | None => PNone end
  | None => PNone
  end.

Definition stripped (v : pyvalue) : pyvalue :=
  match v with PStr s => PStr (strip s) | _ => v end.

Definition paper_from (entry : xml) : pyvalue :=
  PDict [("id", text_of entry "atom:id");
         ("title", stripped (text_of entry "atom:title"));
         ("summary", stripped (text_of entry "atom:summary"));
         ("published", text_of entry "atom:published");
         ("updated", text_of entry "atom:updated");
         ("authors",
          PList (map (fun author => text_of author "atom:name")
                     (findall entry "atom:author")));
         ("url", text_of entry "atom:id")].

(* ===================================================================== *)
(** ** More services and worlds to run the program on *)
(* ===================================================================== *)

Module Scenarios.

Definition pad6 (n : Z) : string :=
  (if n <? 10 then "00000" else if n <? 100 then "0000"
   else if n <? 1000 then "000" else if n <? 10000 then "00"
   else if n <? 100000 then "0" else EmptyString) +:+ pretty n.

(** [datetime.isoformat()] for a clock in microseconds since 1970, in a
    time zone without offset: the fraction is left out when it is zero. *)
Definition iso_time (t : Z) : string :=
  let s := Reference.format_time t in
  substring 0 10 s +:+ "T" +:+ substring 11 8 s
  +:+ (if t mod 1000000 =? 0 then EmptyString
       else "." +:+ pad6 (t mod 1000000)).

Definition leaf (tag text : string) : xml := Element tag (Some text) [].

(** An entry of the feed of arXiv, the title on a line of its own. *)
Definition feed_entry (id title : string) : xml :=
  Element "atom:entry" None
    [leaf "atom:id" id;
     leaf "atom:updated" "2023-05-02T10:00:00Z";
     leaf "atom:published" "2023-05-01T10:00:00Z";
     leaf "atom:title" (nl +:+ "  " +:+ title +:+ nl);
     leaf "atom:summary" ("  A summary." +:+ nl);
     Element "atom:author" None [leaf "atom:name" "A. Author"];
     Element "atom:author" None [leaf "atom:name" "B. Author"]].

(** An entry without a title. *)
Definition untitled_entry (id : string) : xml :=
  Element "atom:entry" None
    [leaf "atom:id" id;
     leaf "atom:updated" "2023-05-02T10:00:00Z";
     leaf "atom:published" "2023-05-01T10:00:00Z";
     leaf "atom:summary" "A summary.";
     Element "atom:author" None [leaf "atom:name" "A. Author"]].

Definition good_feed : xml :=
  Element "atom:feed" None
    [leaf "atom:title" "ArXiv Query";
     feed_entry "http://arxiv.org/abs/2305.00001v1" "Microservices";
     feed_entry "http://arxiv.org/abs/2305.00002v1" "Monoliths"].

Definition bad_feed : xml :=
  Element "atom:feed" None
    [leaf "atom:title" "ArXiv Query";
     feed_entry "http://arxiv.org/abs/2305.00001v1" "Microservices";
     untitled_entry "http://arxiv.org/abs/2305.00002v1"].

(** A feed service that answers the query ["broken"] with the feed that
    has an entry without a title, and any other query with the good
    feed. *)
Definition arxiv (seen : list remote_call) (c : remote_call) : xml + exn :=
  match c with
  | HttpGet _ params _ =>
      match dict_get params "search_query" PNone with
      | PStr "broken" => inl bad_feed
      | _ => inl good_feed
      end
  | _ => inr (Exn RequestException "Connection refused.")
  end.

Definition feeds : Feeds :=
  {| arxiv_respond := arxiv; isoformat := iso_time |}.

(** The details of a paper with the papers that cite it. *)
Definition cited_paper (id : string) (citing : list string) : pyvalue :=
  PDict [("paperId", PStr id); ("title", PStr ("Paper " +:+ id));
         ("citations",
          PList (map (fun c => PDict [("paperId", PStr c)]) citing))].

(** A service that knows three papers, the first cited by the two
    others, and fails in transport for any other. *)
Definition graph_service (seen : list remote_call) (c : remote_call)
    : pyvalue + exn :=
  match c with
  | HttpGet url _ _ =>
      if String.eqb url (PaperCollector.SEMANTIC_SCHOLAR_API +:+ "/paper/p1")
      then inl (cited_paper "p1" ["p2"; "p3"])
      else if String.eqb url
                (PaperCollector.SEMANTIC_SCHOLAR_API +:+ "/paper/p2")
      then inl (cited_paper "p2" ["p3"])
      else if String.eqb url
                (PaperCollector.SEMANTIC_SCHOLAR_API +:+ "/paper/p3")
      then inl (cited_paper "p3" [])
      else inr (Exn RequestException "404 Client Error: Not Found")
  | _ => inr (Exn RequestException "Connection refused.")
  end.

(** A language model that answers in prose. *)
Definition prose (seen : list remote_call) (c : remote_call)
    : option string + exn :=
  inl (Some "I am sorry, I cannot analyse this paper.").

Definition graph_rt : Runtime :=
  Reference.runtime graph_service Reference.third_call_fails.

Definition prose_rt : Runtime :=
  Reference.runtime Reference.flaky_search prose.

(** The world of [Reference.world0] with a cache directory that cannot be
    written. *)
Definition read_only : World :=
  mkWorld ∅ (fun _ => false) permission_denied 1700000000000000 [].

(** A slot of the collector written by hand with an object, not a list. *)
Definition hand_written : World :=
  snd (PaperCollector._save_to_cache (rt := Reference.rt) Reference.collector
         Reference.search_slot (PDict [("note", PStr "not a list")])
         Reference.world0).

Definition one_paper : pydict := Reference.paper "p1" "One".



(** The answer of [Reference.third_call_fails], decoded. *)
Definition answer : pydict :=
  [("summary", PStr "A summary."); ("relevance_score", PInt 7)].

Definition fenced_answer : string :=
  "```json" +:+ nl +:+ "{" +:+ q "summary" +:+ ": " +:+ q "A summary."
  +:+ ", " +:+ q "relevance_score" +:+ ": 7}" +:+ nl +:+ "```".

End Scenarios.

(* ===================================================================== *)
(** * Properties *)
(* ===================================================================== *)

(** The test suite of RFC 1321, appendix A.5. *)
Example md5_test_suite :
  map MD5.hexdigest
    [EmptyString; "a"; "abc"; "message digest"; "abcdefghijklmnopqrstuvwxyz";
     "ABCDEFGHIJKLMNOPQRSTUVWXYZabcdefghijklmnopqrstuvwxyz0123456789";
     "12345678901234567890123456789012345678901234567890123456789012345678901234567890"]
  = ["d41d8cd98f00b204e9800998ecf8427e"; "0cc175b9c0f1b6a831c399e269772661";
     "900150983cd24fb0d6963f7d28e17f72"; "f96b697d7cb7938d525a2f31aaf161d0";
     "c3fcd3d76192e4007dfb496cca67e13b"; "d174ab98d277d9f5a5611c2c9f419d9f";
     "57edf4a22be3c955ac49da2e2107b67a"].
Proof. vm_compute. reflexivity. Qed.

(** The strict UTF-8 decoder: an accented letter and an emoji decode; a
    stray continuation byte, an overlong form, a surrogate, a code point
    above U+10FFFF, a truncated character and the byte 0xFF do not. *)
Example utf8_valid_cases :
  map utf8_valid_bytes
    [[0x61; 0xC3; 0xA9]; [0xF0; 0x9F; 0x98; 0x80]; [0x80]; [0xC0; 0x80];
     [0xED; 0xA0; 0x80]; [0xF4; 0x90; 0x80; 0x80]; [0xE2; 0x82]; [0xFF]]
  = [true; true; false; false; false; false; false; false].
Proof. reflexivity. Qed.

(** The reference codec writes what [json.dumps(v, indent=2)] writes and
    reads it back. *)
Example json_dumps_sample :
  Json.dumps (PDict [("a", PList [PInt 1; PDict [("b", PNone)]]);
                     ("c", PStr (string_of_bytes [195; 169; 34; 10]));
                     ("d", PList []); ("f", PInt (-12))])
  = lines ["{";
           "  " +:+ q "a" +:+ ": [";
           "    1,";
           "    {";
           "      " +:+ q "b" +:+ ": null";
           "    }";
           "  ],";
           "  " +:+ q "c" +:+ ": " +:+ dq +:+ Json.backslash +:+ "u00e9"
             +:+ Json.backslash +:+ dq +:+ Json.backslash +:+ "n" +:+ dq +:+ ",";
           "  " +:+ q "d" +:+ ": [],";
           "  " +:+ q "f" +:+ ": -12";
           "}"].
Proof. vm_compute. reflexivity. Qed.


(* ===================================================================== *)
(** ** Running statements *)
(* ===================================================================== *)

Section Running.
Context {A B : Type}.
Implicit Types (m : M A) (k : A -> M B) (w : World).

Lemma bind_Ok m k w b w' :
  bind m k w = (Ok b, w') ->
  exists a w0, m w = (Ok a, w0) /\ k a w0 = (Ok b, w').
Proof.
  unfold bind. destruct (m w) as [[a|e|] w0]; intros H;
    [eauto | discriminate | discriminate].
Qed.

Lemma bind_run m k w a w0 : m w = (Ok a, w0) -> bind m k w = k a w0.
Proof. intros H. unfold bind. rewrite H. reflexivity. Qed.

Lemma bind_raise m k w e w0 :
  m w = (Raise e, w0) -> bind m k w = (Raise e, w0).
Proof. intros H. unfold bind. rewrite H. reflexivity. Qed.

Lemma bind_no_diverge m k w :
  fst (m w) <> Diverge ->
  (forall a w0, fst (k a w0) <> Diverge) ->
  fst (bind m k w) <> Diverge.
Proof.
  intros Hm Hk. unfold bind. destruct (m w) as [[a|e|] w0]; simpl in *.
  - apply Hk.
  - discriminate.
  - exfalso. apply Hm. reflexivity.
Qed.

Lemma try_except_Ok (body : M A) catches handler w a w' :
  try_except body catches handler w = (Ok a, w') ->
  body w = (Ok a, w')
  \/ exists e w0, body w = (Raise e, w0) /\ catches e = true
                  /\ handler e w0 = (Ok a, w').
Proof.
  unfold try_except. destruct (body w) as [[x|e|] w0]; intros H.
  - left. exact H.
  - destruct (catches e) eqn:Hc; [|discriminate]. right. eauto.
  - discriminate.
Qed.

Lemma try_except_no_diverge (body : M A) catches handler w :
  fst (body w) <> Diverge ->
  (forall e w0, fst (handler e w0) <> Diverge) ->
  fst (try_except body catches handler w) <> Diverge.
Proof.
  intros Hb Hh. unfold try_except. destruct (body w) as [[x|e|] w0]; simpl in *.
  - discriminate.
  - destruct (catches e); [apply Hh|discriminate].
  - exact Hb.
Qed.

(** [attempt] returns: it raises nothing, and diverges only if its body
    does. *)
Lemma attempt_cases (body : M A) w :
  (exists a w0, body w = (Ok a, w0) /\ attempt body w = (Ok (inl a), w0))
  \/ (exists e w0, body w = (Raise e, w0) /\ attempt body w = (Ok (inr e), w0))
  \/ (exists w0, body w = (Diverge, w0)).
Proof.
  unfold attempt, try_except, bind, ret.
  destruct (body w) as [[a|e|] w0]; [left|right; left|right; right]; eauto.
Qed.

End Running.

(* ===================================================================== *)
(** ** The cache read, case by case *)
(* ===================================================================== *)

Section CacheRead.
Context {rt : Runtime}.

Lemma try_json_load path w f :
  files w !! path = Some f ->
  try_except (json_load path) is_JSONDecodeError (fun _ => ret PNone) w
  = (decode_entry (f_data f), w).
Proof.
  intros Hf. unfold try_except, json_load, bind, read_text, decode_entry.
  rewrite Hf. destruct (utf8_valid (f_data f)); [|reflexivity].
  destruct (json_loads (f_data f)) as [v|e]; [reflexivity|].
  destruct (is_JSONDecodeError e); reflexivity.
Qed.

Lemma collector_load_absent self key h w :
  files w !! PaperCollector.cache_file self key = None ->
  PaperCollector._load_from_cache self key h w = (Ok PNone, w).
Proof.
  intros Hf. unfold PaperCollector._load_from_cache, bind, path_exists.
  rewrite Hf. rewrite bool_decide_eq_false_2; [reflexivity|].
  intros [x Hx]. discriminate.
Qed.

Lemma collector_load_present self key h w f :
  files w !! PaperCollector.cache_file self key = Some f ->
  PaperCollector._load_from_cache self key h w
  = (if hours_ok h then
       if clock w - f_mtime f >? h * usec_per_hour then Ok PNone
       else decode_entry (f_data f)
     else Raise (timedelta_error h),
     w).
Proof.
  intros Hf. unfold PaperCollector._load_from_cache, bind, path_exists.
  rewrite Hf. rewrite bool_decide_eq_true_2 by eauto. simpl.
  unfold stat_mtime. rewrite Hf. unfold datetime_now, timedelta_hours, hours_ok.
  destruct ((-999999999 <=? h / 24) && (h / 24 <=? 999999999)); simpl;
    [|reflexivity].
  destruct (clock w - f_mtime f >? h * usec_per_hour); [reflexivity|].
  apply try_json_load. exact Hf.
Qed.

Lemma analyzer_load_absent self id ty w :
  files w !! LLMAnalyzer._get_cache_path self id ty = None ->
  LLMAnalyzer._load_from_cache self id ty w = (Ok PNone, w).
Proof.
  intros Hf. unfold LLMAnalyzer._load_from_cache, bind, path_exists.
  rewrite Hf. rewrite bool_decide_eq_false_2; [reflexivity|].
  intros [x Hx]. discriminate.
Qed.

Lemma analyzer_load_present self id ty w f :
  files w !! LLMAnalyzer._get_cache_path self id ty = Some f ->
  LLMAnalyzer._load_from_cache self id ty w = (decode_entry (f_data f), w).
Proof.
  intros Hf. unfold LLMAnalyzer._load_from_cache, bind, path_exists.
  rewrite Hf. rewrite bool_decide_eq_true_2 by eauto.
  apply try_json_load. exact Hf.
Qed.

Lemma decode_roundtrip p :
  json_roundtrips p -> decode_entry (json_dumps p) = Ok p.
Proof.
  intros [Hu Hl]. unfold decode_entry. rewrite Hu, Hl. reflexivity.
Qed.

Lemma collector_save self key p w :
  writable w (PaperCollector.cache_file self key) = true ->
  PaperCollector._save_to_cache self key p w
  = (Ok tt,
     set_files (<[PaperCollector.cache_file self key
                  := File (json_dumps p) (clock w)]> (files w)) w).
Proof.
  intros Hw. unfold PaperCollector._save_to_cache, json_dump, write_text.
  rewrite Hw. reflexivity.
Qed.

Lemma analyzer_save self id ty p w :
  writable w (LLMAnalyzer._get_cache_path self id ty) = true ->
  LLMAnalyzer._save_to_cache self id ty p w
  = (Ok tt,
     set_files (<[LLMAnalyzer._get_cache_path self id ty
                  := File (json_dumps p) (clock w)]> (files w)) w).
Proof.
  intros Hw. unfold LLMAnalyzer._save_to_cache, json_dump, write_text.
  rewrite Hw. reflexivity.
Qed.

End CacheRead.

(* ===================================================================== *)
(** ** The cache contract *)
(* ===================================================================== *)

Section CacheContract.
Context {rt : Runtime}.
Implicit Types (cs : PaperCollector.t) (an : LLMAnalyzer.t).
Implicit Types (key ty : string) (id p : pyvalue) (h : Z) (w : World).

Lemma fresh_entry_not_expired h t : 0 <= h -> (t - t >? h * usec_per_hour) = false.
Proof.
  intros Hh. unfold usec_per_hour. rewrite Z.gtb_ltb. apply Z.ltb_ge. lia.
Qed.


(** C2. Expiry: an entry that the collector wrote at clock [T] is returned
    by a read at clock [t] exactly when [t - T] is at most the age limit,
    and a read after that returns nothing; the analyzer returns an entry
    that exists and parses whatever the clock and the time of the file. *)
Theorem collector_expires_analyzer_does_not cs an key id ty p h w w' f v :
  json_roundtrips p ->
  hours_ok h = true ->
  writable w (PaperCollector.cache_file cs key) = true ->
  files w' = files (snd (PaperCollector._save_to_cache cs key p w)) ->
  files w' !! LLMAnalyzer._get_cache_path an id ty = Some f ->
  utf8_valid (f_data f) = true -> json_loads (f_data f) = inl v ->
  (clock w' - clock w <= h * usec_per_hour ->
     PaperCollector._load_from_cache cs key h w' = (Ok p, w'))
  /\ (clock w' - clock w > h * usec_per_hour ->
     PaperCollector._load_from_cache cs key h w' = (Ok PNone, w'))
  /\ LLMAnalyzer._load_from_cache an id ty w' = (Ok v, w').
Proof.
  intros Hp Hok Hwr Hfiles Hf Hu Hl.
  rewrite collector_save in Hfiles by assumption. simpl in Hfiles.
  assert (Hc : files w' !! PaperCollector.cache_file cs key
               = Some (File (json_dumps p) (clock w))).
  { rewrite Hfiles. apply lookup_insert_eq. }
  split; [|split].
  - intros Hage. rewrite (collector_load_present _ _ _ _ _ Hc), Hok. simpl.
    replace (clock w' - clock w >? h * usec_per_hour) with false
      by (symmetry; rewrite Z.gtb_ltb; apply Z.ltb_ge; lia).
    rewrite decode_roundtrip by assumption. reflexivity.
  - intros Hage. rewrite (collector_load_present _ _ _ _ _ Hc), Hok. simpl.
    replace (clock w' - clock w >? h * usec_per_hour) with true
      by (symmetry; rewrite Z.gtb_ltb; apply Z.ltb_lt; lia).
    reflexivity.
  - rewrite (analyzer_load_present _ _ _ _ _ Hf). unfold decode_entry.
    rewrite Hu, Hl. reflexivity.
Qed.

(** Text that decodes but is not JSON is a miss, in both variants. *)
Lemma malformed_text_is_a_miss cs an key id ty h w f g e :
  files w !! PaperCollector.cache_file cs key = Some f ->
  files w !! LLMAnalyzer._get_cache_path an id ty = Some g ->
  hours_ok h = true ->
  utf8_valid (f_data f) = true -> json_loads (f_data f) = inr e ->
  utf8_valid (f_data g) = true -> json_loads (f_data g) = inr e ->
  is_JSONDecodeError e = true ->
  PaperCollector._load_from_cache cs key h w = (Ok PNone, w)
  /\ LLMAnalyzer._load_from_cache an id ty w = (Ok PNone, w).
Proof.
  intros Hf Hg Hok Huf Hlf Hug Hlg He. split.
  - rewrite (collector_load_present _ _ _ _ _ Hf), Hok.
    destruct (clock w - f_mtime f >? h * usec_per_hour); [reflexivity|].
    unfold decode_entry. rewrite Huf, Hlf, He. reflexivity.
  - rewrite (analyzer_load_present _ _ _ _ _ Hg).
    unfold decode_entry. rewrite Hug, Hlg, He. reflexivity.
Qed.

(** C3, at the failing input. A cache slot that holds the single byte
    0xFF exists and is malformed; the read raises [UnicodeDecodeError] in
    the collector and in the analyzer, since only [JSONDecodeError] is
    caught. *)
Theorem undecodable_entry_raises cs an key id ty :
  fst (PaperCollector._load_from_cache cs key 24
         (corrupt_world (PaperCollector.cache_file cs key)))
  = Raise (Exn UnicodeDecodeError "'utf-8' codec can't decode byte")
  /\ fst (LLMAnalyzer._load_from_cache an id ty
            (corrupt_world (LLMAnalyzer._get_cache_path an id ty)))
  = Raise (Exn UnicodeDecodeError "'utf-8' codec can't decode byte").
Proof.
  split.
  - erewrite collector_load_present
      by (unfold corrupt_world; simpl; apply lookup_singleton_eq).
    reflexivity.
  - erewrite analyzer_load_present
      by (unfold corrupt_world; simpl; apply lookup_singleton_eq).
    reflexivity.
Qed.

(** C6. Overwrite: a second write to a fingerprint, at any later time,
    replaces the entry of the first. The files are those before the two
    writes with the one slot holding the second payload, no entry is
    added, and a read returns the second payload. *)
Theorem put_overwrites cs an key id ty p1 p2 h w wc wa :
  json_roundtrips p2 ->
  0 <= h -> hours_ok h = true ->
  writable w (PaperCollector.cache_file cs key) = true ->
  writable w (LLMAnalyzer._get_cache_path an id ty) = true ->
  files wc = files (snd (PaperCollector._save_to_cache cs key p1 w)) ->
  files wa = files (snd (LLMAnalyzer._save_to_cache an id ty p1 w)) ->
  writable wc (PaperCollector.cache_file cs key) = true ->
  writable wa (LLMAnalyzer._get_cache_path an id ty) = true ->
  let c2 := snd (PaperCollector._save_to_cache cs key p2 wc) in
  let a2 := snd (LLMAnalyzer._save_to_cache an id ty p2 wa) in
  (files c2 = <[PaperCollector.cache_file cs key
                := File (json_dumps p2) (clock wc)]> (files w)
   /\ dom (files c2) = dom (files wc)
   /\ PaperCollector._load_from_cache cs key h c2 = (Ok p2, c2))
  /\ (files a2 = <[LLMAnalyzer._get_cache_path an id ty
                   := File (json_dumps p2) (clock wa)]> (files w)
      /\ dom (files a2) = dom (files wa)
      /\ LLMAnalyzer._load_from_cache an id ty a2 = (Ok p2, a2)).
Proof.
  intros Hp Hh Hok Hwc Hwa Hfc Hfa Hwc' Hwa' c2 a2. subst c2 a2.
  rewrite collector_save in Hfc by assumption.
  rewrite analyzer_save in Hfa by assumption. simpl in Hfc, Hfa.
  rewrite collector_save, analyzer_save by assumption. simpl.
  rewrite Hfc, Hfa.
  split; (split; [apply insert_insert_eq|split]).
  - rewrite insert_insert_eq. rewrite !dom_insert_L. set_solver.
  - erewrite collector_load_present by (simpl; apply lookup_insert_eq).
    simpl. rewrite Hok, fresh_entry_not_expired by assumption.
    rewrite decode_roundtrip by assumption. reflexivity.
  - rewrite insert_insert_eq. rewrite !dom_insert_L. set_solver.
  - erewrite analyzer_load_present by (simpl; apply lookup_insert_eq).
    simpl. rewrite decode_roundtrip by assumption. reflexivity.
Qed.

(** C7. A read never changes the world, so never the stored entries:
    whatever it returns or raises, the files (expired and corrupt ones
    too), the clock and the log of remote calls are those before it. *)
Theorem get_changes_nothing cs an key id ty h w :
  snd (PaperCollector._load_from_cache cs key h w) = w
  /\ snd (LLMAnalyzer._load_from_cache an id ty w) = w.
Proof.
  split.
  - destruct (files w !! PaperCollector.cache_file cs key) as [f|] eqn:Hf.
    + rewrite (collector_load_present _ _ _ _ _ Hf). reflexivity.
    + rewrite collector_load_absent by assumption. reflexivity.
  - destruct (files w !! LLMAnalyzer._get_cache_path an id ty) as [f|] eqn:Hf.
    + rewrite (analyzer_load_present _ _ _ _ _ Hf). reflexivity.
    + rewrite analyzer_load_absent by assumption. reflexivity.
Qed.

End CacheContract.

(* ===================================================================== *)
(** ** The fingerprint *)
(* ===================================================================== *)

Section Fingerprint.
Context {rt : Runtime}.
Implicit Types (cs : PaperCollector.t) (query source : string).

Lemma hexdigest_length data : String.length (MD5.hexdigest data) = 32%nat.
Proof.
  unfold MD5.hexdigest, MD5.digest.
  destruct (fold_left MD5.process _ MD5.init) as [[[a b] c] d].
  reflexivity.
Qed.

(** C4. Determinism: the fingerprint is the MD5 of the key string and of
    nothing else. Two collectors, whatever their cache directory and API
    key, give one logical key the same fingerprint, of 32 characters; no
    world is read. *)
Theorem fingerprint_deterministic cs cs' query source :
  PaperCollector._get_cache_key cs query source
  = PaperCollector._get_cache_key cs' query source
  /\ PaperCollector._get_cache_key cs query source
     = MD5.hexdigest (source +:+ ":" +:+ query)
  /\ String.length (PaperCollector._get_cache_key cs query source) = 32%nat.
Proof. split; [reflexivity|]. split; [reflexivity|apply hexdigest_length]. Qed.

Lemma append_cons c (s t : string) : String c s +:+ t = String c (s +:+ t).
Proof. reflexivity. Qed.

(** A source tag without [":"] can be read back from the key string. *)
Lemma key_string_injective s1 s2 q1 q2 :
  has_colon s1 = false -> has_colon s2 = false ->
  PaperCollector.key_string q1 s1 = PaperCollector.key_string q2 s2 ->
  s1 = s2 /\ q1 = q2.
Proof.
  unfold PaperCollector.key_string.
  revert s2. induction s1 as [|c1 r1 IH]; intros [|c2 r2] H1 H2 Heq.
  - injection Heq as Heq. auto.
  - rewrite append_cons in Heq. injection Heq as Hc _. subst c2.
    simpl in H2. discriminate.
  - rewrite append_cons in Heq. injection Heq as Hc _. subst c1.
    simpl in H1. discriminate.
  - rewrite !append_cons in Heq. injection Heq as Hc Hr. subst c2.
    simpl in H1, H2.
    apply orb_false_elim in H1 as [_ H1]. apply orb_false_elim in H2 as [_ H2].
    destruct (IH r2 H1 H2 Hr) as [-> ->]. auto.
Qed.

(** The source tags of the collector, ['semantic_scholar'] and ['arxiv'],
    hold no colon: for them the key string tells the logical keys
    apart. *)
Lemma key_strings_of_plain_sources s1 q1 s2 q2 :
  has_colon s1 = false -> has_colon s2 = false ->
  (s1, q1) <> (s2, q2) ->
  PaperCollector.key_string q1 s1 <> PaperCollector.key_string q2 s2.
Proof.
  intros H1 H2 Hne Heq.
  destruct (key_string_injective _ _ _ _ H1 H2 Heq) as [-> ->].
  apply Hne. reflexivity.
Qed.

Lemma append_assoc (s t u : string) : (s +:+ t) +:+ u = s +:+ (t +:+ u).
Proof.
  induction s as [|c s IH]; [reflexivity|].
  rewrite !append_cons, IH. reflexivity.
Qed.

Lemma append_longer (s t : string) : t <> EmptyString -> s <> s +:+ t.
Proof.
  intros Ht H. apply Ht. clear Ht.
  induction s as [|c s IH]; [symmetry; exact H|].
  rewrite append_cons in H. injection H as H. exact (IH H).
Qed.

(** C5. The key string joins the source tag and the query with a colon
    and escapes none. The logical keys of source [a] with query [b:c]
    and of source [a:b] with query [c] are distinct, for all strings [a],
    [b], [c], and have one key string, so one fingerprint although MD5
    does not collide: what the collector stores for the first key it
    returns for the second. *)
Theorem colon_keys_share_a_fingerprint cs a b c p h w :
  json_roundtrips p ->
  0 <= h -> hours_ok h = true ->
  writable w
    (PaperCollector.cache_file cs
       (PaperCollector._get_cache_key cs (b +:+ ":" +:+ c) a)) = true ->
  (a, b +:+ ":" +:+ c) <> (a +:+ ":" +:+ b, c)
  /\ PaperCollector.key_string (b +:+ ":" +:+ c) a
     = PaperCollector.key_string c (a +:+ ":" +:+ b)
  /\ PaperCollector._get_cache_key cs (b +:+ ":" +:+ c) a
     = PaperCollector._get_cache_key cs c (a +:+ ":" +:+ b)
  /\ fst ((let* _ := PaperCollector._save_to_cache cs
                       (PaperCollector._get_cache_key cs (b +:+ ":" +:+ c) a)
                       p in
           PaperCollector._load_from_cache cs
             (PaperCollector._get_cache_key cs c (a +:+ ":" +:+ b)) h) w)
     = Ok p.
Proof.
  intros Hp Hh Hok Hw.
  assert (Hkey : PaperCollector.key_string (b +:+ ":" +:+ c) a
                 = PaperCollector.key_string c (a +:+ ":" +:+ b)).
  { unfold PaperCollector.key_string. rewrite !append_assoc. reflexivity. }
  split; [|split; [exact Hkey|split]].
  - intros H. injection H as Ha _. revert Ha. apply append_longer.
    discriminate.
  - unfold PaperCollector._get_cache_key. rewrite Hkey. reflexivity.
  - unfold PaperCollector._get_cache_key in *. rewrite <- Hkey.
    unfold bind. rewrite collector_save by assumption.
    erewrite collector_load_present by (simpl; apply lookup_insert_eq).
    simpl. rewrite Hok.
    replace (clock w - clock w >? h * usec_per_hour) with false.
    + apply decode_roundtrip, Hp.
    + symmetry. unfold usec_per_hour. rewrite Z.gtb_ltb. apply Z.ltb_ge. lia.
Qed.

End Fingerprint.

(* ===================================================================== *)
(** ** The analyzer *)
(* ===================================================================== *)

Section Analyzer.
Context {rt : Runtime}.
Implicit Types (an : LLMAnalyzer.t) (paper : pydict) (w : World).

Lemma analyzer_load_stored an id ty w :
  LLMAnalyzer._load_from_cache an id ty w
  = (stored_entry (files w) (LLMAnalyzer._get_cache_path an id ty), w).
Proof.
  unfold stored_entry.
  destruct (files w !! LLMAnalyzer._get_cache_path an id ty) as [f|] eqn:Hf.
  - apply analyzer_load_present, Hf.
  - apply analyzer_load_absent, Hf.
Qed.

Lemma dict_get_absent d key default :
  dict_has d key = false -> dict_get d key default = default.
Proof.
  induction d as [|[k v] r IH]; simpl; [reflexivity|].
  destruct (String.eqb k key); [discriminate|exact IH].
Qed.

Lemma lacks_id_unknown paper :
  lacks_id paper = true -> LLMAnalyzer.paper_id_of paper = PStr "unknown".
Proof.
  unfold lacks_id, LLMAnalyzer.paper_id_of. intros H.
  apply andb_true_iff in H as [H1 H2].
  apply negb_true_iff in H1. apply negb_true_iff in H2.
  rewrite !dict_get_absent by assumption. reflexivity.
Qed.

Lemma dict_set_truthy d key v : py_truthy (PDict (dict_set d key v)) = true.
Proof.
  destruct d as [|[k x] r]; simpl; [reflexivity|].
  destruct (String.eqb k key); reflexivity.
Qed.

Lemma analyze_with_hit an ty sys prompt temp perr paper w c :
  stored_entry (files w)
    (LLMAnalyzer._get_cache_path an (LLMAnalyzer.paper_id_of paper) ty) = Ok c ->
  py_truthy c = true ->
  LLMAnalyzer.analyze_with an ty sys prompt temp perr paper true w = (Ok c, w).
Proof.
  intros Hs Ht. unfold LLMAnalyzer.analyze_with, bind.
  rewrite analyzer_load_stored, Hs. simpl. rewrite Ht. reflexivity.
Qed.

Lemma analyzer_save_Ok an id ty p w u w' :
  LLMAnalyzer._save_to_cache an id ty p w = (Ok u, w') ->
  w' = set_files (<[LLMAnalyzer._get_cache_path an id ty
                    := File (json_dumps p) (clock w)]> (files w)) w.
Proof.
  unfold LLMAnalyzer._save_to_cache, json_dump, write_text.
  destruct (writable w _); intros H; [|discriminate].
  injection H as _ <-. reflexivity.
Qed.

Lemma setitem_Ok target key v w r w' :
  LLMAnalyzer.setitem target key v w = (Ok r, w') ->
  exists d, target = PDict d /\ r = PDict (dict_set d key v) /\ w' = w.
Proof.
  destruct target; simpl; intros H; try discriminate.
  injection H as <- <-. eauto.
Qed.

(** A call that returns a payload which no [except] clause built leaves
    that payload readable in the slot of the paper's identifier. *)
Lemma analyze_with_outcome an ty sys prompt temp perr paper w a w1 :
  LLMAnalyzer.analyze_with an ty sys prompt temp perr paper true w = (Ok a, w1) ->
  handler_payload a = false ->
  json_roundtrips a ->
  py_truthy a = true
  /\ stored_entry (files w1)
       (LLMAnalyzer._get_cache_path an (LLMAnalyzer.paper_id_of paper) ty)
     = Ok a.
Proof.
  intros H He Hr. unfold LLMAnalyzer.analyze_with in H.
  apply bind_Ok in H as (c & w0 & Hload & H).
  rewrite analyzer_load_stored in Hload. injection Hload as Hs <-.
  cbn [andb] in H. destruct (py_truthy c) eqn:Ht.
  - injection H as <- <-. auto.
  - apply try_except_Ok in H as [H | (e & w2 & _ & _ & H)].
    2:{ destruct (is_JSONDecodeError e); [discriminate|].
        injection H as <- _. discriminate. }
    apply bind_Ok in H as (content & w2 & _ & H).
    apply bind_Ok in H as (response & w3 & _ & H).
    apply try_except_Ok in H as [H | (e & w4 & _ & _ & H)].
    2:{ injection H as <- _. discriminate. }
    apply bind_Ok in H as (v & w4 & _ & H).
    apply bind_Ok in H as (v1 & w5 & Hset1 & H).
    apply bind_Ok in H as (now & w6 & _ & H).
    apply bind_Ok in H as (v2 & w7 & Hset2 & H).
    apply bind_Ok in H as (u & w8 & Hsave & H).
    injection H as <- <-.
    apply setitem_Ok in Hset2 as (d & -> & -> & _).
    apply analyzer_save_Ok in Hsave as ->.
    split; [apply dict_set_truthy|].
    unfold stored_entry. simpl. rewrite lookup_insert_eq. simpl.
    apply decode_roundtrip, Hr.
Qed.

(** C10. Papers without ['paperId'] and ['id'] all get the identifier
    ['unknown'], hence one cache slot per analysis type. Once
    [analyze_paper] has returned an analysis for one of them (a payload
    that none of its [except] clauses built), that analysis is what the
    shared slot holds, and a call on any other of them, at any later
    time and whatever else has changed, returns the analysis of the
    first from the slot and leaves the world as it is: the language
    model is not called for the second paper. *)
Theorem unknown_papers_share_a_slot an p1 p2 a w w1 w2 :
  lacks_id p1 = true -> lacks_id p2 = true ->
  LLMAnalyzer.analyze_paper an p1 true w = (Ok a, w1) ->
  handler_payload a = false ->
  json_roundtrips a ->
  files w2 !! comprehensive_slot an p1 = files w1 !! comprehensive_slot an p1 ->
  LLMAnalyzer.paper_id_of p1 = PStr "unknown"
  /\ LLMAnalyzer.paper_id_of p2 = PStr "unknown"
  /\ comprehensive_slot an p2 = comprehensive_slot an p1
  /\ mirofish_slot an p2 = mirofish_slot an p1
  /\ stored_entry (files w1) (comprehensive_slot an p1) = Ok a
  /\ stored_entry (files w2) (comprehensive_slot an p2) = Ok a
  /\ LLMAnalyzer.analyze_paper an p2 true w2 = (Ok a, w2).
Proof.
  intros H1 H2 Hrun He Hr Hfiles.
  pose proof (lacks_id_unknown _ H1) as Hid1.
  pose proof (lacks_id_unknown _ H2) as Hid2.
  assert (Hslot : comprehensive_slot an p2 = comprehensive_slot an p1).
  { unfold comprehensive_slot. rewrite Hid1, Hid2. reflexivity. }
  unfold LLMAnalyzer.analyze_paper in *.
  destruct (analyze_with_outcome _ _ _ _ _ _ _ _ _ _ Hrun He Hr) as [Ht Hs].
  fold (comprehensive_slot an p1) in Hs.
  assert (Hs2 : stored_entry (files w2) (comprehensive_slot an p2) = Ok a).
  { rewrite Hslot, <- Hs. unfold stored_entry. rewrite Hfiles. reflexivity. }
  split; [exact Hid1|]. split; [exact Hid2|]. split; [exact Hslot|].
  split; [unfold mirofish_slot; rewrite Hid1, Hid2; reflexivity|].
  split; [exact Hs|]. split; [exact Hs2|].
  apply analyze_with_hit; [exact Hs2|exact Ht].
Qed.

Lemma decode_entry_no_diverge data : decode_entry data <> Diverge.
Proof.
  unfold decode_entry. destruct (utf8_valid data); [|discriminate].
  destruct (json_loads data) as [v|e]; [discriminate|].
  destruct (is_JSONDecodeError e); discriminate.
Qed.

Lemma stored_entry_no_diverge fs path : stored_entry fs path <> Diverge.
Proof.
  unfold stored_entry. destruct (fs !! path); [|discriminate].
  apply decode_entry_no_diverge.
Qed.

Lemma setitem_no_diverge target key v w :
  fst (LLMAnalyzer.setitem target key v w) <> Diverge.
Proof. destruct target; discriminate. Qed.

Lemma analyze_with_no_diverge an ty sys prompt temp perr paper uc w :
  fst (LLMAnalyzer.analyze_with an ty sys prompt temp perr paper uc w)
  <> Diverge.
Proof.
  unfold LLMAnalyzer.analyze_with. apply bind_no_diverge.
  { destruct uc; [|discriminate]. rewrite analyzer_load_stored.
    apply stored_entry_no_diverge. }
  intros c w0. destruct (uc && py_truthy c); [discriminate|].
  apply try_except_no_diverge.
  2:{ intros e w1. destruct (is_JSONDecodeError e); discriminate. }
  apply bind_no_diverge.
  { unfold LLMAnalyzer._call_openai.
    destruct (llm_respond _ _); discriminate. }
  intros content w1. apply bind_no_diverge.
  { destruct content; discriminate. }
  intros response w2. apply try_except_no_diverge; [|discriminate].
  apply bind_no_diverge.
  { unfold json_loads_str. destruct (json_loads response); discriminate. }
  intros v w3. apply bind_no_diverge; [apply setitem_no_diverge|].
  intros v1 w4. apply bind_no_diverge; [discriminate|].
  intros now w5. apply bind_no_diverge; [apply setitem_no_diverge|].
  intros v2 w6. apply bind_no_diverge; [|discriminate].
  destruct uc; [|discriminate].
  unfold LLMAnalyzer._save_to_cache, json_dump, write_text.
  destruct (writable w6 _); discriminate.
Qed.

Lemma analyze_one_no_diverge an ty paper w :
  fst (analyze_one an ty paper w) <> Diverge.
Proof.
  unfold analyze_one, LLMAnalyzer.extract_mirofish_integration_points,
    LLMAnalyzer.analyze_paper.
  destruct (String.eqb ty "mirofish"); apply analyze_with_no_diverge.
Qed.

Lemma sleep_attempt delay (sleeps : bool) w :
  sleep_error delay = None ->
  attempt (if sleeps then time_sleep delay else ret tt) w
  = (Ok (inl tt),
     if sleeps then set_clock (clock w + slept_usec delay) w else w).
Proof.
  intros Hd. unfold attempt, try_except, bind, ret, time_sleep.
  destruct sleeps; [|reflexivity].
  rewrite Hd. reflexivity.
Qed.

Lemma sleep_attempt_rejected delay e w :
  sleep_error delay = Some e ->
  attempt (time_sleep delay) w = (Ok (inr e), w).
Proof.
  intros Hd. unfold attempt, try_except, bind, ret, time_sleep.
  rewrite Hd. reflexivity.
Qed.

Lemma sleep_attempt_returns delay (sleeps : bool) w :
  exists s w',
    attempt (if sleeps then time_sleep delay else ret tt) w = (Ok s, w').
Proof.
  destruct sleeps; [|eexists _, _; reflexivity].
  destruct (sleep_error delay) as [e|] eqn:Hd.
  - rewrite (sleep_attempt_rejected _ _ _ Hd). eauto.
  - rewrite (sleep_attempt delay true w Hd). eauto.
Qed.

Lemma batch_loop_entries an ty delay total papers :
  sleep_error delay = None ->
  forall i acc w,
  Z.of_nat (length papers) = total - i + 1 ->
  exists results w',
    LLMAnalyzer.batch_loop an ty delay total i papers acc w
    = (Ok (acc ++ results)%list, w')
    /\ length results = length papers
    /\ batch_entries an ty delay w papers results w'.
Proof.
  intros Hd. induction papers as [|paper rest IH]; intros i acc w Hlen.
  - exists [], w. simpl. unfold ret. rewrite app_nil_r.
    repeat split. constructor.
  - cbn [LLMAnalyzer.batch_loop]. fold (analyze_one an ty paper).
    assert (Hrest : Z.of_nat (length rest) = total - (i + 1) + 1).
    { cbn [length] in Hlen. lia. }
    destruct (attempt_cases (analyze_one an ty paper) w)
      as [(r & w0 & Hrun & Hatt) | [(e & w0 & Hrun & Hatt) | (w0 & Hrun)]].
    + rewrite (bind_run _ _ _ _ _ Hatt).
      rewrite (bind_run _ _ _ _ _ (sleep_attempt delay (i <? total) w0 Hd)).
      destruct (IH (i + 1) (acc ++ [r])%list
                  (if i <? total
                   then set_clock (clock w0 + slept_usec delay) w0
                   else w0) Hrest)
        as (results & w' & Hloop & Hn & Hent).
      exists (r :: results), w'. rewrite Hloop, <- app_assoc.
      split; [reflexivity|]. split; [simpl; congruence|].
      eapply batch_result; [exact Hrun|].
      replace (pause delay rest w0)
        with (if i <? total
              then set_clock (clock w0 + slept_usec delay) w0
              else w0); [exact Hent|].
      unfold pause. destruct rest as [|x rest'].
      * replace (i <? total) with false; [reflexivity|].
        symmetry. apply Z.ltb_ge. simpl in Hrest. lia.
      * replace (i <? total) with true; [reflexivity|].
        symmetry. apply Z.ltb_lt. cbn [length] in Hrest. lia.
    + rewrite (bind_run _ _ _ _ _ Hatt).
      destruct (IH (i + 1) (acc ++ [LLMAnalyzer.error_entry paper e])%list
                  w0 Hrest)
        as (results & w' & Hloop & Hn & Hent).
      exists (LLMAnalyzer.error_entry paper e :: results), w'.
      rewrite Hloop, <- app_assoc.
      split; [reflexivity|]. split; [simpl; congruence|].
      eapply batch_error; eassumption.
    + exfalso. apply (analyze_one_no_diverge an ty paper w).
      rewrite Hrun. reflexivity.
Qed.

(** For a delay that [time.sleep] accepts, the default of one second
    included, the batch returns a list with one entry per paper, in the
    order of the papers: the result of the analysis where it returns, an
    error-shaped entry where it raises; a paper that fails does not keep
    the following ones from being analysed. *)
Lemma batch_is_resilient an papers ty delay w :
  sleep_error delay = None ->
  exists results w',
    LLMAnalyzer.batch_analyze an papers ty delay w = (Ok (PList results), w')
    /\ length results = length papers
    /\ batch_entries an ty delay w papers results w'
    /\ (forall paper e,
          error_shaped (LLMAnalyzer.error_entry paper e) = true).
Proof.
  intros Hd.
  destruct (batch_loop_entries an ty delay (Z.of_nat (length papers)) papers
              Hd 1 [] w ltac:(lia)) as (results & w' & Hloop & Hn & Hent).
  exists results, w'. unfold LLMAnalyzer.batch_analyze.
  rewrite (bind_run _ _ _ _ _ Hloop). unfold ret. simpl.
  repeat split; auto.
Qed.

(** A transport error of the language model makes the analysis return,
    not raise: the item is an error-shaped payload with the message. *)
Lemma transport_error_payload an ty sys prompt temp perr paper w e :
  stored_entry (files w)
    (LLMAnalyzer._get_cache_path an (LLMAnalyzer.paper_id_of paper) ty)
  = Ok PNone ->
  llm_respond (calls w)
    (ChatCompletion (LLMAnalyzer.model an) [("system", sys); ("user", prompt)]
                    temp 2000) = inr e ->
  is_JSONDecodeError e = false ->
  fst (LLMAnalyzer.analyze_with an ty sys prompt temp perr paper true w)
  = Ok (PDict [("error", PStr (exn_str e))]).
Proof.
  intros Hs Hllm He. unfold LLMAnalyzer.analyze_with, bind.
  rewrite analyzer_load_stored, Hs. simpl.
  unfold try_except, LLMAnalyzer._call_openai. rewrite Hllm, He.
  reflexivity.
Qed.

(** Whatever the delay, the loop returns, with at least one entry for each
    paper. *)
Lemma batch_loop_returns an ty delay total papers :
  forall i acc w,
  exists results w',
    LLMAnalyzer.batch_loop an ty delay total i papers acc w
    = (Ok (acc ++ results)%list, w')
    /\ (length papers <= length results)%nat.
Proof.
  induction papers as [|paper rest IH]; intros i acc w.
  - exists [], w. cbn [LLMAnalyzer.batch_loop]. unfold ret.
    rewrite app_nil_r. split; [reflexivity|]. cbn. lia.
  - cbn [LLMAnalyzer.batch_loop]. fold (analyze_one an ty paper).
    destruct (attempt_cases (analyze_one an ty paper) w)
      as [(r & w0 & Hrun & Hatt) | [(e & w0 & Hrun & Hatt) | (w0 & Hrun)]].
    + rewrite (bind_run _ _ _ _ _ Hatt).
      destruct (sleep_attempt_returns delay (i <? total) w0)
        as (slept & w1 & Hsleep).
      rewrite (bind_run _ _ _ _ _ Hsleep).
      destruct slept as [[]|e].
      * destruct (IH (i + 1) (acc ++ [r])%list w1)
          as (results & w' & Hloop & Hn).
        exists (r :: results), w'. rewrite Hloop, <- app_assoc.
        split; [reflexivity|]. cbn [length]. lia.
      * destruct (IH (i + 1)
                    ((acc ++ [r]) ++ [LLMAnalyzer.error_entry paper e])%list
                    w1) as (results & w' & Hloop & Hn).
        exists (r :: LLMAnalyzer.error_entry paper e :: results), w'.
        rewrite Hloop, <- !app_assoc.
        split; [reflexivity|]. cbn [length]. lia.
    + rewrite (bind_run _ _ _ _ _ Hatt).
      destruct (IH (i + 1) (acc ++ [LLMAnalyzer.error_entry paper e])%list w0)
        as (results & w' & Hloop & Hn).
      exists (LLMAnalyzer.error_entry paper e :: results), w'.
      rewrite Hloop, <- app_assoc.
      split; [reflexivity|]. cbn [length]. lia.
    + exfalso. apply (analyze_one_no_diverge an ty paper w).
      rewrite Hrun. reflexivity.
Qed.

(** C8. The pause between two papers is inside the [try], after the
    result was appended. With a delay that [time.sleep] rejects (a
    negative one, one of more than [2^63] nanoseconds, an infinite one
    or not a number), a paper that is not the last and whose analysis
    returns gets two entries, its result and an error-shaped one with
    the message of [time.sleep]: the batch has more entries than
    papers. *)
Theorem rejected_delay_repeats_a_paper an p1 rest ty delay e w r w1 :
  sleep_error delay = Some e ->
  rest <> [] ->
  analyze_one an ty p1 w = (Ok r, w1) ->
  exists others w',
    LLMAnalyzer.batch_analyze an (p1 :: rest) ty delay w
    = (Ok (PList (r :: LLMAnalyzer.error_entry p1 e :: others)), w')
    /\ (length rest <= length others)%nat
    /\ (length (p1 :: rest)
        < length (r :: LLMAnalyzer.error_entry p1 e :: others))%nat.
Proof.
  intros Hd Hrest Hrun.
  assert (Hatt : attempt (analyze_one an ty p1) w = (Ok (inl r), w1)).
  { unfold attempt, try_except, bind. rewrite Hrun. reflexivity. }
  unfold LLMAnalyzer.batch_analyze.
  cbn [LLMAnalyzer.batch_loop]. fold (analyze_one an ty p1).
  replace (1 <? Z.of_nat (length (p1 :: rest))) with true.
  2:{ symmetry. apply Z.ltb_lt. destruct rest; [congruence|].
      cbn [length]. lia. }
  destruct (batch_loop_returns an ty delay (Z.of_nat (length (p1 :: rest)))
              rest (1 + 1) [r; LLMAnalyzer.error_entry p1 e] w1)
    as (others & w' & Hloop & Hn).
  exists others, w'. split; [|split; [exact Hn|cbn [length]; lia]].
  erewrite bind_run; [reflexivity|].
  rewrite (bind_run _ _ _ _ _ Hatt).
  rewrite (bind_run _ _ _ _ _ (sleep_attempt_rejected _ _ _ Hd)).
  exact Hloop.
Qed.

End Analyzer.

(* ===================================================================== *)
(** ** The search *)
(* ===================================================================== *)

Section Search.
Context {rt : Runtime}.
Implicit Types (cs : PaperCollector.t) (w : World).

Lemma str_chars_nonempty s : s <> EmptyString -> str_chars s <> [].
Proof. destruct s; [congruence|]. intros _. discriminate. Qed.

Lemma page_outcome cs query limit fields all_papers offset w :
  exists r w',
    PaperCollector.page cs query limit fields all_papers offset w = (r, w')
    /\ r <> Diverge
    /\ files w' = files w /\ writable w' = writable w
    /\ (forall all_papers' offset', r = Ok (Some (all_papers', offset')) ->
          (length all_papers < length all_papers')%nat).
Proof.
  unfold PaperCollector.page, try_except, bind.
  match goal with |- context [http_respond ?c ?x] =>
    destruct (http_respond c x) as [data|e] end.
  2:{ destruct (is_RequestException e); eexists _, _;
      (split; [reflexivity|]); repeat split; discriminate. }
  destruct data as [| | | |l|d|t];
    try (eexists _, _; (split; [reflexivity|]); repeat split; discriminate).
  cbn [ret]. cbv beta iota.
  set (papers := dict_get d "data" (PList [])).
  set (w0 := log_call _ w).
  destruct (py_truthy papers) eqn:Ht; cbn [negb].
  2:{ eexists _, _. split; [reflexivity|]. repeat split; discriminate. }
  assert (Hgrow : forall items : list pyvalue, items <> [] ->
            (length all_papers < length (all_papers ++ items))%nat).
  { intros items Hi. rewrite length_app. destruct items; [congruence|].
    simpl. lia. }
  destruct papers as [| | |s|l|d'|t];
    try (eexists _, _; (split; [reflexivity|]); repeat split; discriminate).
  - eexists _, _. split; [reflexivity|]. repeat split; [discriminate|].
    intros ap' off' H. injection H as <- _. apply Hgrow.
    intros Hm. apply map_eq_nil in Hm. revert Hm. apply str_chars_nonempty.
    intros ->. discriminate.
  - eexists _, _. split; [reflexivity|]. repeat split; [discriminate|].
    intros ap' off' H. injection H as <- _. apply Hgrow.
    intros ->. discriminate.
  - eexists _, _. split; [reflexivity|]. repeat split; [discriminate|].
    intros ap' off' H. injection H as <- _. apply Hgrow.
    intros Hm. apply map_eq_nil in Hm. subst d'. discriminate.
  - eexists _, _. split; [reflexivity|]. repeat split; [discriminate|].
    intros ap' off' H. injection H as <- _. apply Hgrow.
    intros ->. discriminate.
Qed.

Lemma paginate_outcome cs query limit fields fuel :
  forall all_papers offset w,
  limit - Z.of_nat (length all_papers) <= Z.of_nat fuel ->
  exists r w',
    PaperCollector.paginate fuel cs query limit fields all_papers offset w
    = (r, w')
    /\ r <> Diverge /\ files w' = files w /\ writable w' = writable w.
Proof.
  induction fuel as [|fuel IH]; intros all_papers offset w Hfuel.
  - cbn [PaperCollector.paginate].
    replace (Z.of_nat (length all_papers) <? limit) with false
      by (symmetry; apply Z.ltb_ge; lia).
    eexists _, _. split; [reflexivity|]. repeat split. discriminate.
  - cbn [PaperCollector.paginate].
    destruct (Z.of_nat (length all_papers) <? limit) eqn:Hlt.
    2:{ eexists _, _. split; [reflexivity|]. repeat split. discriminate. }
    destruct (page_outcome cs query limit fields all_papers offset w)
      as (r & w0 & Hpage & Hnd & Hfs & Hwr & Hgrow).
    unfold bind. rewrite Hpage.
    destruct r as [[[ap' off']|]|e|].
    + specialize (Hgrow ap' off' eq_refl).
      destruct (IH ap' off' w0 ltac:(lia)) as (r & w' & Hrun & Hr & Hf & Hw).
      exists r, w'. split; [exact Hrun|]. repeat split; congruence.
    + eexists _, _. split; [reflexivity|]. repeat split; auto; discriminate.
    + eexists _, _. split; [reflexivity|]. repeat split; auto; discriminate.
    + congruence.
Qed.

Lemma collector_load_stored cs key w :
  exists r, PaperCollector._load_from_cache cs key 24 w = (r, w)
            /\ r <> Diverge.
Proof.
  destruct (files w !! PaperCollector.cache_file cs key) as [f|] eqn:Hf.
  - rewrite (collector_load_present _ _ _ _ _ Hf). eexists. split; [reflexivity|].
    cbn [hours_ok]. change (hours_ok 24) with true. cbv iota.
    destruct (_ >? _); [discriminate|apply decode_entry_no_diverge].
  - rewrite collector_load_absent by assumption. eexists.
    split; [reflexivity|discriminate].
Qed.

(** The search returns or raises: the bound [limit] on the turns of its
    loop is never exhausted. *)
Lemma search_terminates cs query limit fields w :
  fst (PaperCollector.search_semantic_scholar cs query limit fields w)
  <> Diverge.
Proof.
  unfold PaperCollector.search_semantic_scholar.
  set (fs := match fields with Some l => l | None => _ end).
  destruct (collector_load_stored cs
              (PaperCollector.search_key cs query limit fs) w)
    as (c & Hload & Hc).
  unfold bind at 1. rewrite Hload. destruct c as [c|e|]; [|discriminate|congruence].
  destruct (is_not_None c); [discriminate|].
  destruct (paginate_outcome cs query limit fs (Z.to_nat limit) [] 0 w
              ltac:(simpl; lia)) as (r & w0 & Hrun & Hr & _).
  unfold bind at 1. rewrite Hrun. destruct r as [l|e|]; [|discriminate|congruence].
  unfold bind, PaperCollector._save_to_cache, json_dump, write_text.
  destruct (writable w0 _); discriminate.
Qed.

(** C9. On a miss the list that the search returns, complete or cut
    short by a transport error, is what it has written to the cache, and
    an identical search within the next 24 hours returns that list from
    the cache and leaves the world as it is: no request is sent. *)
Theorem search_caches_what_it_collected cs query limit fields w r w' w2 :
  let key :=
    PaperCollector.search_key cs query limit
      (match fields with
       | Some l => l
       | None => PaperCollector.default_fields
       end) in
  PaperCollector._load_from_cache cs key 24 w = (Ok PNone, w) ->
  PaperCollector.search_semantic_scholar cs query limit fields w = (Ok r, w') ->
  json_roundtrips r ->
  files w2 = files w' ->
  clock w2 - clock w' <= 24 * usec_per_hour ->
  files w' = <[PaperCollector.cache_file cs key
               := File (json_dumps r) (clock w')]> (files w)
  /\ PaperCollector.search_semantic_scholar cs query limit fields w2
     = (Ok r, w2).
Proof.
  intros key Hmiss Hrun Hr Hfiles Hage.
  unfold PaperCollector.search_semantic_scholar in Hrun.
  fold key in Hrun. rewrite (bind_run _ _ _ _ _ Hmiss) in Hrun.
  cbn [is_not_None] in Hrun.
  apply bind_Ok in Hrun as (l & w0 & Hpag & Hrun).
  apply bind_Ok in Hrun as (u & w1 & Hsave & Hrun).
  injection Hrun as <- <-.
  destruct (paginate_outcome cs query limit
              (match fields with
               | Some l => l
               | None => PaperCollector.default_fields
               end) (Z.to_nat limit) [] 0 w ltac:(simpl; lia))
    as (r0 & w0' & Hpag' & _ & Hfs & _).
  rewrite Hpag in Hpag'. injection Hpag' as <- <-.
  unfold PaperCollector._save_to_cache, json_dump, write_text in Hsave.
  destruct (writable w0 _); [|discriminate].
  injection Hsave as _ <-. cbn [files set_files clock].
  split; [rewrite Hfs; reflexivity|].
  assert (Hc : files w2 !! PaperCollector.cache_file cs key
               = Some (File (json_dumps (PList l)) (clock w0))).
  { rewrite Hfiles. cbn [files set_files]. apply lookup_insert_eq. }
  assert (Hload : PaperCollector._load_from_cache cs key 24 w2
                  = (Ok (PList l), w2)).
  { rewrite (collector_load_present _ _ _ _ _ Hc).
    change (hours_ok 24) with true. cbv iota. cbn [f_mtime f_data].
    cbn [clock set_files] in Hage.
    replace (clock w2 - clock w0 >? 24 * usec_per_hour) with false
      by (symmetry; rewrite Z.gtb_ltb; apply Z.ltb_ge; lia).
    rewrite decode_roundtrip by assumption. reflexivity. }
  unfold PaperCollector.search_semantic_scholar. fold key.
  rewrite (bind_run _ _ _ _ _ Hload). reflexivity.
Qed.

End Search.

(* ===================================================================== *)
(** ** The theorems on the reference runtime *)
(* ===================================================================== *)

Section OnTheReferenceRuntime.
Import Reference.
#[local] Existing Instance Reference.rt.

Lemma payload_roundtrips : json_roundtrips payload.
Proof. split; vm_compute; reflexivity. Qed.



(** One microsecond before the 24 hours are over the collector returns
    the entry, one microsecond after them it returns nothing; the
    analyzer returns its entry a thousand days later. *)
Lemma expiry_witness :
  PaperCollector._load_from_cache collector search_slot 24
    (later (day - 1) both_written)
  = (Ok payload, later (day - 1) both_written)
  /\ PaperCollector._load_from_cache collector search_slot 24
       (later (day + 1) both_written)
     = (Ok PNone, later (day + 1) both_written)
  /\ LLMAnalyzer._load_from_cache analyzer (PStr "p1") "comprehensive"
       (later (1000 * day) both_written)
     = (Ok payload, later (1000 * day) both_written).
Proof.
  pose (w := snd (LLMAnalyzer._save_to_cache analyzer (PStr "p1")
                    "comprehensive" payload world0)).
  pose (f := File (Json.dumps payload) 1700000000000000).
  assert (H : forall t,
    (clock (later t both_written) - clock w <= 24 * usec_per_hour ->
       PaperCollector._load_from_cache collector search_slot 24
         (later t both_written) = (Ok payload, later t both_written))
    /\ (clock (later t both_written) - clock w > 24 * usec_per_hour ->
       PaperCollector._load_from_cache collector search_slot 24
         (later t both_written) = (Ok PNone, later t both_written))
    /\ LLMAnalyzer._load_from_cache analyzer (PStr "p1") "comprehensive"
         (later t both_written) = (Ok payload, later t both_written)).
  { intros t.
    apply (collector_expires_analyzer_does_not collector analyzer search_slot
             (PStr "p1") "comprehensive" payload 24 w (later t both_written)
             f payload).
    - exact payload_roundtrips.
    - reflexivity.
    - reflexivity.
    - reflexivity.
    - vm_compute. reflexivity.
    - vm_compute. reflexivity.
    - vm_compute. reflexivity. }
  split; [|split].
  - destruct (H (day - 1)) as [Hfresh _]. apply Hfresh.
    vm_compute. discriminate.
  - destruct (H (day + 1)) as (_ & Hstale & _). apply Hstale.
    vm_compute. reflexivity.
  - destruct (H (1000 * day)) as (_ & _ & Hforever). exact Hforever.
Defined.

(** An empty list, then the payload five seconds later: the slot holds
    the payload. *)
Lemma put_overwrites_witness :
  dom (files overwritten) = dom (files first_written)
  /\ PaperCollector._load_from_cache collector search_slot 24 overwritten
     = (Ok payload, overwritten).
Proof.
  pose (wa := later 5000000
                (snd (LLMAnalyzer._save_to_cache analyzer (PStr "p1")
                        "comprehensive" (PList []) world0))).
  assert (Hwc : files first_written
                = files (snd (PaperCollector._save_to_cache collector
                                search_slot (PList []) world0)))
    by reflexivity.
  assert (Hwa : files wa
                = files (snd (LLMAnalyzer._save_to_cache analyzer (PStr "p1")
                                "comprehensive" (PList []) world0)))
    by reflexivity.
  assert (Hh : 0 <= 24) by lia.
  pose proof (put_overwrites collector analyzer search_slot (PStr "p1")
                "comprehensive" (PList []) payload 24 world0 first_written wa
                payload_roundtrips Hh eq_refl eq_refl eq_refl Hwc Hwa
                eq_refl eq_refl) as H.
  destruct H as [(_ & Hdom & Hload) _]. split; [exact Hdom|exact Hload].
Defined.

(** Five papers, the third of which meets a transport error: five
    entries, the third error-shaped, the others analysed. *)
Lemma batch_is_resilient_witness :
  exists results w',
    LLMAnalyzer.batch_analyze analyzer five_papers "comprehensive" (Finite 1) world0
    = (Ok (PList results), w')
    /\ length results = 5%nat
    /\ map error_shaped results = [false; false; true; false; false].
Proof.
  destruct (batch_is_resilient analyzer five_papers "comprehensive" (Finite 1) world0)
    as (results & w' & Hrun & Hn & _).
  - reflexivity.
  - exists results, w'. split; [exact Hrun|]. split; [exact Hn|].
    assert (Hr : fst (LLMAnalyzer.batch_analyze analyzer five_papers
                        "comprehensive" (Finite 1) world0) = Ok (PList results))
      by (rewrite Hrun; reflexivity).
    vm_compute in Hr. injection Hr as <-. reflexivity.
Defined.

(** Two papers with a delay of minus one second: the first gets its
    result and an error-shaped entry, and the batch has three entries. *)
Lemma rejected_delay_witness :
  exists others w',
    LLMAnalyzer.batch_analyze analyzer [paper "p1" "One"; paper "p2" "Two"]
      "comprehensive" (Finite (-1)) world0
    = (Ok (PList
             (PDict [("summary", PStr "A summary.");
                     ("relevance_score", PInt 7);
                     ("paper_id", PStr "p1");
                     ("analyzed_at", PStr "2023-11-14 22:13:20")]
              :: LLMAnalyzer.error_entry (paper "p1" "One")
                   (Exn ValueError "sleep length must be non-negative")
              :: others)), w')
    /\ (1 <= length others)%nat.
Proof.
  destruct (rejected_delay_repeats_a_paper analyzer (paper "p1" "One")
              [paper "p2" "Two"] "comprehensive" (Finite (-1))
              (Exn ValueError "sleep length must be non-negative") world0
              (PDict [("summary", PStr "A summary.");
                      ("relevance_score", PInt 7);
                      ("paper_id", PStr "p1");
                      ("analyzed_at", PStr "2023-11-14 22:13:20")])
              (snd (analyze_one analyzer "comprehensive" (paper "p1" "One")
                      world0)))
    as (others & w' & Hrun & Hn & _).
  - reflexivity.
  - discriminate.
  - vm_compute. reflexivity.
  - exists others, w'. split; [exact Hrun|exact Hn].
Defined.

(** The three entries of that batch, and those of the same batch with a
    delay of ten thousand million seconds and with one that is not a
    number: the analysis of the first paper, an error-shaped entry for
    the first again, the analysis of the second. *)
Example negative_delay_three_entries :
  fst (LLMAnalyzer.batch_analyze analyzer [paper "p1" "One"; paper "p2" "Two"]
         "comprehensive" (Finite (-1)) world0)
  = Ok (PList
          [PDict [("summary", PStr "A summary."); ("relevance_score", PInt 7);
                  ("paper_id", PStr "p1");
                  ("analyzed_at", PStr "2023-11-14 22:13:20")];
           PDict [("paper_id", PStr "p1");
                  ("error", PStr "sleep length must be non-negative")];
           PDict [("summary", PStr "A summary."); ("relevance_score", PInt 7);
                  ("paper_id", PStr "p2");
                  ("analyzed_at", PStr "2023-11-14 22:13:20")]])
  /\ fst (LLMAnalyzer.batch_analyze analyzer
            [paper "p1" "One"; paper "p2" "Two"] "comprehensive"
            (Finite (10000000000 # 1)) world0)
     = Ok (PList
             [PDict [("summary", PStr "A summary.");
                     ("relevance_score", PInt 7);
                     ("paper_id", PStr "p1");
                     ("analyzed_at", PStr "2023-11-14 22:13:20")];
              PDict [("paper_id", PStr "p1");
                     ("error",
                      PStr "timestamp too large to convert to C _PyTime_t")];
              PDict [("summary", PStr "A summary.");
                     ("relevance_score", PInt 7);
                     ("paper_id", PStr "p2");
                     ("analyzed_at", PStr "2023-11-14 22:13:20")]])
  /\ fst (LLMAnalyzer.batch_analyze analyzer
            [paper "p1" "One"; paper "p2" "Two"] "comprehensive" NaN world0)
     = Ok (PList
             [PDict [("summary", PStr "A summary.");
                     ("relevance_score", PInt 7);
                     ("paper_id", PStr "p1");
                     ("analyzed_at", PStr "2023-11-14 22:13:20")];
              PDict [("paper_id", PStr "p1");
                     ("error", PStr "Invalid value NaN (not a number)")];
              PDict [("summary", PStr "A summary.");
                     ("relevance_score", PInt 7);
                     ("paper_id", PStr "p2");
                     ("analyzed_at", PStr "2023-11-14 22:13:20")]]).
Proof. repeat split; vm_compute; reflexivity. Qed.

(** The end-to-end scenario with a search service that fails on the
    second page: the truncated list of two papers is cached, and the same
    search a day later returns it without a request. *)
Lemma search_witness :
  files searched
  = <[PaperCollector.cache_file collector search_slot
      := File (json_dumps payload) (clock searched)]> (files world0)
  /\ search (later day searched) = (Ok payload, later day searched).
Proof.
  apply (search_caches_what_it_collected collector
           "microservice architecture" 50 None world0 payload searched
           (later day searched)).
  - vm_compute. reflexivity.
  - vm_compute. reflexivity.
  - exact payload_roundtrips.
  - reflexivity.
  - vm_compute. discriminate.
Defined.

(** Two anonymous papers: the analysis of the first is in the slot of
    the second, which gets it a thousand days later. *)
Lemma unknown_slot_witness :
  comprehensive_slot analyzer (anonymous "Second")
  = "cache/llm/unknown_comprehensive.json"
  /\ stored_entry (files analyzed) (comprehensive_slot analyzer (anonymous "First"))
     = Ok first_analysis
  /\ LLMAnalyzer.analyze_paper analyzer (anonymous "Second") true
       (later (1000 * day) analyzed)
     = (Ok first_analysis, later (1000 * day) analyzed).
Proof.
  destruct (unknown_papers_share_a_slot analyzer (anonymous "First")
              (anonymous "Second") first_analysis world0 analyzed
              (later (1000 * day) analyzed))
    as (_ & _ & Hslot & _ & Hstored & _ & Hrun).
  - reflexivity.
  - reflexivity.
  - vm_compute. reflexivity.
  - reflexivity.
  - split; vm_compute; reflexivity.
  - reflexivity.
  - split; [rewrite Hslot; reflexivity|]. split; [exact Hstored|exact Hrun].
Defined.

(** The keys of source [a] with query [b:c] and of source [a:b] with
    query [c]: one fingerprint, the MD5 of [a:b:c], and what is stored
    for the first is read for the second. *)
Lemma colon_keys_witness :
  ("a", "b:c") <> ("a:b", "c")
  /\ PaperCollector._get_cache_key collector "b:c" "a"
     = "02cc8f08398a4f3113b554e8105ebe4c"
  /\ PaperCollector._get_cache_key collector "c" "a:b"
     = "02cc8f08398a4f3113b554e8105ebe4c"
  /\ fst ((let* _ := PaperCollector._save_to_cache collector
                       (PaperCollector._get_cache_key collector "b:c" "a")
                       payload in
           PaperCollector._load_from_cache collector
             (PaperCollector._get_cache_key collector "c" "a:b") 24) world0)
     = Ok payload.
Proof.
  destruct (colon_keys_share_a_fingerprint collector "a" "b" "c" payload 24
              world0) as (Hne & _ & Hkey & Hrun).
  - exact payload_roundtrips.
  - lia.
  - reflexivity.
  - reflexivity.
  - split; [exact Hne|]. split; [vm_compute; reflexivity|].
    split; [vm_compute; reflexivity|exact Hrun].
Defined.

(** With a search service that is down, the empty list is what the cache
    holds and what the next search returns. *)
Example empty_result_is_cached :
  let down := Reference.runtime no_search third_call_fails in
  let w := snd (PaperCollector.search_semantic_scholar (rt := down) collector
                  "microservice architecture" 50 None world0) in
  fst (PaperCollector.search_semantic_scholar (rt := down) collector
         "microservice architecture" 50 None world0) = Ok (PList [])
  /\ fst (PaperCollector.search_semantic_scholar (rt := down) collector
            "microservice architecture" 50 None (later day w)) = Ok (PList [])
  /\ length (calls (snd (PaperCollector.search_semantic_scholar (rt := down)
                           collector "microservice architecture" 50 None
                           (later day w)))) = 1%nat.
Proof. vm_compute. repeat split. Qed.

End OnTheReferenceRuntime.

(* ===================================================================== *)
(** ** The requests of a search *)
(* ===================================================================== *)

Section SearchRequests.
Context {rt : Runtime}.
Implicit Types (cs : PaperCollector.t) (w : World).

Lemma page_effect cs query limit fields all_papers w :
  exists r w',
    PaperCollector.page cs query limit fields all_papers
      (Z.of_nat (length all_papers)) w = (r, w')
    /\ calls w'
       = page_request cs query limit fields (Z.of_nat (length all_papers))
         :: calls w
    /\ (forall all_papers' offset', r = Ok (Some (all_papers', offset')) ->
          offset' = Z.of_nat (length all_papers')
          /\ (length all_papers < length all_papers')%nat).
Proof.
  destruct (page_outcome cs query limit fields all_papers
              (Z.of_nat (length all_papers)) w)
    as (r & w' & Hrun & _ & _ & _ & Hgrow).
  exists r, w'. split; [exact Hrun|].
  revert Hrun. unfold PaperCollector.page, try_except, bind, page_request.
  match goal with |- context [http_respond ?c ?x] =>
    destruct (http_respond c x) as [data|e] end.
  2:{ destruct (is_RequestException e); intros H; injection H as <- <-;
      (split; [reflexivity|discriminate]). }
  destruct data as [| | | |l|d|t];
    try (intros H; injection H as <- <-; split; [reflexivity|discriminate]).
  cbn [ret]. cbv beta iota.
  set (papers := dict_get d "data" (PList [])).
  destruct (py_truthy papers); cbn [negb].
  2:{ intros H; injection H as <- <-; split; [reflexivity|discriminate]. }
  assert (Hoff : forall items : list pyvalue,
            Z.of_nat (length all_papers) + Z.of_nat (length items)
            = Z.of_nat (length (all_papers ++ items))).
  { intros items. rewrite length_app. lia. }
  destruct papers as [| | |s|l|d'|t];
    try (intros H; injection H as <- <-; split; [reflexivity|discriminate]).
  - intros H. injection H as <- <-. split; [reflexivity|].
    intros ap' off' H. split; [|eapply Hgrow; exact H].
    injection H as <- <-. apply Hoff.
  - intros H. injection H as <- <-. split; [reflexivity|].
    intros ap' off' H. split; [|eapply Hgrow; exact H].
    injection H as <- <-. apply Hoff.
  - intros H. injection H as <- <-. split; [reflexivity|].
    intros ap' off' H. split; [|eapply Hgrow; exact H].
    injection H as <- <-. apply Hoff.
  - intros H. injection H as <- <-. split; [reflexivity|].
    intros ap' off' H. split; [|eapply Hgrow; exact H].
    injection H as <- <-. apply Hoff.
Qed.

Lemma paginate_requests cs query limit fields fuel :
  forall all_papers w,
  exists counts,
    calls (snd (PaperCollector.paginate fuel cs query limit fields all_papers
                  (Z.of_nat (length all_papers)) w))
    = (map (page_request cs query limit fields) counts ++ calls w)%list
    /\ Forall (fun n => Z.of_nat (length all_papers) <= n < limit) counts
    /\ Z.of_nat (length counts)
       <= Z.max 0 (limit - Z.of_nat (length all_papers)).
Proof.
  induction fuel as [|fuel IH]; intros all_papers w.
  - cbn [PaperCollector.paginate].
    destruct (Z.of_nat (length all_papers) <? limit);
      exists []; (split; [reflexivity|]); (split; [constructor|simpl; lia]).
  - cbn [PaperCollector.paginate].
    destruct (Z.of_nat (length all_papers) <? limit) eqn:Hlt.
    2:{ exists []. split; [reflexivity|]. split; [constructor|simpl; lia]. }
    apply Z.ltb_lt in Hlt.
    destruct (page_effect cs query limit fields all_papers w)
      as (r & w0 & Hpage & Hcalls & Hnext).
    unfold bind. rewrite Hpage.
    destruct r as [[[ap' off']|]|e|].
    + destruct (Hnext ap' off' eq_refl) as [-> Hgrow].
      destruct (IH ap' w0) as (counts & Hc & Hall & Hn).
      exists (counts ++ [Z.of_nat (length all_papers)])%list.
      rewrite Hc, Hcalls, map_app, <- app_assoc. split; [reflexivity|].
      split.
      * apply Forall_app. split.
        -- eapply Forall_impl; [exact Hall|]. intros n Hn'. simpl in Hn'. lia.
        -- constructor; [lia|constructor].
      * rewrite length_app. simpl. lia.
    + exists [Z.of_nat (length all_papers)]. simpl. rewrite Hcalls.
      split; [reflexivity|]. split; [constructor; [lia|constructor]|lia].
    + exists [Z.of_nat (length all_papers)]. simpl. rewrite Hcalls.
      split; [reflexivity|]. split; [constructor; [lia|constructor]|lia].
    + exists [Z.of_nat (length all_papers)]. simpl. rewrite Hcalls.
      split; [reflexivity|]. split; [constructor; [lia|constructor]|lia].
Qed.

Lemma collector_save_calls cs key p w :
  calls (snd (PaperCollector._save_to_cache cs key p w)) = calls w.
Proof.
  unfold PaperCollector._save_to_cache, json_dump, write_text.
  destruct (writable w _); reflexivity.
Qed.

(** X1. Whatever the service answers and however the search ends, the
    requests it has sent are page requests, at most [limit] of them; each
    is sent when [n < limit] papers are collected, with offset [n] and
    asking for [min(100, limit - n)] papers. *)
Theorem search_sends_bounded_pages cs query limit fields w :
  exists counts,
    calls (snd (PaperCollector.search_semantic_scholar cs query limit fields w))
    = (map (page_request cs query limit (fields_of fields)) counts
       ++ calls w)%list
    /\ Forall (fun n => 0 <= n < limit) counts
    /\ Z.of_nat (length counts) <= Z.max 0 limit.
Proof.
  unfold PaperCollector.search_semantic_scholar. fold (fields_of fields).
  destruct (collector_load_stored cs
              (PaperCollector.search_key cs query limit (fields_of fields)) w)
    as (c & Hload & _).
  unfold bind at 1. rewrite Hload.
  destruct c as [c|e|]; [|exists []; repeat split; simpl; try constructor; lia..].
  destruct (is_not_None c);
    [exists []; repeat split; simpl; try constructor; lia|].
  destruct (paginate_requests cs query limit (fields_of fields)
              (Z.to_nat limit) [] w) as (counts & Hc & Hall & Hn).
  exists counts. simpl in Hc, Hall, Hn. rewrite Z.sub_0_r in Hn.
  split; [|split; assumption].
  unfold bind at 1.
  destruct (PaperCollector.paginate _ _ _ _ _ _ _ w) as [[l|e|] w0];
    simpl in Hc; [|exact Hc..].
  unfold bind.
  pose proof (collector_save_calls cs
                (PaperCollector.search_key cs query limit (fields_of fields))
                (PList l) w0) as Hs.
  destruct (PaperCollector._save_to_cache _ _ _ w0) as [[u|e|] w1];
    simpl in Hs |- *; congruence.
Qed.

End SearchRequests.

(* ===================================================================== *)
(** ** The search and its cache slot *)
(* ===================================================================== *)

Section SearchSlot.
Context {rt : Runtime}.
Implicit Types (cs : PaperCollector.t) (w : World).

Lemma search_on_miss cs query limit fields w r w' :
  PaperCollector._load_from_cache cs
    (PaperCollector.search_key cs query limit (fields_of fields)) 24 w
  = (Ok PNone, w) ->
  PaperCollector.search_semantic_scholar cs query limit fields w = (r, w') ->
  (exists l, r = Ok (PList l)
             /\ files w'
                = <[PaperCollector.cache_file cs
                      (PaperCollector.search_key cs query limit
                         (fields_of fields))
                    := File (json_dumps (PList l)) (clock w')]> (files w))
  \/ (exists e, r = Raise e /\ files w' = files w).
Proof.
  intros Hmiss Hrun.
  unfold PaperCollector.search_semantic_scholar in Hrun.
  fold (fields_of fields) in Hrun.
  rewrite (bind_run _ _ _ _ _ Hmiss) in Hrun. cbn [is_not_None] in Hrun.
  destruct (paginate_outcome cs query limit (fields_of fields)
              (Z.to_nat limit) [] 0 w ltac:(simpl; lia))
    as (r0 & w0 & Hpag & Hnd & Hfs & _).
  unfold bind at 1 in Hrun. rewrite Hpag in Hrun.
  destruct r0 as [l|e|]; [| |congruence].
  - unfold bind, PaperCollector._save_to_cache, json_dump, write_text in Hrun.
    destruct (writable w0 _); injection Hrun as <- <-.
    + left. exists l. split; [reflexivity|]. simpl. rewrite Hfs. reflexivity.
    + right. eexists. split; [reflexivity|exact Hfs].
  - injection Hrun as <- <-. right. eexists. split; [reflexivity|exact Hfs].
Qed.

(** X2. What a search does to the files is decided by the read of its
    slot. When the read gives a value other than [None], the search
    returns that value and leaves the world, hence the files, as they
    were; when the read raises, the search raises the same and leaves
    the world as it was. Otherwise the search either returns a list,
    and the one change to the files is that list written into the slot,
    stamped with the clock at the end, or it raises and leaves the files
    as they were. *)
Theorem search_writes_only_its_result cs query limit fields w :
  let slot := PaperCollector.search_key cs query limit (fields_of fields) in
  let run := PaperCollector.search_semantic_scholar cs query limit fields w in
  match fst (PaperCollector._load_from_cache cs slot 24 w) with
  | Ok c =>
      if is_not_None c then run = (Ok c, w)
      else
        (exists l,
           fst run = Ok (PList l)
           /\ files (snd run)
              = <[PaperCollector.cache_file cs slot
                  := File (json_dumps (PList l)) (clock (snd run))]>
                  (files w))
        \/ (exists e, fst run = Raise e /\ files (snd run) = files w)
  | Raise e => run = (Raise e, w)
  | Diverge => False
  end.
Proof.
  intros slot run. subst slot run.
  destruct (collector_load_stored cs
              (PaperCollector.search_key cs query limit (fields_of fields)) w)
    as (c & Hload & Hc).
  rewrite Hload. cbn [fst].
  destruct c as [c|e|]; [| |congruence].
  - destruct (is_not_None c) eqn:Hnn.
    + unfold PaperCollector.search_semantic_scholar.
      fold (fields_of fields). unfold bind at 1.
      rewrite Hload, Hnn. reflexivity.
    + assert (c = PNone) as -> by (destruct c; try discriminate; reflexivity).
      destruct (PaperCollector.search_semantic_scholar cs query limit fields w)
        as [r w'] eqn:Hrun.
      destruct (search_on_miss _ _ _ _ _ _ _ Hload Hrun)
        as [(l & -> & Hf) | (e & -> & Hf)].
      * left. exists l. split; [reflexivity|exact Hf].
      * right. exists e. split; [reflexivity|exact Hf].
  - unfold PaperCollector.search_semantic_scholar.
    fold (fields_of fields). unfold bind at 1.
    rewrite Hload. reflexivity.
Qed.

(** X3. A search with a limit of zero or less sends no request and still
    fills its slot: on a miss it returns an empty list and writes it. *)
Theorem search_without_limit_caches_nothing_found cs query limit fields w :
  limit <= 0 ->
  PaperCollector._load_from_cache cs
    (PaperCollector.search_key cs query limit (fields_of fields)) 24 w
  = (Ok PNone, w) ->
  writable w (PaperCollector.cache_file cs
                (PaperCollector.search_key cs query limit (fields_of fields)))
  = true ->
  PaperCollector.search_semantic_scholar cs query limit fields w
  = (Ok (PList []),
     set_files
       (<[PaperCollector.cache_file cs
            (PaperCollector.search_key cs query limit (fields_of fields))
          := File (json_dumps (PList [])) (clock w)]> (files w)) w).
Proof.
  intros Hlimit Hmiss Hwr.
  unfold PaperCollector.search_semantic_scholar. fold (fields_of fields).
  rewrite (bind_run _ _ _ _ _ Hmiss). cbn [is_not_None].
  replace (Z.to_nat limit) with 0%nat by lia.
  cbn [PaperCollector.paginate length]. change (Z.of_nat 0) with 0.
  replace (0 <? limit) with false by (symmetry; apply Z.ltb_ge; lia).
  unfold bind at 1. unfold ret at 1. unfold bind.
  rewrite collector_save by assumption. reflexivity.
Qed.

(** X4. Whatever the slot holds is served as it is: a fresh entry that
    decodes to any value but [None], a list of papers or not, is returned
    without a request and without a change to the world. *)
Theorem search_serves_any_fresh_entry cs query limit fields w f v :
  files w !! PaperCollector.cache_file cs
               (PaperCollector.search_key cs query limit (fields_of fields))
  = Some f ->
  clock w - f_mtime f <= 24 * usec_per_hour ->
  decode_entry (f_data f) = Ok v ->
  v <> PNone ->
  PaperCollector.search_semantic_scholar cs query limit fields w = (Ok v, w).
Proof.
  intros Hf Hage Hv Hne.
  unfold PaperCollector.search_semantic_scholar. fold (fields_of fields).
  erewrite bind_run.
  2:{ rewrite (collector_load_present _ _ _ _ _ Hf).
      change (hours_ok 24) with true. cbv iota.
      replace (clock w - f_mtime f >? 24 * usec_per_hour) with false
        by (symmetry; rewrite Z.gtb_ltb; apply Z.ltb_ge; lia).
      rewrite Hv. reflexivity. }
  destruct v; try reflexivity. congruence.
Qed.

(** X5. An entry older than 24 hours does not stop a search: the search
    runs as on an empty slot and, when it returns, the slot holds the
    list it returned in place of the old entry. *)
Theorem search_replaces_a_stale_entry cs query limit fields w f r w' :
  files w !! PaperCollector.cache_file cs
               (PaperCollector.search_key cs query limit (fields_of fields))
  = Some f ->
  clock w - f_mtime f > 24 * usec_per_hour ->
  PaperCollector.search_semantic_scholar cs query limit fields w = (Ok r, w') ->
  exists l, r = PList l
    /\ files w' !! PaperCollector.cache_file cs
                     (PaperCollector.search_key cs query limit
                        (fields_of fields))
       = Some (File (json_dumps (PList l)) (clock w')).
Proof.
  intros Hf Hage Hrun.
  assert (Hmiss : PaperCollector._load_from_cache cs
            (PaperCollector.search_key cs query limit (fields_of fields)) 24 w
          = (Ok PNone, w)).
  { rewrite (collector_load_present _ _ _ _ _ Hf).
    change (hours_ok 24) with true. cbv iota.
    replace (clock w - f_mtime f >? 24 * usec_per_hour) with true
      by (symmetry; rewrite Z.gtb_ltb; apply Z.ltb_lt; lia).
    reflexivity. }
  destruct (search_on_miss _ _ _ _ _ _ _ Hmiss Hrun)
    as [(l & Hr & Hfiles) | (e & Hr & _)]; [|discriminate].
  injection Hr as ->. exists l. split; [reflexivity|].
  rewrite Hfiles. apply lookup_insert_eq.
Qed.

End SearchSlot.

(* ===================================================================== *)
(** ** One analysis *)
(* ===================================================================== *)

Section OneAnalysis.
Context {rt : Runtime}.
Implicit Types (an : LLMAnalyzer.t) (paper : pydict) (w : World).

Lemma dict_get_set_eq d key v default :
  dict_get (dict_set d key v) key default = v.
Proof.
  induction d as [|[k x] r IH]; simpl.
  - rewrite String.eqb_refl. reflexivity.
  - destruct (String.eqb k key) eqn:Hk; simpl; rewrite Hk; [reflexivity|exact IH].
Qed.

Lemma dict_get_set_ne d key key' v default :
  key <> key' ->
  dict_get (dict_set d key v) key' default = dict_get d key' default.
Proof.
  intros Hne. induction d as [|[k x] r IH]; simpl.
  - destruct (String.eqb key key') eqn:Hk; [|reflexivity].
    apply String.eqb_eq in Hk. congruence.
  - destruct (String.eqb k key) eqn:Hk; simpl.
    + apply String.eqb_eq in Hk. subst k.
      destruct (String.eqb key key') eqn:Hk'; [|reflexivity].
      apply String.eqb_eq in Hk'. congruence.
    + destruct (String.eqb k key'); [reflexivity|exact IH].
Qed.

(** What the part of an analysis after the cache lookup does with the
    files and the log of calls: one request, and at most one write, of
    the stamped answer. *)
Lemma fresh_analysis_effect an ty sys prompt temp perr paper (uc : bool) w :
  let body :=
    try_except
      (let* response := LLMAnalyzer._call_openai an
                          [("system", sys); ("user", prompt)] temp 2000 in
       let* response :=
         match response with
         | Some text => ret (strip_code_fence text)
         | None => raise AttributeError
                     "'NoneType' object has no attribute 'strip'"
         end in
       try_except
         (let* analysis := json_loads_str response in
          let* analysis :=
            LLMAnalyzer.setitem analysis "paper_id"
              (LLMAnalyzer.paper_id_of paper) in
          let* now := datetime_now in
          let* analysis :=
            LLMAnalyzer.setitem analysis "analyzed_at" (PStr (strftime now)) in
          let* _ :=
            if uc
            then LLMAnalyzer._save_to_cache an (LLMAnalyzer.paper_id_of paper)
                   ty analysis
            else ret tt in
          ret analysis)
         is_JSONDecodeError
         (fun _ => ret (PDict [("error", PStr perr);
                               ("raw_response", PStr response)])))
      is_Exception
      (fun e =>
         if is_JSONDecodeError e
         then raise UnboundLocalError
                "cannot access local variable 'response'"
         else ret (PDict [("error", PStr (exn_str e))])) in
  exists r w',
    body w = (r, w')
    /\ r <> Diverge
    /\ calls w' = chat_request an sys prompt temp 2000 :: calls w
    /\ clock w' = clock w
    /\ (files w' = files w
        \/ uc = true
           /\ exists d,
                r = Ok (PDict (dict_set
                                 (dict_set d "paper_id"
                                    (LLMAnalyzer.paper_id_of paper))
                                 "analyzed_at" (PStr (strftime (clock w)))))
                /\ files w'
                   = <[LLMAnalyzer._get_cache_path an
                         (LLMAnalyzer.paper_id_of paper) ty
                       := File (json_dumps
                                  (PDict (dict_set
                                            (dict_set d "paper_id"
                                               (LLMAnalyzer.paper_id_of paper))
                                            "analyzed_at"
                                            (PStr (strftime (clock w))))))
                               (clock w)]> (files w)
                /\ model_answered w (chat_request an sys prompt temp 2000) d)
    /\ (forall e, r = Raise e ->
          exn_class_of e = UnboundLocalError
          /\ exists e', llm_respond (calls w)
                          (chat_request an sys prompt temp 2000) = inr e'
                        /\ is_JSONDecodeError e' = true).
Proof.
  intros body. subst body.
  unfold try_except, bind, LLMAnalyzer._call_openai, chat_request.
  destruct (llm_respond (calls w) _) as [[text|]|e] eqn:Hllm.
  - cbn [ret]. cbv beta iota. unfold json_loads_str.
    destruct (json_loads (strip_code_fence text)) as [v|e] eqn:Hjson.
    + destruct v as [| | | |l|d|t];
        try (eexists _, _; (split; [reflexivity|]); cbn;
             repeat split; try discriminate; auto).
      cbn [LLMAnalyzer.setitem ret datetime_now]. cbv beta iota.
      destruct uc.
      * unfold LLMAnalyzer._save_to_cache, json_dump, write_text.
        cbn [writable log_call clock files].
        destruct (writable w _).
        -- eexists _, _. split; [reflexivity|]. cbn.
           repeat split; try discriminate.
           right. split; [reflexivity|]. exists d.
           split; [reflexivity|]. split; [reflexivity|].
           exists text. split; [exact Hllm|exact Hjson].
        -- eexists _, _. split; [reflexivity|]. cbn.
           repeat split; try discriminate; auto.
      * eexists _, _. split; [reflexivity|]. cbn.
        repeat split; try discriminate; auto.
    + destruct (is_JSONDecodeError e) eqn:He.
      * eexists _, _. split; [reflexivity|]. cbn.
        repeat split; try discriminate; auto.
      * cbn [is_Exception]. rewrite He.
        eexists _, _. split; [reflexivity|]. cbn.
        repeat split; try discriminate; auto.
  - cbn. eexists _, _. split; [reflexivity|]. cbn.
    repeat split; try discriminate; auto.
  - cbn [is_Exception]. destruct (is_JSONDecodeError e) eqn:He.
    + eexists _, _. split; [reflexivity|]. cbn.
      repeat split; try discriminate; auto.
      * injection H as <-. reflexivity.
      * exists e. auto.
    + eexists _, _. split; [reflexivity|]. cbn.
      repeat split; try discriminate; auto.
Qed.

(** An analysis is the cache lookup, then on a hit its value, else the
    request and what follows. *)
Lemma analyze_with_effect an ty sys prompt temp perr paper (uc : bool) w :
  exists r w',
    LLMAnalyzer.analyze_with an ty sys prompt temp perr paper uc w = (r, w')
    /\ r <> Diverge
    /\ clock w' = clock w
    /\ ((uc = true /\ w' = w
         /\ r = stored_entry (files w)
                  (LLMAnalyzer._get_cache_path an
                     (LLMAnalyzer.paper_id_of paper) ty)
         /\ forall c, r = Ok c -> py_truthy c = true)
        \/ (calls w' = chat_request an sys prompt temp 2000 :: calls w
            /\ (files w' = files w
                \/ uc = true
                   /\ exists d,
                        r = Ok (PDict (dict_set
                                  (dict_set d "paper_id"
                                     (LLMAnalyzer.paper_id_of paper))
                                  "analyzed_at" (PStr (strftime (clock w)))))
                        /\ files w'
                           = <[LLMAnalyzer._get_cache_path an
                                 (LLMAnalyzer.paper_id_of paper) ty
                               := File (json_dumps
                                    (PDict (dict_set
                                       (dict_set d "paper_id"
                                          (LLMAnalyzer.paper_id_of paper))
                                       "analyzed_at"
                                       (PStr (strftime (clock w))))))
                                  (clock w)]> (files w)
                        /\ model_answered w
                             (chat_request an sys prompt temp 2000) d)
            /\ (forall e, r = Raise e ->
                  exn_class_of e = UnboundLocalError
                  /\ exists e', llm_respond (calls w)
                                  (chat_request an sys prompt temp 2000)
                                = inr e'
                                /\ is_JSONDecodeError e' = true))).
Proof.
  unfold LLMAnalyzer.analyze_with.
  destruct (fresh_analysis_effect an ty sys prompt temp perr paper uc w)
    as (r & w' & Hbody & Hnd & Hcalls & Hclock & Hfiles & Hraise).
  destruct uc.
  - unfold bind at 1. rewrite analyzer_load_stored.
    destruct (stored_entry (files w) _) as [c|e|] eqn:Hs.
    + cbn [andb]. destruct (py_truthy c) eqn:Ht.
      * exists (Ok c), w. split; [reflexivity|]. split; [discriminate|].
        split; [reflexivity|]. left. repeat split.
        intros c' H. injection H as <-. exact Ht.
      * exists r, w'. split; [exact Hbody|]. split; [exact Hnd|].
        split; [exact Hclock|]. right. auto.
    + exists (Raise e), w. split; [reflexivity|]. split; [discriminate|].
      split; [reflexivity|]. left. repeat split. discriminate.
    + exfalso. exact (stored_entry_no_diverge _ _ Hs).
  - unfold bind at 1, ret at 1. cbn [andb].
    exists r, w'. split; [exact Hbody|]. split; [exact Hnd|].
    split; [exact Hclock|]. right. auto.
Qed.




(** X7. An analysis raises in two cases only: the read of its cache slot
    raises, or the client raises [JSONDecodeError], for which the handler
    uses the response that was never bound. Every other failure is
    returned as a payload. *)
Theorem analysis_raises_in_two_cases an paper (use_cache : bool) w e w' :
  LLMAnalyzer.analyze_paper an paper use_cache w = (Raise e, w') ->
  (use_cache = true
   /\ stored_entry (files w) (comprehensive_slot an paper) = Raise e)
  \/ (exn_class_of e = UnboundLocalError
      /\ exists e', llm_respond (calls w) (comprehensive_request an paper)
                    = inr e'
                    /\ is_JSONDecodeError e' = true).
Proof.
  intros Hrun. unfold LLMAnalyzer.analyze_paper in Hrun.
  match type of Hrun with LLMAnalyzer.analyze_with ?a ?b ?c ?d ?e ?f ?g ?h ?i = _ =>
    destruct (analyze_with_effect a b c d e f g h i)
      as (r & w0 & Hr & _ & _ & [(Hu & _ & Hs & _) | (_ & _ & Hraise)]) end;
    rewrite Hr in Hrun; injection Hrun as -> ->.
  - left. split; [exact Hu|]. symmetry. exact Hs.
  - right. apply Hraise. reflexivity.
Qed.

(** X8. Without the cache an analysis neither reads nor writes a file,
    whatever the slot of the paper holds, and sends its request each
    time. *)
Theorem analysis_without_cache an paper w :
  let run := LLMAnalyzer.analyze_paper an paper false w in
  files (snd run) = files w
  /\ calls (snd run) = comprehensive_request an paper :: calls w
  /\ fst run <> Diverge.
Proof.
  intros run. subst run. unfold LLMAnalyzer.analyze_paper.
  match goal with |- context [LLMAnalyzer.analyze_with ?a ?b ?c ?d ?e ?f ?g ?h ?i] =>
    destruct (analyze_with_effect a b c d e f g h i)
      as (r & w' & -> & Hnd & _ & [(Hu & _) | (Hc & Hf & _)]) end;
    [discriminate|].
  split; [|split; [exact Hc|exact Hnd]].
  destruct Hf as [Hf | (Hu & _)]; [exact Hf|discriminate].
Qed.

Lemma analyze_with_on_miss an ty sys prompt temp perr paper w c :
  stored_entry (files w)
    (LLMAnalyzer._get_cache_path an (LLMAnalyzer.paper_id_of paper) ty) = Ok c ->
  py_truthy c = false ->
  forall content,
  llm_respond (calls w) (chat_request an sys prompt temp 2000) = content ->
  LLMAnalyzer.analyze_with an ty sys prompt temp perr paper true w
  = match content with
    | inl (Some text) =>
        match json_loads (strip_code_fence text) with
        | inl (PDict d) =>
            let a := PDict (dict_set
                              (dict_set d "paper_id"
                                 (LLMAnalyzer.paper_id_of paper))
                              "analyzed_at" (PStr (strftime (clock w)))) in
            let w1 := log_call (chat_request an sys prompt temp 2000) w in
            if writable w (LLMAnalyzer._get_cache_path an
                             (LLMAnalyzer.paper_id_of paper) ty)
            then (Ok a,
                  set_files
                    (<[LLMAnalyzer._get_cache_path an
                         (LLMAnalyzer.paper_id_of paper) ty
                       := File (json_dumps a) (clock w)]> (files w)) w1)
            else (Ok (PDict [("error",
                              PStr (open_error w
                                      (LLMAnalyzer._get_cache_path an
                                         (LLMAnalyzer.paper_id_of paper)
                                         ty)))]), w1)
        | inl (PList _) =>
            (Ok (PDict [("error",
                         PStr "list indices must be integers or slices, not str")]),
             log_call (chat_request an sys prompt temp 2000) w)
        | inl v =>
            (Ok (PDict [("error",
                         PStr ("'" +:+ type_name v
                               +:+ "' object does not support item assignment"))]),
             log_call (chat_request an sys prompt temp 2000) w)
        | inr e =>
            (Ok (if is_JSONDecodeError e
                 then PDict [("error", PStr perr);
                             ("raw_response", PStr (strip_code_fence text))]
                 else PDict [("error", PStr (exn_str e))]),
             log_call (chat_request an sys prompt temp 2000) w)
        end
    | inl None =>
        (Ok (PDict [("error",
                     PStr "'NoneType' object has no attribute 'strip'")]),
         log_call (chat_request an sys prompt temp 2000) w)
    | inr e =>
        (if is_JSONDecodeError e
         then Raise (Exn UnboundLocalError
                         "cannot access local variable 'response'")
         else Ok (PDict [("error", PStr (exn_str e))]),
         log_call (chat_request an sys prompt temp 2000) w)
    end.
Proof.
  intros Hs Ht content Hllm. unfold LLMAnalyzer.analyze_with, bind at 1.
  rewrite analyzer_load_stored, Hs. cbn [andb]. rewrite Ht.
  unfold try_except, bind, LLMAnalyzer._call_openai.
  unfold chat_request in Hllm |- *. rewrite Hllm.
  destruct content as [[text|]|e].
  - cbn [ret]. cbv beta iota. unfold json_loads_str.
    destruct (json_loads (strip_code_fence text)) as [v|e].
    + destruct v as [| | | |l|d|t]; try reflexivity.
      cbn [LLMAnalyzer.setitem ret datetime_now]. cbv beta iota zeta.
      unfold LLMAnalyzer._save_to_cache, json_dump, write_text.
      cbn [writable open_error log_call clock files].
      destruct (writable w _); reflexivity.
    + destruct (is_JSONDecodeError e) eqn:He; [reflexivity|].
      cbn [is_Exception]. rewrite He. reflexivity.
  - reflexivity.
  - cbn [is_Exception]. destruct (is_JSONDecodeError e); reflexivity.
Qed.

(** X9. The path of a successful analysis: on an empty slot, an answer
    that is a JSON object, in a code fence or not, is returned with the
    paper's identifier and the time of the clock put under ['paper_id']
    and ['analyzed_at'], replacing what the model gave for these keys,
    and is written to the slot after one request. *)
Theorem analysis_stamps_and_stores an paper w c text d :
  stored_entry (files w) (comprehensive_slot an paper) = Ok c ->
  py_truthy c = false ->
  llm_respond (calls w) (comprehensive_request an paper) = inl (Some text) ->
  json_loads (strip_code_fence text) = inl (PDict d) ->
  writable w (comprehensive_slot an paper) = true ->
  LLMAnalyzer.analyze_paper an paper true w
  = (Ok (stamped d paper (clock w)),
     set_files (<[comprehensive_slot an paper
                  := File (json_dumps (stamped d paper (clock w))) (clock w)]>
                  (files w))
       (log_call (comprehensive_request an paper) w))
  /\ (forall default,
        match stamped d paper (clock w) with
        | PDict a =>
            dict_get a "paper_id" default = LLMAnalyzer.paper_id_of paper
            /\ dict_get a "analyzed_at" default = PStr (strftime (clock w))
        | _ => False
        end).
Proof.
  intros Hs Ht Hllm Hjson Hwr. split.
  - unfold LLMAnalyzer.analyze_paper.
    rewrite (analyze_with_on_miss _ _ _ _ _ _ _ _ _ Hs Ht _ Hllm).
    rewrite Hjson. cbv zeta. unfold comprehensive_slot in Hwr.
    rewrite Hwr. reflexivity.
  - intros default. unfold stamped. split.
    + rewrite dict_get_set_ne by discriminate. apply dict_get_set_eq.
    + apply dict_get_set_eq.
Qed.

(** X10. An answer that is not JSON is kept, not lost: the analysis
    returns a payload with the error message of the function and the
    answer, stripped of its fence, under ['raw_response']; the files stay
    as they were. *)
Theorem unparsable_answer_is_returned an paper w c c' text text' e e' :
  stored_entry (files w) (comprehensive_slot an paper) = Ok c ->
  py_truthy c = false ->
  stored_entry (files w) (mirofish_slot an paper) = Ok c' ->
  py_truthy c' = false ->
  llm_respond (calls w) (comprehensive_request an paper) = inl (Some text) ->
  llm_respond (calls w) (mirofish_request an paper) = inl (Some text') ->
  json_loads (strip_code_fence text) = inr e ->
  json_loads (strip_code_fence text') = inr e' ->
  is_JSONDecodeError e = true -> is_JSONDecodeError e' = true ->
  LLMAnalyzer.analyze_paper an paper true w
  = (Ok (PDict [("error", PStr "Failed to parse analysis");
                ("raw_response", PStr (strip_code_fence text))]),
     log_call (comprehensive_request an paper) w)
  /\ LLMAnalyzer.extract_mirofish_integration_points an paper true w
     = (Ok (PDict [("error", PStr "Failed to parse integration points");
                   ("raw_response", PStr (strip_code_fence text'))]),
        log_call (mirofish_request an paper) w).
Proof.
  intros Hs Ht Hs' Ht' Hllm Hllm' Hjson Hjson' He He'. split.
  - unfold LLMAnalyzer.analyze_paper.
    rewrite (analyze_with_on_miss _ _ _ _ _ _ _ _ _ Hs Ht _ Hllm).
    rewrite Hjson, He. reflexivity.
  - unfold LLMAnalyzer.extract_mirofish_integration_points.
    rewrite (analyze_with_on_miss _ _ _ _ _ _ _ _ _ Hs' Ht' _ Hllm').
    rewrite Hjson', He'. reflexivity.
Qed.

(** X11. The write of the slot is inside the [try]: when the slot cannot
    be opened for writing, the answer of the model, although parsed, is
    dropped: the analysis returns a payload with the message of the
    [OSError] that the write raised, and leaves the files as they
    were. *)
Theorem unwritable_slot_loses_the_answer an paper w c text d :
  stored_entry (files w) (comprehensive_slot an paper) = Ok c ->
  py_truthy c = false ->
  llm_respond (calls w) (comprehensive_request an paper) = inl (Some text) ->
  json_loads (strip_code_fence text) = inl (PDict d) ->
  writable w (comprehensive_slot an paper) = false ->
  exists e,
    LLMAnalyzer._save_to_cache an (LLMAnalyzer.paper_id_of paper)
      "comprehensive" (stamped d paper (clock w))
      (log_call (comprehensive_request an paper) w)
    = (Raise e, log_call (comprehensive_request an paper) w)
    /\ exn_class_of e = OSError
    /\ LLMAnalyzer.analyze_paper an paper true w
       = (Ok (PDict [("error", PStr (exn_str e))]),
          log_call (comprehensive_request an paper) w).
Proof.
  intros Hs Ht Hllm Hjson Hwr.
  exists (Exn OSError (open_error w (comprehensive_slot an paper))).
  split; [|split; [reflexivity|]].
  - unfold LLMAnalyzer._save_to_cache, json_dump, write_text.
    unfold comprehensive_slot in Hwr |- *.
    cbn [writable open_error log_call]. rewrite Hwr. reflexivity.
  - unfold LLMAnalyzer.analyze_paper.
    rewrite (analyze_with_on_miss _ _ _ _ _ _ _ _ _ Hs Ht _ Hllm).
    rewrite Hjson. cbv zeta. unfold comprehensive_slot in Hwr.
    rewrite Hwr. reflexivity.
Qed.

(** X12. On an empty slot, what an analysis returns is either the stamped
    answer, which is then in the slot, or a payload with an ['error']
    key, and then the files are as they were: a transport error, an
    empty answer, an answer that is not JSON or not a JSON object. *)
Theorem analysis_is_stored_or_error_shaped an paper w c a w' :
  stored_entry (files w) (comprehensive_slot an paper) = Ok c ->
  py_truthy c = false ->
  LLMAnalyzer.analyze_paper an paper true w = (Ok a, w') ->
  (exists d, a = stamped d paper (clock w)
             /\ files w' !! comprehensive_slot an paper
                = Some (File (json_dumps a) (clock w)))
  \/ (error_shaped a = true /\ files w' = files w).
Proof.
  intros Hs Ht Hrun. unfold LLMAnalyzer.analyze_paper in Hrun.
  rewrite (analyze_with_on_miss _ _ _ _ _ _ _ _ _ Hs Ht _ eq_refl) in Hrun.
  destruct (llm_respond _ _) as [[text|]|e].
  - destruct (json_loads (strip_code_fence text)) as [v|e].
    + destruct v as [| | | |l|d|t];
        try (injection Hrun as <- <-; right; split; reflexivity).
      cbv zeta in Hrun. destruct (writable w _).
      * injection Hrun as <- <-. left. exists d. split; [reflexivity|].
        cbn [files set_files]. apply lookup_insert_eq.
      * injection Hrun as <- <-. right. split; reflexivity.
    + injection Hrun as <- <-. right.
      destruct (is_JSONDecodeError e); split; reflexivity.
  - injection Hrun as <- <-. right. split; reflexivity.
  - destruct (is_JSONDecodeError e); [discriminate|].
    injection Hrun as <- <-. right. split; reflexivity.
Qed.

Lemma analyze_one_calls an ty paper w :
  exists new,
    calls (snd (analyze_one an ty paper w)) = (new ++ calls w)%list
    /\ (length new <= 1)%nat.
Proof.
  unfold analyze_one, LLMAnalyzer.extract_mirofish_integration_points,
    LLMAnalyzer.analyze_paper.
  destruct (String.eqb ty "mirofish");
    match goal with |- context [LLMAnalyzer.analyze_with ?a ?b ?c ?d ?e ?f ?g ?h ?i] =>
      destruct (analyze_with_effect a b c d e f g h i)
        as (r & w' & -> & _ & _ & [(_ & -> & _) | (Hc & _)]) end;
    first [ exists []; split; [reflexivity|simpl; lia]
          | eexists [_]; split; [exact Hc|simpl; lia] ].
Qed.

Lemma attempt_world {A} (body : M A) w : snd (attempt body w) = snd (body w).
Proof.
  unfold attempt, try_except, bind, ret.
  destruct (body w) as [[a|e|] w0]; reflexivity.
Qed.

Lemma batch_loop_calls an ty delay total papers :
  forall i acc w,
  exists new,
    calls (snd (LLMAnalyzer.batch_loop an ty delay total i papers acc w))
    = (new ++ calls w)%list
    /\ (length new <= length papers)%nat.
Proof.
  induction papers as [|paper rest IH]; intros i acc w.
  - exists []. split; [reflexivity|simpl; lia].
  - cbn [LLMAnalyzer.batch_loop]. fold (analyze_one an ty paper).
    destruct (analyze_one_calls an ty paper w) as (new & Hnew & Hlen).
    rewrite <- attempt_world in Hnew. unfold bind at 1.
    destruct (attempt (analyze_one an ty paper) w) as [[[r|e]|e|] w0];
      cbn [snd] in Hnew.
    + unfold bind at 1.
      assert (Hsleep : calls (snd (attempt (if i <? total
                                            then time_sleep delay
                                            else ret tt) w0)) = calls w0).
      { rewrite attempt_world. unfold time_sleep, ret.
        destruct (i <? total); [|reflexivity].
        destruct (sleep_error delay); reflexivity. }
      destruct (attempt _ w0) as [[[u|e]|e|] w1]; cbn [snd] in Hsleep.
      * destruct (IH (i + 1) (acc ++ [r])%list w1) as (new' & Hn' & Hl').
        exists (new' ++ new)%list. rewrite Hn', Hsleep, Hnew, app_assoc.
        split; [reflexivity|]. rewrite length_app. simpl. lia.
      * destruct (IH (i + 1)
                    ((acc ++ [r]) ++ [LLMAnalyzer.error_entry paper e])%list w1)
          as (new' & Hn' & Hl').
        exists (new' ++ new)%list. rewrite Hn', Hsleep, Hnew, app_assoc.
        split; [reflexivity|]. rewrite length_app. simpl. lia.
      * exists new. cbn [snd]. rewrite Hsleep, Hnew.
        split; [reflexivity|]. simpl. lia.
      * exists new. cbn [snd]. rewrite Hsleep, Hnew.
        split; [reflexivity|]. simpl. lia.
    + destruct (IH (i + 1) (acc ++ [LLMAnalyzer.error_entry paper e])%list w0)
        as (new' & Hn' & Hl').
      exists (new' ++ new)%list. rewrite Hn', Hnew, app_assoc.
      split; [reflexivity|]. rewrite length_app. simpl. lia.
    + exists new. cbn [snd]. rewrite Hnew. split; [reflexivity|]. simpl. lia.
    + exists new. cbn [snd]. rewrite Hnew. split; [reflexivity|]. simpl. lia.
Qed.

(** X13. A batch sends at most one request to the language model per
    paper, whatever the delay and however the analyses end. *)
Theorem batch_sends_one_request_per_paper an papers ty delay w :
  exists new,
    calls (snd (LLMAnalyzer.batch_analyze an papers ty delay w))
    = (new ++ calls w)%list
    /\ (length new <= length papers)%nat.
Proof.
  destruct (batch_loop_calls an ty delay (Z.of_nat (length papers)) papers
              1 [] w) as (new & Hnew & Hlen).
  exists new. split; [|exact Hlen].
  unfold LLMAnalyzer.batch_analyze, bind.
  destruct (LLMAnalyzer.batch_loop _ _ _ _ _ _ _ w) as [[l|e|] w0];
    exact Hnew.
Qed.

End OneAnalysis.

(* ===================================================================== *)
(** ** Slots that do not meet *)
(* ===================================================================== *)

Section SeparateSlots.
Context {rt : Runtime}.
Implicit Types (an : LLMAnalyzer.t) (cs : PaperCollector.t) (w : World).

Lemma length_append (s t : string) :
  String.length (s +:+ t) = (String.length s + String.length t)%nat.
Proof.
  induction s as [|c r IH]; [reflexivity|].
  rewrite append_cons. simpl. rewrite IH. reflexivity.
Qed.

Lemma append_cancel_r (s1 s2 t : string) : s1 +:+ t = s2 +:+ t -> s1 = s2.
Proof.
  revert s2. induction s1 as [|c1 r1 IH]; intros [|c2 r2] H.
  - reflexivity.
  - apply (f_equal String.length) in H.
    rewrite !length_append in H. simpl in H. lia.
  - apply (f_equal String.length) in H.
    rewrite !length_append in H. simpl in H. lia.
  - rewrite !append_cons in H. injection H as -> H. f_equal. apply IH, H.
Qed.

Lemma prefix_empty (s : string) : String.prefix EmptyString s = true.
Proof. destruct s; reflexivity. Qed.

Lemma prefix_slash_append (s t : string) :
  s <> EmptyString ->
  String.prefix "/" (s +:+ t) = String.prefix "/" s.
Proof.
  destruct s as [|c r]; [congruence|]. intros _. rewrite append_cons.
  cbn [String.prefix]. rewrite !prefix_empty. reflexivity.
Qed.

Lemma path_join_suffix dir stem (a b : string) :
  a <> b ->
  a <> EmptyString -> b <> EmptyString ->
  String.prefix "/" a = false -> String.prefix "/" b = false ->
  path_join dir (stem +:+ a) <> path_join dir (stem +:+ b).
Proof.
  intros Hab Ha Hb Hpa Hpb. unfold path_join.
  assert (Hp : String.prefix "/" (stem +:+ a) = String.prefix "/" (stem +:+ b)).
  { destruct stem as [|c r].
    - change (EmptyString +:+ a) with a. change (EmptyString +:+ b) with b.
      congruence.
    - rewrite !prefix_slash_append by discriminate. reflexivity. }
  rewrite Hp. destruct (String.prefix "/" (stem +:+ b)); intros Heq.
  - apply String.app_inj in Heq. congruence.
  - apply String.app_inj, String.app_inj, String.app_inj in Heq. congruence.
Qed.

Lemma analyzer_slots_differ an id :
  LLMAnalyzer._get_cache_path an id "comprehensive"
  <> LLMAnalyzer._get_cache_path an id "mirofish".
Proof.
  unfold LLMAnalyzer._get_cache_path.
  apply path_join_suffix; try discriminate; reflexivity.
Qed.

(** X14. The two kinds of analysis of a paper never share a slot:
    whatever [analyze_paper] does, the entry that
    [extract_mirofish_integration_points] reads for the same paper is the
    one that was there, and the other way round. *)
Theorem analyses_keep_separate_slots an paper (use_cache : bool) w :
  stored_entry
    (files (snd (LLMAnalyzer.analyze_paper an paper use_cache w)))
    (mirofish_slot an paper)
  = stored_entry (files w) (mirofish_slot an paper)
  /\ stored_entry
       (files (snd (LLMAnalyzer.extract_mirofish_integration_points an paper
                      use_cache w)))
       (comprehensive_slot an paper)
     = stored_entry (files w) (comprehensive_slot an paper).
Proof.
  unfold LLMAnalyzer.analyze_paper,
    LLMAnalyzer.extract_mirofish_integration_points, stored_entry,
    mirofish_slot, comprehensive_slot.
  split.
  - match goal with |- context [LLMAnalyzer.analyze_with ?a ?b ?c ?d ?e ?f ?g ?h ?i] =>
      destruct (analyze_with_effect a b c d e f g h i)
        as (r & w' & -> & _ & _ & [(_ & -> & _) | (_ & Hf & _)]) end;
      cbn [snd]; [reflexivity|].
    destruct Hf as [-> | (_ & d & _ & -> & _)]; [reflexivity|].
    rewrite lookup_insert_ne by apply analyzer_slots_differ. reflexivity.
  - match goal with |- context [LLMAnalyzer.analyze_with ?a ?b ?c ?d ?e ?f ?g ?h ?i] =>
      destruct (analyze_with_effect a b c d e f g h i)
        as (r & w' & -> & _ & _ & [(_ & -> & _) | (_ & Hf & _)]) end;
      cbn [snd]; [reflexivity|].
    destruct Hf as [-> | (_ & d & _ & -> & _)]; [reflexivity|].
    rewrite lookup_insert_ne by apply not_eq_sym, analyzer_slots_differ.
    reflexivity.
Qed.

Lemma hex_digit_not_slash b :
  String.prefix "/" (MD5.hex_byte (Z.land b 0xFF)) = false.
Proof.
  unfold MD5.hex_byte.
  change 0xFF with (Z.ones 8). rewrite Z.land_ones by lia.
  rewrite Z.shiftr_div_pow2 by lia.
  assert (Hn : 0 <= b mod 2 ^ 8 / 2 ^ 4 < 16).
  { pose proof (Z.mod_pos_bound b (2 ^ 8) ltac:(lia)) as Hm.
    split; [apply Z.div_pos; lia|].
    apply Z.div_lt_upper_bound; lia. }
  set (n := b mod 2 ^ 8 / 2 ^ 4) in *.
  clearbody n.
  assert (Hdigit : (Z.to_nat n < 16)%nat) by lia.
  replace n with (Z.of_nat (Z.to_nat n)) by lia.
  revert Hdigit. generalize (Z.to_nat n). clear. intros k Hdigit.
  do 16 (destruct k as [|k]; [reflexivity|]). lia.
Qed.

Lemma hexdigest_not_absolute data :
  String.prefix "/" (MD5.hexdigest data) = false
  /\ MD5.hexdigest data <> EmptyString.
Proof.
  split.
  - unfold MD5.hexdigest, MD5.digest.
    destruct (fold_left MD5.process _ MD5.init) as [[[a b] c] d].
    cbn [MD5.le_bytes app MD5.hex].
    rewrite prefix_slash_append.
    + apply hex_digit_not_slash.
    + unfold MD5.hex_byte, MD5.hex_digit. discriminate.
  - intros H. apply (f_equal String.length) in H.
    rewrite hexdigest_length in H. discriminate.
Qed.

Lemma cache_file_injective cs q1 s1 q2 s2 :
  PaperCollector.cache_file cs (PaperCollector._get_cache_key cs q1 s1)
  = PaperCollector.cache_file cs (PaperCollector._get_cache_key cs q2 s2) ->
  PaperCollector._get_cache_key cs q1 s1
  = PaperCollector._get_cache_key cs q2 s2.
Proof.
  unfold PaperCollector.cache_file, PaperCollector._get_cache_key, path_join.
  destruct (hexdigest_not_absolute (PaperCollector.key_string q1 s1))
    as [Hp1 Hn1].
  destruct (hexdigest_not_absolute (PaperCollector.key_string q2 s2))
    as [Hp2 Hn2].
  rewrite !prefix_slash_append, Hp1, Hp2 by assumption.
  intros H. apply String.app_inj, String.app_inj in H.
  apply append_cancel_r in H. exact H.
Qed.

(** X15. Two logical keys with different fingerprints have different
    files under the cache directory: a write under one changes nothing
    to what a read under the other returns. *)
Theorem fingerprints_do_not_interfere cs q1 s1 q2 s2 p h w :
  PaperCollector._get_cache_key cs q1 s1
  <> PaperCollector._get_cache_key cs q2 s2 ->
  PaperCollector.cache_file cs (PaperCollector._get_cache_key cs q1 s1)
  <> PaperCollector.cache_file cs (PaperCollector._get_cache_key cs q2 s2)
  /\ fst (PaperCollector._load_from_cache cs
            (PaperCollector._get_cache_key cs q2 s2) h
            (snd (PaperCollector._save_to_cache cs
                    (PaperCollector._get_cache_key cs q1 s1) p w)))
     = fst (PaperCollector._load_from_cache cs
              (PaperCollector._get_cache_key cs q2 s2) h w).
Proof.
  intros Hne.
  assert (Hpath :
    PaperCollector.cache_file cs (PaperCollector._get_cache_key cs q1 s1)
    <> PaperCollector.cache_file cs (PaperCollector._get_cache_key cs q2 s2)).
  { intros H. apply Hne, cache_file_injective, H. }
  split; [exact Hpath|].
  set (k1 := PaperCollector._get_cache_key cs q1 s1) in *.
  set (k2 := PaperCollector._get_cache_key cs q2 s2) in *.
  assert (Hlook : files (snd (PaperCollector._save_to_cache cs k1 p w))
                    !! PaperCollector.cache_file cs k2
                  = files w !! PaperCollector.cache_file cs k2
                  /\ clock (snd (PaperCollector._save_to_cache cs k1 p w))
                     = clock w).
  { unfold PaperCollector._save_to_cache, json_dump, write_text.
    destruct (writable w _); [|split; reflexivity].
    cbn [snd files set_files clock]. split; [|reflexivity].
    apply lookup_insert_ne. exact Hpath. }
  destruct Hlook as [Hlook Hclock].
  destruct (files w !! PaperCollector.cache_file cs k2) as [f|] eqn:Hf.
  - rewrite (collector_load_present _ _ _ _ _ Hlook).
    rewrite (collector_load_present _ _ _ _ _ Hf). rewrite Hclock.
    reflexivity.
  - rewrite (collector_load_absent _ _ _ _ Hlook).
    rewrite (collector_load_absent _ _ _ _ Hf). reflexivity.
Qed.

End SeparateSlots.

(* ===================================================================== *)
(** ** The details of a paper *)
(* ===================================================================== *)

Section Details.
Context {rt : Runtime}.

Lemma load_24 cs key w :
  exists c, PaperCollector._load_from_cache cs key 24 w = (c, w)
    /\ c <> Diverge
    /\ c = match files w !! PaperCollector.cache_file cs key with
           | None => Ok PNone
           | Some f =>
               if clock w - f_mtime f >? 24 * usec_per_hour then Ok PNone
               else decode_entry (f_data f)
           end.
Proof.
  destruct (files w !! PaperCollector.cache_file cs key) as [f|] eqn:Hf.
  - rewrite (collector_load_present _ _ _ _ _ Hf).
    change (hours_ok 24) with true. cbv iota. eexists.
    split; [reflexivity|]. split; [|reflexivity].
    destruct (_ >? _); [discriminate|apply decode_entry_no_diverge].
  - rewrite (collector_load_absent _ _ _ _ Hf). eexists.
    split; [reflexivity|]. split; [discriminate|reflexivity].
Qed.

Lemma details_on_miss cs paper_id w :
  PaperCollector._load_from_cache cs
    (PaperCollectorMore.details_key cs paper_id "semantic_scholar") 24 w
  = (Ok PNone, w) ->
  PaperCollectorMore.get_paper_details cs paper_id "semantic_scholar" w
  = match http_respond (calls w) (details_request cs paper_id) with
    | inl p =>
        if writable w (details_slot cs paper_id "semantic_scholar")
        then (Ok p,
              set_files
                (<[details_slot cs paper_id "semantic_scholar"
                   := File (json_dumps p) (clock w)]> (files w))
                (log_call (details_request cs paper_id) w))
        else (Raise (Exn OSError
                       (open_error w
                          (details_slot cs paper_id "semantic_scholar"))),
              log_call (details_request cs paper_id) w)
    | inr e =>
        if is_RequestException e
        then (Ok PNone, log_call (details_request cs paper_id) w)
        else (Raise e, log_call (details_request cs paper_id) w)
    end.
Proof.
  intros Hmiss. unfold PaperCollectorMore.get_paper_details.
  rewrite (bind_run _ _ _ _ _ Hmiss). cbn [is_not_None].
  change (String.eqb "semantic_scholar" "semantic_scholar") with true.
  cbv iota. unfold try_except, bind at 1, PaperCollectorMore.session_get.
  fold (details_request cs paper_id).
  destruct (http_respond (calls w) (details_request cs paper_id)) as [p|e].
  - unfold bind, PaperCollector._save_to_cache, json_dump, write_text.
    fold (details_slot cs paper_id "semantic_scholar").
    cbn [writable open_error log_call].
    destruct (writable w (details_slot cs paper_id "semantic_scholar"));
      reflexivity.
  - destruct (is_RequestException e); reflexivity.
Qed.


Lemma details_effect cs paper_id source w :
  exists r w', PaperCollectorMore.get_paper_details cs paper_id source w
               = (r, w')
    /\ r <> Diverge /\ clock w' = clock w /\ writable w' = writable w
    /\ ((calls w' = calls w /\ files w' = files w)
        \/ (source = "semantic_scholar"
            /\ calls w' = details_request cs paper_id :: calls w
            /\ (files w' = files w
                \/ exists p,
                     r = Ok p
                     /\ http_respond (calls w) (details_request cs paper_id)
                        = inl p
                     /\ files w'
                        = <[details_slot cs paper_id source
                            := File (json_dumps p) (clock w)]> (files w)))).
Proof.
  destruct (load_24 cs (PaperCollectorMore.details_key cs paper_id source) w)
    as (c & Hload & Hnd & _).
  assert (Hquiet : forall r, r <> Diverge ->
            exists r0 w0, (r, w) = (r0, w0) /\ r0 <> Diverge
              /\ clock w0 = clock w /\ writable w0 = writable w
              /\ ((calls w0 = calls w /\ files w0 = files w)
                  \/ (source = "semantic_scholar"
            /\ calls w0 = details_request cs paper_id :: calls w
            /\ (files w0 = files w
                \/ exists p,
                     r0 = Ok p
                     /\ http_respond (calls w) (details_request cs paper_id)
                        = inl p
                     /\ files w0
                        = <[details_slot cs paper_id source
                            := File (json_dumps p) (clock w)]> (files w))))).
  { intros r Hr. exists r, w. repeat split; auto. }
  destruct c as [c|e|]; [| |congruence].
  - destruct (is_not_None c) eqn:Hc.
    + unfold PaperCollectorMore.get_paper_details.
      rewrite (bind_run _ _ _ _ _ Hload), Hc. apply Hquiet. discriminate.
    + assert (c = PNone) as -> by (destruct c; try discriminate; reflexivity).
      destruct (String.eqb source "semantic_scholar") eqn:Hs.
      * apply String.eqb_eq in Hs. subst source.
        rewrite (details_on_miss _ _ _ Hload).
        destruct (http_respond _ _) as [p|e].
        -- destruct (writable w _) eqn:Hw.
           ++ eexists _, _. split; [reflexivity|].
              split; [discriminate|]. repeat split.
              right. repeat split. right. exists p. repeat split.
           ++ eexists _, _. split; [reflexivity|].
              split; [discriminate|]. repeat split.
              right. repeat split. left. reflexivity.
        -- destruct (is_RequestException e);
             (eexists _, _; split; [reflexivity|];
              split; [discriminate|]; repeat split;
              right; repeat split; left; reflexivity).
      * unfold PaperCollectorMore.get_paper_details.
        rewrite (bind_run _ _ _ _ _ Hload). cbn [is_not_None]. rewrite Hs.
        apply Hquiet. discriminate.
  - unfold PaperCollectorMore.get_paper_details.
    rewrite (bind_raise _ _ _ _ _ Hload). apply Hquiet. discriminate.
Qed.

(** X16. For a source other than ['semantic_scholar'], ['arxiv']
    included, the details of a paper are never fetched: the call is a
    read of the cache slot and nothing else, and leaves the world as it
    was. *)
Theorem details_of_another_source_are_only_read cs paper_id source w :
  source <> "semantic_scholar" ->
  PaperCollectorMore.get_paper_details cs paper_id source w
  = PaperCollector._load_from_cache cs
      (PaperCollectorMore.details_key cs paper_id source) 24 w
  /\ snd (PaperCollectorMore.get_paper_details cs paper_id source w) = w.
Proof.
  intros Hs.
  destruct (load_24 cs (PaperCollectorMore.details_key cs paper_id source) w)
    as (c & Hload & Hnd & _).
  assert (Hrun : PaperCollectorMore.get_paper_details cs paper_id source w
                 = (c, w)).
  { unfold PaperCollectorMore.get_paper_details.
    destruct c as [c|e|]; [| |congruence].
    - rewrite (bind_run _ _ _ _ _ Hload).
      destruct (is_not_None c) eqn:Hc; [reflexivity|].
      assert (c = PNone) as -> by (destruct c; try discriminate; reflexivity).
      destruct (String.eqb source "semantic_scholar") eqn:He; [|reflexivity].
      apply String.eqb_eq in He. contradiction.
    - apply (bind_raise _ _ _ _ _ Hload). }
  rewrite Hrun, Hload. split; reflexivity.
Qed.

(** X17. The details of a paper cost at most one request, and the only
    file that the call writes is the slot of the paper, with the paper
    that the service answered and that the call returns: a failure is
    never stored. *)
Theorem details_store_only_a_fetched_paper cs paper_id source w :
  let run := PaperCollectorMore.get_paper_details cs paper_id source w in
  fst run <> Diverge
  /\ (calls (snd run) = calls w
      \/ calls (snd run) = details_request cs paper_id :: calls w)
  /\ (files (snd run) = files w
      \/ exists p,
           fst run = Ok p
           /\ http_respond (calls w) (details_request cs paper_id) = inl p
           /\ files (snd run)
              = <[details_slot cs paper_id source
                  := File (json_dumps p) (clock w)]> (files w)).
Proof.
  cbv zeta.
  destruct (details_effect cs paper_id source w)
    as (r & w' & -> & Hnd & _ & _ & [[Hc Hf] | (_ & Hc & Hf)]);
    cbn [fst snd].
  - split; [exact Hnd|]. split; left; assumption.
  - split; [exact Hnd|]. split; [right; exact Hc|exact Hf].
Qed.

(** X18. A paper is fetched once: after a fetch on an empty or stale
    slot, any call within 24 hours of the fetch that finds the slot as the
    fetch left it returns the same paper without a request. *)
Theorem details_are_fetched_once cs paper_id w p w2 :
  PaperCollector._load_from_cache cs
    (PaperCollectorMore.details_key cs paper_id "semantic_scholar") 24 w
  = (Ok PNone, w) ->
  http_respond (calls w) (details_request cs paper_id) = inl p ->
  writable w (details_slot cs paper_id "semantic_scholar") = true ->
  json_roundtrips p ->
  p <> PNone ->
  files w2 !! details_slot cs paper_id "semantic_scholar"
  = files (snd (PaperCollectorMore.get_paper_details cs paper_id
                  "semantic_scholar" w))
    !! details_slot cs paper_id "semantic_scholar" ->
  clock w2 - clock w <= 24 * usec_per_hour ->
  fst (PaperCollectorMore.get_paper_details cs paper_id "semantic_scholar" w)
  = Ok p
  /\ PaperCollectorMore.get_paper_details cs paper_id "semantic_scholar" w2
     = (Ok p, w2).
Proof.
  intros Hmiss Hhttp Hwr Hrt Hp Hfiles Hclock.
  rewrite (details_on_miss _ _ _ Hmiss), Hhttp, Hwr in Hfiles |- *.
  split; [reflexivity|].
  cbn [snd files set_files] in Hfiles. rewrite lookup_insert_eq in Hfiles.
  unfold PaperCollectorMore.get_paper_details.
  erewrite bind_run.
  2:{ unfold details_slot in Hfiles.
      rewrite (collector_load_present _ _ _ _ _ Hfiles).
      change (hours_ok 24) with true. cbv iota. cbn [f_mtime f_data].
      replace (clock w2 - clock w >? 24 * usec_per_hour) with false
        by (symmetry; rewrite Z.gtb_ltb; apply Z.ltb_ge; lia).
      rewrite (decode_roundtrip _ Hrt). reflexivity. }
  destruct p; try reflexivity. contradiction.
Qed.

(** X19. A failed fetch is not remembered: when the service fails in
    transport the call returns [None] and stores nothing, and the next
    call sends the request again. *)
Theorem failed_fetch_is_retried cs paper_id w e :
  PaperCollector._load_from_cache cs
    (PaperCollectorMore.details_key cs paper_id "semantic_scholar") 24 w
  = (Ok PNone, w) ->
  http_respond (calls w) (details_request cs paper_id) = inr e ->
  is_RequestException e = true ->
  let run :=
    PaperCollectorMore.get_paper_details cs paper_id "semantic_scholar" w in
  run = (Ok PNone, log_call (details_request cs paper_id) w)
  /\ calls (snd (PaperCollectorMore.get_paper_details cs paper_id
                   "semantic_scholar" (snd run)))
     = details_request cs paper_id :: details_request cs paper_id :: calls w.
Proof.
  intros Hmiss Hhttp He. cbv zeta.
  rewrite (details_on_miss _ _ _ Hmiss), Hhttp, He.
  split; [reflexivity|]. cbn [snd].
  assert (Hmiss' : PaperCollector._load_from_cache cs
            (PaperCollectorMore.details_key cs paper_id "semantic_scholar") 24
            (log_call (details_request cs paper_id) w)
          = (Ok PNone, log_call (details_request cs paper_id) w)).
  { destruct (load_24 cs
                (PaperCollectorMore.details_key cs paper_id "semantic_scholar")
                w) as (c & Hl & _ & Hc).
    destruct (load_24 cs
                (PaperCollectorMore.details_key cs paper_id "semantic_scholar")
                (log_call (details_request cs paper_id) w))
      as (c' & Hl' & _ & Hc').
    cbn [files clock log_call] in Hc'. rewrite <- Hc in Hc'.
    rewrite Hl', Hc'. rewrite Hmiss in Hl. congruence. }
  rewrite (details_on_miss _ _ _ Hmiss').
  destruct (http_respond (calls (log_call _ _)) _) as [p|e'].
  - destruct (writable (log_call _ _) _); reflexivity.
  - destruct (is_RequestException e'); reflexivity.
Qed.

(** X20. Only a transport error is caught: when the slot cannot be
    written, the paper that was fetched is lost and the call raises the
    error of the write. *)
Theorem details_raise_when_the_slot_is_unwritable cs paper_id w p :
  PaperCollector._load_from_cache cs
    (PaperCollectorMore.details_key cs paper_id "semantic_scholar") 24 w
  = (Ok PNone, w) ->
  http_respond (calls w) (details_request cs paper_id) = inl p ->
  writable w (details_slot cs paper_id "semantic_scholar") = false ->
  exists e,
    PaperCollectorMore.get_paper_details cs paper_id "semantic_scholar" w
    = (Raise e, log_call (details_request cs paper_id) w)
    /\ exn_class_of e = OSError.
Proof.
  intros Hmiss Hhttp Hwr.
  rewrite (details_on_miss _ _ _ Hmiss), Hhttp, Hwr.
  eexists. split; reflexivity.
Qed.

End Details.

(* ===================================================================== *)
(** ** The search of arXiv *)
(* ===================================================================== *)

Section Arxiv.
Context {rt : Runtime} {fd : Feeds}.

Lemma bind_ret {A B} (a : A) (k : A -> M B) w :
  (let* x := ret a in k x) w = k a w.
Proof. reflexivity. Qed.

(** A comprehension over a function that only computes: the list of the
    results, or the exception of the first item that raises. *)
Lemma mapM_outcome {A B} (f : A -> M B) (ok : A -> bool) (g : A -> B) l :
  (forall x w, if ok x then f x w = (Ok (g x), w)
               else exists e, f x w = (Raise e, w)) ->
  forall w, if forallb ok l then mapM f l w = (Ok (map g l), w)
            else exists e, mapM f l w = (Raise e, w).
Proof.
  intros Hf w. induction l as [|x l IH]; [reflexivity|].
  cbn [forallb mapM map]. specialize (Hf x w).
  destruct (ok x); cbn [andb].
  - rewrite (bind_run _ _ _ _ _ Hf).
    destruct (forallb ok l).
    + rewrite (bind_run _ _ _ _ _ IH). reflexivity.
    + destruct IH as [e He]. exists e. apply (bind_raise _ _ _ _ _ He).
  - destruct Hf as [e He]. exists e. apply (bind_raise _ _ _ _ _ He).
Qed.

Lemma author_names authors w :
  if forallb (fun author => has_child author "atom:name") authors
  then mapM (fun author =>
               PaperCollectorMore.element_text (find author "atom:name"))
            authors w
       = (Ok (map (fun author => text_of author "atom:name") authors), w)
  else exists e,
         mapM (fun author =>
                 PaperCollectorMore.element_text (find author "atom:name"))
              authors w
         = (Raise e, w).
Proof.
  apply (mapM_outcome _ (fun author => has_child author "atom:name")
           (fun author => text_of author "atom:name")).
  intros a w0. unfold has_child, text_of, PaperCollectorMore.element_text.
  destruct (find a "atom:name"); [reflexivity|eexists; reflexivity].
Qed.

Lemma paper_of_entry_outcome entry w :
  if well_formed_entry entry
  then PaperCollectorMore.paper_of_entry entry w = (Ok (paper_from entry), w)
  else exists e, PaperCollectorMore.paper_of_entry entry w = (Raise e, w).
Proof.
  pose proof (author_names (findall entry "atom:author") w) as Ha.
  unfold well_formed_entry, PaperCollectorMore.paper_of_entry, paper_from,
    has_child, has_text, text_of, PaperCollectorMore.element_text in *.
  destruct (find entry "atom:id") as [i|];
    [|eexists; reflexivity].
  destruct (find entry "atom:title") as [t|];
    [|eexists; reflexivity].
  destruct (xml_text t) as [tt|]; [|eexists; reflexivity].
  destruct (find entry "atom:summary") as [s|];
    [|eexists; reflexivity].
  destruct (xml_text s) as [st|]; [|eexists; reflexivity].
  destruct (find entry "atom:published") as [p|];
    [|eexists; reflexivity].
  destruct (find entry "atom:updated") as [u|];
    [|eexists; reflexivity].
  cbn [andb PaperCollectorMore.text_strip stripped].
  destruct (forallb _ (findall entry "atom:author")).
  - repeat (rewrite bind_ret; cbn [PaperCollectorMore.text_strip]).
    rewrite (bind_run _ _ _ _ _ Ha). reflexivity.
  - destruct Ha as [e He]. exists e.
    repeat (rewrite bind_ret; cbn [PaperCollectorMore.text_strip]).
    apply (bind_raise _ _ _ _ _ He).
Qed.

Lemma papers_of_entries entries w :
  if forallb well_formed_entry entries
  then mapM PaperCollectorMore.paper_of_entry entries w
       = (Ok (map paper_from entries), w)
  else exists e, mapM PaperCollectorMore.paper_of_entry entries w
                 = (Raise e, w).
Proof. apply mapM_outcome. apply paper_of_entry_outcome. Qed.

Lemma arxiv_on_miss cs query max_results w :
  PaperCollector._load_from_cache cs
    (PaperCollectorMore.arxiv_key cs query max_results) 24 w
  = (Ok PNone, w) ->
  PaperCollectorMore.search_arxiv cs query max_results w
  = let c := arxiv_request query max_results in
    match arxiv_respond (calls w) c with
    | inl root =>
        if forallb well_formed_entry (findall root "atom:entry")
           && writable w (arxiv_slot cs query max_results)
        then (Ok (PList (map paper_from (findall root "atom:entry"))),
              set_files
                (<[arxiv_slot cs query max_results
                   := File (json_dumps
                              (PList (map paper_from
                                        (findall root "atom:entry"))))
                           (clock w)]> (files w))
                (log_call c w))
        else (Ok (PList []), log_call c w)
    | inr e => (Ok (PList []), log_call c w)
    end.
Proof.
  intros Hmiss. unfold PaperCollectorMore.search_arxiv.
  rewrite (bind_run _ _ _ _ _ Hmiss). cbn [is_not_None]. cbv zeta.
  unfold try_except, bind at 1, PaperCollectorMore.session_get_xml.
  fold (arxiv_request query max_results).
  destruct (arxiv_respond (calls w) (arxiv_request query max_results))
    as [root|e]; [|reflexivity].
  unfold bind at 1.
  pose proof (papers_of_entries (findall root "atom:entry")
                (log_call (arxiv_request query max_results) w)) as Hp.
  destruct (forallb well_formed_entry (findall root "atom:entry")).
  - rewrite Hp. unfold bind, PaperCollector._save_to_cache, json_dump,
      write_text. fold (arxiv_slot cs query max_results).
    cbn [writable log_call andb].
    destruct (writable w (arxiv_slot cs query max_results)); reflexivity.
  - destruct Hp as [e ->]. reflexivity.
Qed.


(** X21. On an empty or stale slot a search of arXiv never raises: it
    sends one request and returns a list, which is empty with the files
    as they were, or is the list that it has written to its slot. *)
Theorem arxiv_search_returns_what_it_stored cs query max_results w :
  PaperCollector._load_from_cache cs
    (PaperCollectorMore.arxiv_key cs query max_results) 24 w
  = (Ok PNone, w) ->
  let run := PaperCollectorMore.search_arxiv cs query max_results w in
  exists l,
    fst run = Ok (PList l)
    /\ calls (snd run) = arxiv_request query max_results :: calls w
    /\ ((l = [] /\ files (snd run) = files w)
        \/ files (snd run)
           = <[arxiv_slot cs query max_results
               := File (json_dumps (PList l)) (clock w)]> (files w)).
Proof.
  intros Hmiss. cbv zeta. rewrite (arxiv_on_miss _ _ _ _ Hmiss). cbv zeta.
  destruct (arxiv_respond _ _) as [root|e].
  - destruct (_ && _).
    + eexists. split; [reflexivity|]. split; [reflexivity|].
      right. reflexivity.
    + exists []. split; [reflexivity|]. split; [reflexivity|].
      left. split; reflexivity.
  - exists []. split; [reflexivity|]. split; [reflexivity|].
    left. split; reflexivity.
Qed.

(** X22. One entry of the feed that lacks an element which the search
    reads, or the text of its title or summary, costs the whole feed: the
    search returns an empty list and stores nothing, whatever the other
    entries are. *)
Theorem one_malformed_entry_drops_the_feed cs query max_results w root entry :
  PaperCollector._load_from_cache cs
    (PaperCollectorMore.arxiv_key cs query max_results) 24 w
  = (Ok PNone, w) ->
  arxiv_respond (calls w) (arxiv_request query max_results) = inl root ->
  In entry (findall root "atom:entry") ->
  well_formed_entry entry = false ->
  PaperCollectorMore.search_arxiv cs query max_results w
  = (Ok (PList []), log_call (arxiv_request query max_results) w).
Proof.
  intros Hmiss Hfeed Hin Hbad.
  rewrite (arxiv_on_miss _ _ _ _ Hmiss). cbv zeta. rewrite Hfeed.
  replace (forallb well_formed_entry (findall root "atom:entry")) with false;
    [reflexivity|].
  symmetry. apply not_true_is_false. intros Hall.
  rewrite forallb_forall in Hall. rewrite (Hall entry Hin) in Hbad.
  discriminate.
Qed.

(** X23. A feed of well-formed entries gives one paper per entry, in the
    order of the feed, with the title and the summary stripped and the
    identifier also as the URL; the list is written to the slot and
    returned. *)
Theorem well_formed_feed_is_stored cs query max_results w root :
  PaperCollector._load_from_cache cs
    (PaperCollectorMore.arxiv_key cs query max_results) 24 w
  = (Ok PNone, w) ->
  arxiv_respond (calls w) (arxiv_request query max_results) = inl root ->
  forallb well_formed_entry (findall root "atom:entry") = true ->
  writable w (arxiv_slot cs query max_results) = true ->
  let papers := map paper_from (findall root "atom:entry") in
  PaperCollectorMore.search_arxiv cs query max_results w
  = (Ok (PList papers),
     set_files (<[arxiv_slot cs query max_results
                  := File (json_dumps (PList papers)) (clock w)]> (files w))
       (log_call (arxiv_request query max_results) w))
  /\ Forall (fun paper =>
               exists d, paper = PDict d
                 /\ dict_get d "url" PNone = dict_get d "id" PNone
                 /\ map fst d = ["id"; "title"; "summary"; "published";
                                 "updated"; "authors"; "url"])
            papers.
Proof.
  intros Hmiss Hfeed Hall Hwr. cbv zeta.
  rewrite (arxiv_on_miss _ _ _ _ Hmiss). cbv zeta.
  rewrite Hfeed, Hall, Hwr. split; [reflexivity|].
  clear. induction (findall root "atom:entry") as [|x l IH];
    constructor; [|exact IH].
  eexists. split; [reflexivity|]. split; reflexivity.
Qed.

(** X24. A search of arXiv raises only when the read of its cache slot
    raises, and then with the exception of the read and before any
    request. *)
Theorem arxiv_search_raises_only_on_read cs query max_results w e w' :
  PaperCollectorMore.search_arxiv cs query max_results w = (Raise e, w') ->
  PaperCollector._load_from_cache cs
    (PaperCollectorMore.arxiv_key cs query max_results) 24 w
  = (Raise e, w)
  /\ w' = w.
Proof.
  intros Hrun.
  destruct (collector_load_stored cs
              (PaperCollectorMore.arxiv_key cs query max_results) w)
    as (c & Hload & Hnd).
  destruct c as [c|e0|]; [| |congruence].
  - exfalso. destruct (is_not_None c) eqn:Hc.
    + unfold PaperCollectorMore.search_arxiv in Hrun.
      rewrite (bind_run _ _ _ _ _ Hload), Hc in Hrun. discriminate.
    + assert (c = PNone) as -> by (destruct c; try discriminate; reflexivity).
      rewrite (arxiv_on_miss _ _ _ _ Hload) in Hrun. cbv zeta in Hrun.
      destruct (arxiv_respond _ _); [destruct (_ && _)|]; discriminate.
  - unfold PaperCollectorMore.search_arxiv in Hrun.
    rewrite (bind_raise _ _ _ _ _ Hload) in Hrun.
    injection Hrun as -> ->. split; [exact Hload|reflexivity].
Qed.

End Arxiv.

(* ===================================================================== *)
(** ** The summary, and where the slots are *)
(* ===================================================================== *)

Section Summary.
Context {rt : Runtime}.

(** X25. A summary raises in one case only: [json.dumps] cannot write
    the analyses that it is given. It then raises the exception of
    [json.dumps], while the prompt is built, before any request. For
    analyses that [json.dumps] writes it never raises and never touches
    the cache: it sends one request and returns what the answer of the
    model, stripped of its code fence, decodes to, whether a JSON object
    or not, and otherwise a payload with the one key ['error']. *)
Theorem summary_raises_only_on_its_argument an analyses w :
  match analyses with
  | LLMAnalyzerMore.NotJson e =>
      LLMAnalyzerMore.summarize_findings an analyses w = (Raise e, w)
  | LLMAnalyzerMore.Values l =>
      exists v,
        LLMAnalyzerMore.summarize_findings an analyses w
        = (Ok v, log_call (summary_request an l) w)
        /\ ((exists text,
               llm_respond (calls w) (summary_request an l)
               = inl (Some text)
               /\ json_loads (strip_code_fence text) = inl v)
            \/ (exists msg, v = PDict [("error", PStr msg)]))
  end.
Proof.
  destruct analyses as [l|e]; [|reflexivity].
  unfold LLMAnalyzerMore.summarize_findings. rewrite bind_ret.
  unfold try_except, bind at 1, LLMAnalyzer._call_openai.
  fold (chat_request an "You are a research synthesis expert."
          (LLMAnalyzerMore.summary_prompt (json_dumps (PList l)))
          (4 # 10) 3000).
  fold (summary_request an l).
  destruct (llm_respond (calls w) (summary_request an l))
    as [[text|]|e].
  - unfold bind, ret, json_loads_str.
    destruct (json_loads (strip_code_fence text)) as [v|e] eqn:Hj.
    + exists v. split; [reflexivity|]. left. exists text.
      split; [reflexivity|exact Hj].
    + eexists. split; [reflexivity|]. right. eexists. reflexivity.
  - eexists. split; [reflexivity|]. right. eexists. reflexivity.
  - eexists. split; [reflexivity|]. right. eexists. reflexivity.
Qed.

End Summary.

Section SlotLocations.
Context {rt : Runtime}.

Lemma lower_hex_append s t :
  lower_hex (s +:+ t) = lower_hex s && lower_hex t.
Proof.
  induction s as [|c r IH]; [reflexivity|].
  rewrite append_cons. cbn [lower_hex]. rewrite IH, andb_assoc. reflexivity.
Qed.

Lemma lower_hex_digit n : 0 <= n < 16 -> lower_hex (MD5.hex_digit n) = true.
Proof.
  intros Hn.
  assert (Hdigit : (Z.to_nat n < 16)%nat) by lia.
  replace n with (Z.of_nat (Z.to_nat n)) by lia.
  revert Hdigit. generalize (Z.to_nat n). clear. intros k Hdigit.
  do 16 (destruct k as [|k]; [reflexivity|]). lia.
Qed.

Lemma lower_hex_byte b : lower_hex (MD5.hex_byte (Z.land b 0xFF)) = true.
Proof.
  unfold MD5.hex_byte. rewrite lower_hex_append.
  change 0xFF with (Z.ones 8). rewrite Z.land_ones by lia.
  pose proof (Z.mod_pos_bound b (2 ^ 8) ltac:(lia)) as Hm.
  rewrite !lower_hex_digit; [reflexivity| |].
  - change 0xF with (Z.ones 4). rewrite Z.land_ones by lia.
    apply Z.mod_pos_bound. lia.
  - rewrite Z.shiftr_div_pow2 by lia.
    split; [apply Z.div_pos; lia|apply Z.div_lt_upper_bound; lia].
Qed.

Lemma lower_hex_le_bytes n x : lower_hex (MD5.hex (MD5.le_bytes n x)) = true.
Proof.
  revert x. induction n as [|n IH]; intros x; [reflexivity|].
  cbn [MD5.le_bytes MD5.hex]. rewrite lower_hex_append, lower_hex_byte, IH.
  reflexivity.
Qed.

Lemma hex_app l l' : MD5.hex (l ++ l')%list = MD5.hex l +:+ MD5.hex l'.
Proof.
  induction l as [|b l IH]; [reflexivity|].
  cbn [app MD5.hex]. rewrite IH, append_assoc. reflexivity.
Qed.

(** The fingerprint is written with the digits [0-9a-f]. *)
Lemma hexdigest_lower_hex data : lower_hex (MD5.hexdigest data) = true.
Proof.
  unfold MD5.hexdigest, MD5.digest.
  destruct (fold_left MD5.process _ MD5.init) as [[[a b] c] d].
  rewrite !hex_app, !lower_hex_append, !lower_hex_le_bytes. reflexivity.
Qed.

Lemma lower_hex_no_slash s : lower_hex s = true -> split_path s = (None, s).
Proof.
  induction s as [|c r IH]; [reflexivity|].
  cbn [lower_hex split_path]. intros H.
  apply andb_true_iff in H as [Hc Hr]. rewrite (IH Hr).
  destruct (Ascii.eqb c "/") eqn:Hs; [|reflexivity].
  apply Ascii.eqb_eq in Hs. subst c. discriminate.
Qed.

Lemma split_path_name name ext :
  split_path name = (None, name) -> split_path ext = (None, ext) ->
  split_path (name +:+ ext) = (None, name +:+ ext).
Proof.
  intros Hn He. induction name as [|c r IH]; [exact He|].
  rewrite append_cons. cbn [split_path] in *.
  destruct (split_path r) as [[dir|] n]; [discriminate|].
  destruct (Ascii.eqb c "/"); [discriminate|].
  injection Hn as ->. rewrite IH by reflexivity. reflexivity.
Qed.

Lemma split_path_join dir name :
  split_path name = (None, name) ->
  split_path (dir +:+ "/" +:+ name) = (Some dir, name).
Proof.
  intros Hn. induction dir as [|c r IH].
  - change (EmptyString +:+ "/" +:+ name) with (String "/" name).
    cbn [split_path]. rewrite Hn. reflexivity.
  - rewrite append_cons. cbn [split_path]. rewrite IH. reflexivity.
Qed.

(** X26. A fingerprint is 32 digits among [0-9a-f], whatever the key, so
    that a slot of the collector is the file named by the fingerprint
    and [.json] directly in the cache directory. A slot of the analyzer
    is named by the identifier of the paper as it is: for an identifier
    that begins with a slash it is a path from the root, the same
    whatever the cache directory of the analyzer. *)
Theorem slots_of_the_two_caches cs an an' query source id ty :
  let key := PaperCollector._get_cache_key cs query source in
  String.length key = 32%nat
  /\ lower_hex key = true
  /\ split_path (PaperCollector.cache_file cs key)
     = (Some (PaperCollector.cache_dir cs), key +:+ ".json")
  /\ String.prefix "/" (LLMAnalyzer._get_cache_path an (PStr ("/" +:+ id)) ty)
     = true
  /\ LLMAnalyzer._get_cache_path an (PStr ("/" +:+ id)) ty
     = LLMAnalyzer._get_cache_path an' (PStr ("/" +:+ id)) ty.
Proof.
  intros key. subst key.
  pose proof (hexdigest_lower_hex (PaperCollector.key_string query source))
    as Hhex.
  split; [apply hexdigest_length|]. split; [exact Hhex|]. split; [|split].
  - unfold PaperCollector.cache_file, PaperCollector._get_cache_key, path_join.
    destruct (hexdigest_not_absolute (PaperCollector.key_string query source))
      as [Hp Hn].
    rewrite prefix_slash_append, Hp by assumption.
    apply split_path_join, split_path_name; [|reflexivity].
    apply lower_hex_no_slash, Hhex.
  - unfold LLMAnalyzer._get_cache_path, path_join. cbn [py_str].
    rewrite !append_cons. cbn [String.prefix]. rewrite prefix_empty.
    cbn [String.prefix]. apply prefix_empty.
  - unfold LLMAnalyzer._get_cache_path, path_join. cbn [py_str].
    rewrite !append_cons. cbn [String.prefix]. rewrite prefix_empty.
    reflexivity.
Qed.

End SlotLocations.

(* ===================================================================== *)
(** ** The citation network *)
(* ===================================================================== *)

Section CitationNetwork.
Context {rt : Runtime} {fd : Feeds}.

Lemma turns_positive k : (1 <= PaperCollectorMore.turns k)%nat.
Proof. destruct k; cbn [PaperCollectorMore.turns]; lia. Qed.

Lemma weight_positive depth item : (1 <= weight depth item)%nat.
Proof. apply turns_positive. Qed.

Lemma potential_app depth a b :
  potential depth (a ++ b) = (potential depth a + potential depth b)%nat.
Proof.
  induction a as [|x a IH]; [reflexivity|].
  cbn [app potential]. rewrite IH. lia.
Qed.

Lemma potential_seeds depth (seeds : list pyvalue) :
  potential depth (map (fun pid => (pid, 0)) seeds)
  = (length seeds * PaperCollectorMore.turns (Z.to_nat (depth - 1)))%nat.
Proof.
  induction seeds as [|x l IH]; [reflexivity|].
  cbn [map potential length]. rewrite IH. unfold weight. cbn [snd].
  rewrite Z.sub_0_r. lia.
Qed.

(** The papers that one paper brings weigh less than the paper. *)
Lemma potential_children depth paper_id d (new : list (pyvalue * Z)) :
  Forall (fun item => snd item = d + 1) new ->
  (length new <= 10)%nat ->
  d < depth - 1 ->
  (potential depth new + 1 <= weight depth (paper_id, d))%nat.
Proof.
  intros Hall Hlen Hd. unfold weight at 1. cbn [snd].
  replace (Z.to_nat (depth - 1 - d))
    with (S (Z.to_nat (depth - 1 - (d + 1)))) by lia.
  cbn [PaperCollectorMore.turns].
  assert (potential depth new
          = (length new
             * PaperCollectorMore.turns (Z.to_nat (depth - 1 - (d + 1))))%nat)
    as ->.
  { clear Hlen. induction Hall as [|x l Hx _ IH]; [reflexivity|].
    cbn [potential length]. rewrite IH. unfold weight. rewrite Hx. lia. }
  pose proof (turns_positive (Z.to_nat (depth - 1 - (d + 1)))). nia.
Qed.

(** The inner loop only computes: it appends citations from the paper and
    as many papers to visit, one level deeper. *)
Lemma cite_outcome paper_id d cited :
  forall citations to_visit w,
  exists r, PaperCollectorMore.cite paper_id d cited citations to_visit w
            = (r, w)
    /\ r <> Diverge
    /\ forall g, r = Ok g ->
         exists newc newv,
           fst g = (citations ++ newc)%list
           /\ snd g = (to_visit ++ newv)%list
           /\ Forall (cites_from paper_id) newc
           /\ Forall (fun item => snd item = d + 1) newv
           /\ (length newc <= length cited)%nat
           /\ (length newv <= length cited)%nat.
Proof.
  induction cited as [|c cited IH]; intros citations to_visit w.
  - eexists. split; [reflexivity|]. split; [discriminate|].
    intros g [= <-]. exists [], []. cbn [fst snd length].
    rewrite !app_nil_r. repeat split; auto.
  - cbn [PaperCollectorMore.cite].
    destruct c as [| | | | |dict|];
      try (eexists; split; [reflexivity|]; split; discriminate).
    rewrite bind_ret.
    destruct (py_truthy (dict_get dict "paperId" PNone)) eqn:Ht.
    + destruct (IH (citations
                    ++ [PDict [("from", paper_id);
                               ("to", dict_get dict "paperId" PNone)]])%list
                   (to_visit ++ [(dict_get dict "paperId" PNone, d + 1)])%list
                   w)
        as (r & Hrun & Hnd & Hok).
      exists r. split; [exact Hrun|]. split; [exact Hnd|].
      intros g Hg.
      destruct (Hok g Hg) as (newc & newv & Hc & Hv & Hfc & Hfv & Hlc & Hlv).
      exists (PDict [("from", paper_id);
                     ("to", dict_get dict "paperId" PNone)] :: newc),
             ((dict_get dict "paperId" PNone, d + 1) :: newv).
      rewrite Hc, Hv, <- !app_assoc. cbn [app length].
      repeat split; try lia.
      * constructor; [|exact Hfc]. eexists. split; [reflexivity|exact Ht].
      * constructor; [reflexivity|exact Hfv].
    + destruct (IH citations to_visit w) as (r & Hrun & Hnd & Hok).
      exists r. split; [exact Hrun|]. split; [exact Hnd|].
      intros g Hg.
      destruct (Hok g Hg) as (newc & newv & Hc & Hv & Hfc & Hfv & Hlc & Hlv).
      exists newc, newv. cbn [length]. repeat split; auto; lia.
Qed.


Lemma add_citations_outcome paper paper_id d depth citations to_visit w :
  exists r,
    PaperCollectorMore.add_citations paper paper_id d depth citations
      to_visit w = (r, w)
    /\ r <> Diverge
    /\ forall g, r = Ok g ->
         exists newc newv,
           fst g = (citations ++ newc)%list
           /\ snd g = (to_visit ++ newv)%list
           /\ Forall (cites_from paper_id) newc
           /\ Forall (fun item => snd item = d + 1) newv
           /\ (length newc <= 10)%nat
           /\ (length newv <= 10)%nat
           /\ (d < depth - 1 \/ (newc = [] /\ newv = [])).
Proof.
  assert (Hnone : exists r : result (list pyvalue * list (pyvalue * Z)),
            (Ok (citations, to_visit), w) = (r, w)
            /\ r <> Diverge
            /\ forall g, r = Ok g ->
                 exists newc newv,
                   fst g = (citations ++ newc)%list
                   /\ snd g = (to_visit ++ newv)%list
                   /\ Forall (cites_from paper_id) newc
                   /\ Forall (fun item => snd item = d + 1) newv
                   /\ (length newc <= 10)%nat
                   /\ (length newv <= 10)%nat
                   /\ (d < depth - 1 \/ (newc = [] /\ newv = []))).
  { eexists. split; [reflexivity|]. split; [discriminate|].
    intros g [= <-]. exists [], []. cbn [fst snd length].
    rewrite !app_nil_r. repeat split; auto; lia. }
  assert (Hraise : forall e,
            exists r : result (list pyvalue * list (pyvalue * Z)),
              (Raise e, w) = (r, w)
              /\ r <> Diverge
              /\ forall g, r = Ok g ->
                   exists newc newv,
                     fst g = (citations ++ newc)%list
                     /\ snd g = (to_visit ++ newv)%list
                     /\ Forall (cites_from paper_id) newc
                     /\ Forall (fun item => snd item = d + 1) newv
                     /\ (length newc <= 10)%nat
                     /\ (length newv <= 10)%nat
                     /\ (d < depth - 1 \/ (newc = [] /\ newv = []))).
  { intros e. eexists. split; [reflexivity|]. split; discriminate. }
  assert (Hcite : forall cited, (length cited <= 10)%nat -> d < depth - 1 ->
            exists r,
              PaperCollectorMore.cite paper_id d cited citations to_visit w
              = (r, w)
              /\ r <> Diverge
              /\ forall g, r = Ok g ->
                   exists newc newv,
                     fst g = (citations ++ newc)%list
                     /\ snd g = (to_visit ++ newv)%list
                     /\ Forall (cites_from paper_id) newc
                     /\ Forall (fun item => snd item = d + 1) newv
                     /\ (length newc <= 10)%nat
                     /\ (length newv <= 10)%nat
                     /\ (d < depth - 1 \/ (newc = [] /\ newv = []))).
  { intros cited Hlen Hd.
    destruct (cite_outcome paper_id d cited citations to_visit w)
      as (r & Hrun & Hnd & Hok).
    exists r. split; [exact Hrun|]. split; [exact Hnd|]. intros g Hg.
    destruct (Hok g Hg) as (newc & newv & Hc & Hv & Hfc & Hfv & Hlc & Hlv).
    exists newc, newv. repeat split; auto; lia. }
  unfold PaperCollectorMore.add_citations, py_contains.
  destruct paper as [|b|n|s|l|dict|t]; try (apply Hraise).
  - rewrite bind_ret. destruct (_ && _); [apply Hraise|apply Hnone].
  - rewrite bind_ret. destruct (_ && _); [apply Hraise|apply Hnone].
  - rewrite bind_ret.
    destruct (dict_has dict "citations"); [|apply Hnone].
    cbn [andb]. destruct (d <? depth - 1) eqn:Hd; [|apply Hnone].
    apply Z.ltb_lt in Hd. rewrite bind_ret. unfold first_ten.
    destruct (dict_get dict "citations" (PList [])) as [|b|n|s|l|dict'|t];
      try (apply Hraise).
    + rewrite bind_ret. apply Hcite; [|exact Hd].
      rewrite length_map, length_firstn. lia.
    + rewrite bind_ret. apply Hcite; [|exact Hd].
      rewrite length_firstn. lia.
    + rewrite bind_ret. apply Hcite; [|exact Hd].
      rewrite length_firstn. lia.
  - rewrite bind_ret. destruct (_ && _); [apply Hraise|apply Hnone].
Qed.

Lemma sleep_one w :
  time_sleep (Finite 1) w = (Ok tt, set_clock (clock w + 1000000) w).
Proof. reflexivity. Qed.

Lemma keyed_set_fresh papers key k v :
  key ∉ collected_keys papers ->
  PaperCollectorMore.keyed_set papers key k v
  = (papers ++ [(key, k, v)])%list.
Proof.
  induction papers as [|[[key' k'] v'] papers IH]; intros Hn; [reflexivity|].
  cbn [PaperCollectorMore.keyed_set app].
  cbn [collected_keys map fst] in Hn.
  rewrite bool_decide_eq_false_2.
  - rewrite IH; [reflexivity|]. intros H. apply Hn. right. exact H.
  - intros ->. apply Hn. left.
Qed.

Lemma py_hash_outcome paper_id w :
  (exists key, hashable paper_id = true /\ py_hash paper_id w = (Ok key, w))
  \/ (exists e, hashable paper_id = false /\ py_hash paper_id w = (Raise e, w)
                /\ exn_class_of e = TypeError).
Proof.
  unfold py_hash, hashable.
  assert (Hclass : forall v e, hash_key v = inr e -> exn_class_of e = TypeError).
  { fix IH 1. intros [| | | |l|d|t] e; cbn [hash_key]; try discriminate.
    - intros [= <-]. reflexivity.
    - intros [= <-]. reflexivity.
    - set (keys := fix keys (l : list pyvalue) : list hkey + exn := _).
      assert (Hkeys : forall e', keys t = inr e' ->
                exn_class_of e' = TypeError).
      { induction t as [|x t IHt]; intros e'; cbn [keys]; [discriminate|].
        destruct (hash_key x) as [k|ex] eqn:Hx.
        - destruct (keys t) as [ks|et]; [discriminate|].
          intros [= <-]. apply IHt. reflexivity.
        - intros [= <-]. exact (IH x ex Hx). }
      destruct (keys t) as [ks|et]; [discriminate|].
      intros [= <-]. apply Hkeys. reflexivity. }
  destruct (hash_key paper_id) as [key|e] eqn:Hk.
  - left. exists key. split; reflexivity.
  - right. exists e. repeat split. exact (Hclass _ _ Hk).
Qed.


Lemma consistent_grows papers citations key paper_id paper newc :
  consistent papers citations ->
  key ∉ collected_keys papers ->
  py_truthy paper = true ->
  Forall (cites_from paper_id) newc ->
  (length newc <= 10)%nat ->
  consistent (papers ++ [(key, paper_id, paper)])%list
             (citations ++ newc)%list.
Proof.
  intros (Hnd & Htr & Hfrom & Hlen) Hkey Hp Hnew Hn.
  unfold consistent, collected_keys, collected_ids.
  rewrite !map_app, !length_app. cbn [map fst snd length].
  repeat split.
  - apply NoDup_app. split; [exact Hnd|]. split; [|apply NoDup_singleton].
    intros k Hk Hk'. apply list_elem_of_singleton in Hk'. subst k.
    exact (Hkey Hk).
  - apply Forall_app. split; [exact Htr|]. constructor; [exact Hp|constructor].
  - apply Forall_app. split.
    + eapply Forall_impl; [exact Hfrom|]. intros c (id & Hid & Hc).
      exists id. split; [|exact Hc]. apply elem_of_app. left. exact Hid.
    + eapply Forall_impl; [exact Hnew|]. intros c Hc.
      exists paper_id. split; [|exact Hc]. apply elem_of_app. right.
      apply list_elem_of_singleton. reflexivity.
  - lia.
Qed.

(** The loop returns or raises within its bound, sends at most one
    request for each turn, and keeps the papers and citations
    consistent. *)
Lemma crawl_outcome cs depth fuel :
  forall papers citations visited to_visit w,
  (potential depth to_visit <= fuel)%nat ->
  consistent papers citations ->
  (forall k, k ∈ collected_keys papers -> k ∈ visited) ->
  Forall (fun item => 0 <= snd item) to_visit ->
  exists r w',
    PaperCollectorMore.crawl fuel cs depth papers citations visited to_visit w
    = (r, w')
    /\ r <> Diverge
    /\ (exists ids,
          calls w' = (map (details_request cs) ids ++ calls w)%list
          /\ (length ids <= potential depth to_visit)%nat)
    /\ (depth <= 0 ->
        w' = w /\ forall found, r = Ok found -> found = (papers, citations))
    /\ forall found, r = Ok found ->
         consistent (fst found) (snd found)
         /\ clock w'
            = clock w
              + 1000000 * (Z.of_nat (length (fst found))
                           - Z.of_nat (length papers))
         /\ (depth <= 1 -> citations = [] -> snd found = []).
Proof.
  induction fuel as [|fuel IH];
    intros papers citations visited [|[paper_id d] to_visit] w
      Hfuel Hcons Hvis Hdepth.
  - exists (Ok (papers, citations)), w. split; [reflexivity|].
    split; [discriminate|]. split; [exists []; split; [reflexivity|]; cbn; lia|].
    split; [intros _; split; [reflexivity|intros found [= <-]; reflexivity]|].
    intros found [= <-]. cbn [fst snd]. split; [exact Hcons|].
    split; [lia|auto].
  - exfalso. cbn [potential] in Hfuel.
    pose proof (weight_positive depth (paper_id, d)). lia.
  - exists (Ok (papers, citations)), w. split; [reflexivity|].
    split; [discriminate|]. split; [exists []; split; [reflexivity|]; cbn; lia|].
    split; [intros _; split; [reflexivity|intros found [= <-]; reflexivity]|].
    intros found [= <-]. cbn [fst snd]. split; [exact Hcons|].
    split; [lia|auto].
  - cbn [potential] in Hfuel |- *.
    pose proof (weight_positive depth (paper_id, d)) as Hpos.
    apply Forall_cons in Hdepth as [Hd Hdepth]. cbn [snd] in Hd.
    cbn [PaperCollectorMore.crawl].
    destruct (py_hash_outcome paper_id w)
      as [(key & _ & Hkey) | (e & _ & Hkey & _)].
    2:{ rewrite (bind_raise _ _ _ _ _ Hkey). eexists _, _.
        split; [reflexivity|]. split; [discriminate|].
        split; [exists []; split; [reflexivity|]; cbn; lia|].
        split; [split; [reflexivity|discriminate]|discriminate]. }
    rewrite (bind_run _ _ _ _ _ Hkey).
    destruct (bool_decide (key ∈ visited) || (d >=? depth)) eqn:Hskip.
    { destruct (IH papers citations visited to_visit w ltac:(lia) Hcons Hvis
                  Hdepth)
        as (r & w' & Hrun & Hnd & (ids & Hids & Hlen) & Hzero & Hok).
      exists r, w'. split; [exact Hrun|]. split; [exact Hnd|].
      split; [exists ids; split; [exact Hids|lia]|].
      split; [exact Hzero|exact Hok]. }
    apply orb_false_iff in Hskip as [Hnew Hlt].
    apply bool_decide_eq_false in Hnew.
    assert (Hdeep : 0 < depth)
      by (rewrite Z.geb_leb in Hlt; apply Z.leb_gt in Hlt; lia).
    assert (Hfresh : key ∉ collected_keys papers)
      by (intros Hin; apply Hnew, Hvis, Hin).
    cbv zeta.
    destruct (details_effect cs paper_id "semantic_scholar" w)
      as (r0 & w0 & Hdet & Hnd0 & Hclock0 & _ & Hcalls0).
    assert (Hreq : exists ids0,
              calls w0 = (map (details_request cs) ids0 ++ calls w)%list
              /\ (length ids0 <= 1)%nat).
    { destruct Hcalls0 as [[Hc _] | (_ & Hc & _)].
      - exists []. split; [exact Hc|cbn; lia].
      - exists [paper_id]. split; [exact Hc|cbn; lia]. }
    destruct Hreq as (ids0 & Hids0 & Hlen0).
    destruct r0 as [paper|e|]; [| |congruence].
    2:{ rewrite (bind_raise _ _ _ _ _ Hdet). eexists _, _.
        split; [reflexivity|]. split; [discriminate|].
        split; [exists ids0; split; [exact Hids0|lia]|].
        split; [lia|discriminate]. }
    rewrite (bind_run _ _ _ _ _ Hdet).
    destruct (py_truthy paper) eqn:Htruthy; cbn [negb].
    2:{ destruct (IH papers citations (key :: visited) to_visit w0 ltac:(lia)
                    Hcons)
          as (r & w' & Hrun & Hnd & (ids & Hids & Hlen) & _ & Hok);
          [intros k Hk; right; apply Hvis, Hk|exact Hdepth|].
        exists r, w'. split; [exact Hrun|]. split; [exact Hnd|]. split.
        { exists (ids ++ ids0)%list. rewrite Hids, Hids0, map_app, app_assoc.
          split; [reflexivity|]. rewrite length_app. lia. }
        split; [lia|].
        intros found Hf. destruct (Hok found Hf) as (Hc & Hcl & Hz).
        split; [exact Hc|]. split; [rewrite Hcl, Hclock0; reflexivity|].
        exact Hz. }
    rewrite (keyed_set_fresh _ _ _ _ Hfresh).
    destruct (add_citations_outcome paper paper_id d depth citations to_visit
                w0) as (rg & Hgrow & Hndg & Hokg).
    destruct rg as [g|e|]; [| |congruence].
    2:{ rewrite (bind_raise _ _ _ _ _ Hgrow). eexists _, _.
        split; [reflexivity|]. split; [discriminate|].
        split; [exists ids0; split; [exact Hids0|lia]|].
        split; [lia|discriminate]. }
    rewrite (bind_run _ _ _ _ _ Hgrow).
    rewrite (bind_run _ _ _ _ _ (sleep_one w0)).
    destruct (Hokg g eq_refl)
      as (newc & newv & Hgc & Hgv & Hfc & Hfv & Hlc & Hlv & Hlevel).
    rewrite Hgc, Hgv.
    assert (Hpot : (potential depth (to_visit ++ newv) + 1
                    <= weight depth (paper_id, d) + potential depth to_visit)%nat).
    { rewrite potential_app. destruct Hlevel as [Hlevel | [_ ->]].
      - pose proof (potential_children depth paper_id d newv Hfv Hlv Hlevel).
        lia.
      - cbn [potential]. lia. }
    destruct (IH (papers ++ [(key, paper_id, paper)])%list
                 (citations ++ newc)%list (key :: visited)
                 (to_visit ++ newv)%list
                 (set_clock (clock w0 + 1000000) w0) ltac:(lia))
      as (r & w' & Hrun & Hnd & (ids & Hids & Hlen) & _ & Hok).
    { apply consistent_grows; assumption. }
    { intros k Hk. unfold collected_keys in Hk. rewrite map_app in Hk.
      apply elem_of_app in Hk as [Hk|Hk].
      - right. apply Hvis, Hk.
      - apply list_elem_of_singleton in Hk. subst k. left. }
    { apply Forall_app. split; [exact Hdepth|].
      eapply Forall_impl; [exact Hfv|]. cbn beta. intros item ->. lia. }
    exists r, w'. split; [exact Hrun|]. split; [exact Hnd|]. split.
    { exists (ids ++ ids0)%list. rewrite Hids. cbn [calls set_clock].
      rewrite Hids0, map_app, app_assoc.
      split; [reflexivity|]. rewrite length_app. lia. }
    split; [lia|].
    intros found Hf. destruct (Hok found Hf) as (Hc & Hcl & Hz).
    split; [exact Hc|]. split.
    + rewrite Hcl. cbn [clock set_clock]. rewrite Hclock0, length_app.
      cbn [length]. lia.
    + intros Hone Hnil. apply Hz; [exact Hone|].
      destruct Hlevel as [Hlevel | [-> _]]; [lia|].
      rewrite Hnil. reflexivity.
Qed.


Lemma turns_closed k : (9 * PaperCollectorMore.turns k + 1 = 10 ^ (k + 1))%nat.
Proof.
  induction k as [|k IH]; [reflexivity|].
  cbn [PaperCollectorMore.turns]. replace (S k + 1)%nat with (S (k + 1)) by lia.
  rewrite Nat.pow_succ_r'. lia.
Qed.

Lemma consistent_empty : consistent [] [].
Proof.
  unfold consistent. cbn. repeat split; try constructor.
Qed.

(** The whole collection, from the loop. *)
Lemma network_outcome cs seeds depth w :
  exists r w1,
    PaperCollectorMore.crawl
      (length seeds * PaperCollectorMore.turns (Z.to_nat (depth - 1)))
      cs depth [] [] [] (map (fun pid => (pid, 0)) seeds) w
    = (r, w1)
    /\ r <> Diverge
    /\ PaperCollectorMore.collect_citation_network cs seeds depth w
       = (match r with
          | Ok found =>
              Ok (PaperCollectorMore.Network (fst found) (snd found) seeds
                    depth (Z.of_nat (length (fst found)))
                    (Z.of_nat (length (snd found))) (isoformat (clock w1)))
          | Raise e => Raise e
          | Diverge => Diverge
          end, w1)
    /\ (exists ids,
          calls w1 = (map (details_request cs) ids ++ calls w)%list
          /\ (length ids
              <= length seeds
                 * PaperCollectorMore.turns (Z.to_nat (depth - 1)))%nat)
    /\ (depth <= 0 -> w1 = w /\ forall found, r = Ok found -> found = ([], []))
    /\ forall found, r = Ok found ->
         consistent (fst found) (snd found)
         /\ clock w1 = clock w + 1000000 * Z.of_nat (length (fst found))
         /\ (depth <= 1 -> snd found = []).
Proof.
  destruct (crawl_outcome cs depth
              (length seeds * PaperCollectorMore.turns (Z.to_nat (depth - 1)))
              [] [] [] (map (fun pid => (pid, 0)) seeds) w)
    as (r & w1 & Hrun & Hnd & (ids & Hids & Hlen) & Hzero & Hok).
  - rewrite potential_seeds. lia.
  - apply consistent_empty.
  - intros k Hk. exact Hk.
  - apply Forall_forall. intros item Hin.
    apply list_elem_of_fmap in Hin as (pid & -> & _). cbn. lia.
  - exists r, w1. split; [exact Hrun|]. split; [exact Hnd|]. split.
    { unfold PaperCollectorMore.collect_citation_network.
      destruct r as [found|e|].
      - rewrite (bind_run _ _ _ _ _ Hrun). reflexivity.
      - apply (bind_raise _ _ _ _ _ Hrun).
      - congruence. }
    split; [exists ids; split; [exact Hids|]; rewrite potential_seeds in Hlen;
            exact Hlen|].
    split; [exact Hzero|].
    intros found Hf. destruct (Hok found Hf) as (Hc & Hcl & Hz).
    split; [exact Hc|]. split; [rewrite Hcl; cbn [length]; lia|].
    intros Hone. apply Hz; [exact Hone|reflexivity].
Qed.

(** X27. The collection of a citation network always ends: it returns or
    raises, and has then sent only requests for the details of a paper, at
    most [(10^depth - 1) / 9] for each seed, and for a depth below one at
    most one for each seed. *)
Theorem network_is_collected_within_bound cs seeds depth w :
  let run := PaperCollectorMore.collect_citation_network cs seeds depth w in
  fst run <> Diverge
  /\ exists ids,
       calls (snd run) = (map (details_request cs) ids ++ calls w)%list
       /\ (9 * length ids + length seeds
           <= length seeds * 10 ^ Z.to_nat (Z.max 1 depth))%nat.
Proof.
  cbv zeta.
  destruct (network_outcome cs seeds depth w)
    as (r & w1 & _ & Hnd & -> & (ids & Hids & Hlen) & _).
  cbn [fst snd]. split; [destruct r; congruence|].
  exists ids. split; [exact Hids|].
  pose proof (turns_closed (Z.to_nat (depth - 1))) as Hc.
  replace (Z.to_nat (depth - 1) + 1)%nat with (Z.to_nat (Z.max 1 depth))
    in Hc by lia.
  rewrite <- Hc. nia.
Qed.

(** X28. In a network that is returned no paper is collected twice, no
    collected paper counts as false, every citation goes from a collected
    paper to an identifier that counts as true, and there are at most ten
    citations for each collected paper. *)
Theorem network_is_consistent cs seeds depth w net w' :
  PaperCollectorMore.collect_citation_network cs seeds depth w
  = (Ok net, w') ->
  NoDup (collected_keys (PaperCollectorMore.papers net))
  /\ Forall (fun entry => py_truthy (snd entry) = true)
            (PaperCollectorMore.papers net)
  /\ Forall (fun c => exists id,
               id ∈ collected_ids (PaperCollectorMore.papers net)
               /\ cites_from id c)
            (PaperCollectorMore.citations net)
  /\ PaperCollectorMore.total_citations net
     <= 10 * PaperCollectorMore.total_papers net.
Proof.
  intros Hrun.
  destruct (network_outcome cs seeds depth w)
    as (r & w1 & _ & _ & Hnet & _ & _ & Hok).
  rewrite Hnet in Hrun. destruct r as [found|e|]; try discriminate.
  injection Hrun as <- <-.
  destruct (Hok found eq_refl) as ((Hnd & Htr & Hfrom & Hlen) & _).
  cbn [PaperCollectorMore.papers PaperCollectorMore.citations
       PaperCollectorMore.total_papers PaperCollectorMore.total_citations].
  repeat split; try assumption. lia.
Qed.

(** X29. The collection pauses one second after each paper that it
    collects, so that a network of [n] papers takes at least [n] seconds,
    whatever time the requests take. [total_papers] is the number of
    papers collected, and the network is stamped with the clock at the
    end. *)
Theorem network_pauses_once_per_paper cs seeds depth w net w' :
  PaperCollectorMore.collect_citation_network cs seeds depth w
  = (Ok net, w') ->
  clock w + 1000000 * PaperCollectorMore.total_papers net <= clock w'
  /\ PaperCollectorMore.total_papers net
     = Z.of_nat (length (PaperCollectorMore.papers net))
  /\ PaperCollectorMore.collected_at net = isoformat (clock w').
Proof.
  intros Hrun.
  destruct (network_outcome cs seeds depth w)
    as (r & w1 & _ & _ & Hnet & _ & _ & Hok).
  rewrite Hnet in Hrun. destruct r as [found|e|]; try discriminate.
  injection Hrun as <- <-.
  destruct (Hok found eq_refl) as (_ & Hcl & _).
  cbn [PaperCollectorMore.papers PaperCollectorMore.total_papers
       PaperCollectorMore.collected_at].
  repeat split. rewrite Hcl. lia.
Qed.

(** X30. A depth of one collects the seeds and no citation, since the
    citations of a paper are read only above the last level; a depth of
    zero or less collects nothing and sends no request. *)
Theorem shallow_network_has_no_citation cs seeds depth w net w' :
  depth <= 1 ->
  PaperCollectorMore.collect_citation_network cs seeds depth w
  = (Ok net, w') ->
  PaperCollectorMore.citations net = []
  /\ PaperCollectorMore.total_citations net = 0
  /\ (depth <= 0 -> PaperCollectorMore.papers net = [] /\ w' = w).
Proof.
  intros Hdepth Hrun.
  destruct (network_outcome cs seeds depth w)
    as (r & w1 & _ & _ & Hnet & _ & Hzero & Hok).
  rewrite Hnet in Hrun. destruct r as [found|e|]; try discriminate.
  injection Hrun as <- <-.
  destruct (Hok found eq_refl) as (_ & _ & Hnone).
  cbn [PaperCollectorMore.papers PaperCollectorMore.citations
       PaperCollectorMore.total_citations].
  rewrite (Hnone Hdepth). repeat split.
  - destruct (Hzero H) as [_ Hf]. rewrite (Hf found eq_refl). reflexivity.
  - destruct (Hzero H) as [Hw _]. exact Hw.
Qed.

End CitationNetwork.

(* ===================================================================== *)
(** ** The properties on the scenarios *)
(* ===================================================================== *)

Section MoreOnTheReferenceRuntime.
Import Reference Scenarios.
#[local] Existing Instance Reference.rt.
#[local] Existing Instance Scenarios.feeds.

(** A search with a limit of zero on the empty cache. *)
Lemma search_without_limit_witness :
  PaperCollector.search_semantic_scholar collector "microservice architecture"
    0 None world0
  = (Ok (PList []),
     set_files
       (<[PaperCollector.cache_file collector
            (PaperCollector.search_key collector "microservice architecture"
               0 PaperCollector.default_fields)
          := File (json_dumps (PList [])) (clock world0)]> (files world0))
       world0).
Proof.
  apply (search_without_limit_caches_nothing_found collector
           "microservice architecture" 0 None world0).
  - lia.
  - vm_compute. reflexivity.
  - reflexivity.
Defined.

(** The slot of the search holds an object written by hand: the search
    returns the object. *)
Lemma search_serves_any_fresh_entry_witness :
  PaperCollector.search_semantic_scholar collector "microservice architecture"
    50 None hand_written
  = (Ok (PDict [("note", PStr "not a list")]), hand_written).
Proof.
  apply (search_serves_any_fresh_entry collector "microservice architecture"
           50 None hand_written
           (File (Json.dumps (PDict [("note", PStr "not a list")]))
                 1700000000000000)).
  - vm_compute. reflexivity.
  - vm_compute. discriminate.
  - vm_compute. reflexivity.
  - discriminate.
Defined.

(** The same slot a day and a microsecond later: the search asks the
    service and the slot holds the two papers it got. *)
Lemma search_replaces_a_stale_entry_witness :
  exists w',
    PaperCollector.search_semantic_scholar collector
      "microservice architecture" 50 None (later (day + 1) hand_written)
    = (Ok payload, w')
    /\ files w' !! PaperCollector.cache_file collector search_slot
       = Some (File (json_dumps payload) (clock w')).
Proof.
  destruct (PaperCollector.search_semantic_scholar collector
              "microservice architecture" 50 None
              (later (day + 1) hand_written)) as [r w'] eqn:Hrun.
  assert (Hr : r = Ok payload).
  { change r with (fst (r, w')). rewrite <- Hrun. vm_compute. reflexivity. }
  subst r. exists w'. split; [reflexivity|].
  destruct (search_replaces_a_stale_entry collector
              "microservice architecture" 50 None
              (later (day + 1) hand_written)
              (File (Json.dumps (PDict [("note", PStr "not a list")]))
                    1700000000000000)
              payload w') as (l & Hl & Hfile).
  - vm_compute. reflexivity.
  - vm_compute. reflexivity.
  - exact Hrun.
  - rewrite Hl. exact Hfile.
Defined.

(** Two queries of one source: a write for the first leaves the read of
    the second as it was. *)
Lemma fingerprints_do_not_interfere_witness :
  PaperCollector.cache_file collector
    (PaperCollector._get_cache_key collector "cats" "arxiv")
  <> PaperCollector.cache_file collector
       (PaperCollector._get_cache_key collector "dogs" "arxiv")
  /\ fst (PaperCollector._load_from_cache collector
            (PaperCollector._get_cache_key collector "dogs" "arxiv") 24
            (snd (PaperCollector._save_to_cache collector
                    (PaperCollector._get_cache_key collector "cats" "arxiv")
                    payload world0)))
     = fst (PaperCollector._load_from_cache collector
              (PaperCollector._get_cache_key collector "dogs" "arxiv") 24
              world0).
Proof.
  apply (fingerprints_do_not_interfere collector "cats" "arxiv" "dogs" "arxiv"
           payload 24 world0).
  vm_compute. discriminate.
Defined.


(** The analysis of a paper on the empty cache: the answer of the model
    with the two keys, in the slot of the paper. *)
Lemma analysis_stamps_and_stores_witness :
  LLMAnalyzer.analyze_paper analyzer one_paper true world0
  = (Ok (PDict [("summary", PStr "A summary."); ("relevance_score", PInt 7);
                ("paper_id", PStr "p1");
                ("analyzed_at", PStr "2023-11-14 22:13:20")]),
     set_files
       (<[comprehensive_slot analyzer one_paper
          := File (json_dumps (stamped answer one_paper (clock world0)))
                  (clock world0)]> (files world0))
       (log_call (comprehensive_request analyzer one_paper) world0)).
Proof.
  pose proof (analysis_stamps_and_stores analyzer one_paper world0 PNone
                fenced_answer answer) as H.
  destruct H as [Hrun _].
  - reflexivity.
  - reflexivity.
  - reflexivity.
  - vm_compute. reflexivity.
  - reflexivity.
  - exact Hrun.
Defined.

(** The same analysis when the cache directory cannot be written. *)
Lemma unwritable_slot_witness :
  LLMAnalyzer.analyze_paper analyzer one_paper true read_only
  = (Ok (PDict [("error",
                 PStr "[Errno 13] Permission denied: 'cache/llm/p1_comprehensive.json'")]),
     log_call (comprehensive_request analyzer one_paper) read_only).
Proof.
  destruct (unwritable_slot_loses_the_answer analyzer one_paper read_only
              PNone fenced_answer answer) as (e & Hsave & _ & Hrun).
  - reflexivity.
  - reflexivity.
  - reflexivity.
  - vm_compute. reflexivity.
  - reflexivity.
  - rewrite Hrun. vm_compute in Hsave.
    injection Hsave as <-. reflexivity.
Defined.

(** The analysis on the empty cache returns the stamped answer, which is
    in the slot. *)
Lemma analysis_is_stored_witness :
  exists a w',
    LLMAnalyzer.analyze_paper analyzer one_paper true world0 = (Ok a, w')
    /\ ((exists d, a = stamped d one_paper (clock world0)
                   /\ files w' !! comprehensive_slot analyzer one_paper
                      = Some (File (json_dumps a) (clock world0)))
        \/ (error_shaped a = true /\ files w' = files world0)).
Proof.
  destruct (LLMAnalyzer.analyze_paper analyzer one_paper true world0)
    as [r w'] eqn:Hrun.
  assert (Hr : exists a, r = Ok a).
  { change r with (fst (r, w')). rewrite <- Hrun. vm_compute. eauto. }
  destruct Hr as [a ->]. exists a, w'. split; [reflexivity|].
  apply (analysis_is_stored_or_error_shaped analyzer one_paper world0 PNone).
  - reflexivity.
  - reflexivity.
  - exact Hrun.
Defined.

(** A slot that holds a byte that is not UTF-8: the analysis raises what
    the read raises. *)
Lemma analysis_raises_witness :
  let w := corrupt_world (comprehensive_slot analyzer one_paper) in
  let e := Exn UnicodeDecodeError "'utf-8' codec can't decode byte" in
  LLMAnalyzer.analyze_paper analyzer one_paper true w = (Raise e, w)
  /\ ((true = true
       /\ stored_entry (files w) (comprehensive_slot analyzer one_paper)
          = Raise e)
      \/ (exn_class_of e = UnboundLocalError
          /\ exists e',
               llm_respond (calls w)
                 (comprehensive_request analyzer one_paper) = inr e'
               /\ is_JSONDecodeError e' = true)).
Proof.
  cbv zeta.
  assert (Hrun : LLMAnalyzer.analyze_paper analyzer one_paper true
                   (corrupt_world (comprehensive_slot analyzer one_paper))
                 = (Raise (Exn UnicodeDecodeError
                             "'utf-8' codec can't decode byte"),
                    corrupt_world (comprehensive_slot analyzer one_paper)))
    by (vm_compute; reflexivity).
  split; [exact Hrun|].
  apply (analysis_raises_in_two_cases analyzer one_paper true _ _ _ Hrun).
Defined.

End MoreOnTheReferenceRuntime.

Section OnAModelThatAnswersInProse.
Import Reference Scenarios.
#[local] Existing Instance Scenarios.prose_rt.

(** An answer in prose comes back under ['raw_response'] from both
    analyses. *)
Lemma unparsable_answer_witness :
  LLMAnalyzer.analyze_paper analyzer one_paper true world0
  = (Ok (PDict [("error", PStr "Failed to parse analysis");
                ("raw_response",
                 PStr "I am sorry, I cannot analyse this paper.")]),
     log_call (comprehensive_request analyzer one_paper) world0)
  /\ LLMAnalyzer.extract_mirofish_integration_points analyzer one_paper true
       world0
     = (Ok (PDict [("error", PStr "Failed to parse integration points");
                   ("raw_response",
                    PStr "I am sorry, I cannot analyse this paper.")]),
        log_call (mirofish_request analyzer one_paper) world0).
Proof.
  destruct (json_loads
              (strip_code_fence "I am sorry, I cannot analyse this paper."))
    as [v|e] eqn:Hjson; [vm_compute in Hjson; discriminate|].
  assert (He : is_JSONDecodeError e = true).
  { vm_compute in Hjson. injection Hjson as <-. reflexivity. }
  pose proof (unparsable_answer_is_returned analyzer one_paper world0
                PNone PNone "I am sorry, I cannot analyse this paper."
                "I am sorry, I cannot analyse this paper." e e) as H.
  apply H; try reflexivity; assumption.
Defined.

End OnAModelThatAnswersInProse.

Section OnAFeedOfTwoEntries.
Import Reference Scenarios.
#[local] Existing Instance Reference.rt.
#[local] Existing Instance Scenarios.feeds.

(** A search of arXiv on the empty cache returns the two papers of the
    feed and has written them. *)
Lemma arxiv_search_witness :
  exists l,
    fst (PaperCollectorMore.search_arxiv collector "microservices" 100 world0)
    = Ok (PList l)
    /\ calls (snd (PaperCollectorMore.search_arxiv collector "microservices"
                     100 world0))
       = arxiv_request "microservices" 100 :: calls world0
    /\ ((l = []
         /\ files (snd (PaperCollectorMore.search_arxiv collector
                          "microservices" 100 world0)) = files world0)
        \/ files (snd (PaperCollectorMore.search_arxiv collector
                         "microservices" 100 world0))
           = <[arxiv_slot collector "microservices" 100
               := File (json_dumps (PList l)) (clock world0)]>
               (files world0)).
Proof.
  apply (arxiv_search_returns_what_it_stored collector "microservices" 100
           world0).
  vm_compute. reflexivity.
Defined.

(** The feed whose second entry has no title: nothing is returned, not
    even the first entry, and nothing is stored. *)
Lemma malformed_entry_witness :
  PaperCollectorMore.search_arxiv collector "broken" 100 world0
  = (Ok (PList []), log_call (arxiv_request "broken" 100) world0).
Proof.
  apply (one_malformed_entry_drops_the_feed collector "broken" 100 world0
           bad_feed (untitled_entry "http://arxiv.org/abs/2305.00002v1")).
  - vm_compute. reflexivity.
  - reflexivity.
  - right. left. reflexivity.
  - reflexivity.
Defined.

(** The good feed: two papers, the titles without the white space
    around them. *)
Lemma well_formed_feed_witness :
  fst (PaperCollectorMore.search_arxiv collector "microservices" 100 world0)
  = Ok (PList (map paper_from (findall good_feed "atom:entry")))
  /\ map (fun paper =>
            match paper with
            | PDict d => dict_get d "title" PNone
            | _ => PNone
            end)
         (map paper_from (findall good_feed "atom:entry"))
     = [PStr "Microservices"; PStr "Monoliths"].
Proof.
  pose proof (well_formed_feed_is_stored collector "microservices" 100 world0
                good_feed) as H.
  destruct H as [Hrun _].
  - vm_compute. reflexivity.
  - reflexivity.
  - reflexivity.
  - reflexivity.
  - split; [rewrite Hrun; reflexivity|vm_compute; reflexivity].
Defined.

(** The slot of the search holds a byte that is not UTF-8: the search
    raises what the read raises. *)
Lemma arxiv_search_raises_witness :
  let w := corrupt_world (arxiv_slot collector "microservices" 100) in
  let e := Exn UnicodeDecodeError "'utf-8' codec can't decode byte" in
  PaperCollectorMore.search_arxiv collector "microservices" 100 w
  = (Raise e, w)
  /\ PaperCollector._load_from_cache collector
       (PaperCollectorMore.arxiv_key collector "microservices" 100) 24 w
     = (Raise e, w).
Proof.
  cbv zeta.
  assert (Hrun : PaperCollectorMore.search_arxiv collector "microservices" 100
                   (corrupt_world (arxiv_slot collector "microservices" 100))
                 = (Raise (Exn UnicodeDecodeError
                             "'utf-8' codec can't decode byte"),
                    corrupt_world (arxiv_slot collector "microservices" 100)))
    by (vm_compute; reflexivity).
  split; [exact Hrun|].
  apply (arxiv_search_raises_only_on_read collector "microservices" 100 _ _ _
           Hrun).
Defined.

End OnAFeedOfTwoEntries.

Section OnAServiceOfThreePapers.
Import Reference Scenarios.
#[local] Existing Instance Scenarios.graph_rt.
#[local] Existing Instance Scenarios.feeds.

(** The details of a paper from arXiv are not fetched. *)
Lemma details_of_another_source_witness :
  PaperCollectorMore.get_paper_details collector (PStr "p1") "arxiv" world0
  = PaperCollector._load_from_cache collector
      (PaperCollectorMore.details_key collector (PStr "p1") "arxiv") 24 world0
  /\ snd (PaperCollectorMore.get_paper_details collector (PStr "p1") "arxiv"
            world0) = world0.
Proof.
  apply (details_of_another_source_are_only_read collector (PStr "p1")
           "arxiv" world0).
  discriminate.
Defined.

(** The first paper is fetched, and a day later it is served without a
    request. *)
Lemma details_are_fetched_once_witness :
  let w1 := snd (PaperCollectorMore.get_paper_details collector (PStr "p1")
                   "semantic_scholar" world0) in
  fst (PaperCollectorMore.get_paper_details collector (PStr "p1")
         "semantic_scholar" world0)
  = Ok (cited_paper "p1" ["p2"; "p3"])
  /\ PaperCollectorMore.get_paper_details collector (PStr "p1")
       "semantic_scholar" (later day w1)
     = (Ok (cited_paper "p1" ["p2"; "p3"]), later day w1).
Proof.
  cbv zeta.
  apply (details_are_fetched_once collector (PStr "p1") world0
           (cited_paper "p1" ["p2"; "p3"])).
  - vm_compute. reflexivity.
  - reflexivity.
  - reflexivity.
  - split; vm_compute; reflexivity.
  - discriminate.
  - reflexivity.
  - vm_compute. discriminate.
Defined.

(** A paper that the service does not know is asked for again. *)
Lemma failed_fetch_witness :
  PaperCollectorMore.get_paper_details collector (PStr "p9")
    "semantic_scholar" world0
  = (Ok PNone, log_call (details_request collector (PStr "p9")) world0)
  /\ calls (snd (PaperCollectorMore.get_paper_details collector (PStr "p9")
                   "semantic_scholar"
                   (snd (PaperCollectorMore.get_paper_details collector
                           (PStr "p9") "semantic_scholar" world0))))
     = [details_request collector (PStr "p9");
        details_request collector (PStr "p9")].
Proof.
  apply (failed_fetch_is_retried collector (PStr "p9") world0
           (Exn RequestException "404 Client Error: Not Found")).
  - vm_compute. reflexivity.
  - reflexivity.
  - reflexivity.
Defined.

(** The first paper when the cache directory cannot be written. *)
Lemma details_unwritable_witness :
  exists e,
    PaperCollectorMore.get_paper_details collector (PStr "p1")
      "semantic_scholar" read_only
    = (Raise e, log_call (details_request collector (PStr "p1")) read_only)
    /\ exn_class_of e = OSError.
Proof.
  apply (details_raise_when_the_slot_is_unwritable collector (PStr "p1")
           read_only (cited_paper "p1" ["p2"; "p3"])).
  - vm_compute. reflexivity.
  - reflexivity.
  - reflexivity.
Defined.

(** The network of the first paper at depth two: the three papers and
    the two citations of the first. *)
Lemma network_is_consistent_witness :
  exists net w',
    PaperCollectorMore.collect_citation_network collector [PStr "p1"] 2 world0
    = (Ok net, w')
    /\ collected_ids (PaperCollectorMore.papers net)
       = [PStr "p1"; PStr "p2"; PStr "p3"]
    /\ PaperCollectorMore.total_citations net = 2
    /\ NoDup (collected_keys (PaperCollectorMore.papers net))
    /\ Forall (fun c => exists id,
                 id ∈ collected_ids (PaperCollectorMore.papers net)
                 /\ cites_from id c)
              (PaperCollectorMore.citations net).
Proof.
  destruct (PaperCollectorMore.collect_citation_network collector [PStr "p1"]
              2 world0) as [r w'] eqn:Hrun.
  assert (Hr : exists net, r = Ok net
                 /\ collected_ids (PaperCollectorMore.papers net)
                    = [PStr "p1"; PStr "p2"; PStr "p3"]
                 /\ PaperCollectorMore.total_citations net = 2).
  { change r with (fst (r, w')). rewrite <- Hrun. vm_compute. eauto. }
  destruct Hr as (net & -> & Hids & Hn). exists net, w'.
  split; [reflexivity|]. split; [exact Hids|]. split; [exact Hn|].
  destruct (network_is_consistent collector [PStr "p1"] 2 world0 net w' Hrun)
    as (Hnd & _ & Hfrom & _).
  split; [exact Hnd|exact Hfrom].
Defined.

(** The same network takes three seconds or more. *)
Lemma network_pauses_witness :
  exists net w',
    PaperCollectorMore.collect_citation_network collector [PStr "p1"] 2 world0
    = (Ok net, w')
    /\ PaperCollectorMore.total_papers net = 3
    /\ clock world0 + 3000000 <= clock w'
    /\ PaperCollectorMore.collected_at net = isoformat (clock w').
Proof.
  destruct (PaperCollectorMore.collect_citation_network collector [PStr "p1"]
              2 world0) as [r w'] eqn:Hrun.
  assert (Hr : exists net, r = Ok net
                 /\ PaperCollectorMore.total_papers net = 3).
  { change r with (fst (r, w')). rewrite <- Hrun. vm_compute. eauto. }
  destruct Hr as (net & -> & Hn). exists net, w'.
  split; [reflexivity|]. split; [exact Hn|].
  destruct (network_pauses_once_per_paper collector [PStr "p1"] 2 world0 net
              w' Hrun) as (Hclock & _ & Hat).
  split; [rewrite Hn in Hclock; exact Hclock|exact Hat].
Defined.

(** At depth one the first paper is collected alone, without its
    citations. *)
Lemma shallow_network_witness :
  exists net w',
    PaperCollectorMore.collect_citation_network collector [PStr "p1"] 1 world0
    = (Ok net, w')
    /\ collected_ids (PaperCollectorMore.papers net) = [PStr "p1"]
    /\ PaperCollectorMore.citations net = [].
Proof.
  destruct (PaperCollectorMore.collect_citation_network collector [PStr "p1"]
              1 world0) as [r w'] eqn:Hrun.
  assert (Hr : exists net, r = Ok net
                 /\ collected_ids (PaperCollectorMore.papers net)
                    = [PStr "p1"]).
  { change r with (fst (r, w')). rewrite <- Hrun. vm_compute. eauto. }
  destruct Hr as (net & -> & Hids). exists net, w'.
  split; [reflexivity|]. split; [exact Hids|].
  assert (Hdepth : 1 <= 1) by lia.
  destruct (shallow_network_has_no_citation collector [PStr "p1"] 1 world0 net
              w' Hdepth Hrun) as (Hnone & _).
  exact Hnone.
Defined.

End OnAServiceOfThreePapers.
